(** * AutoByteGUI: the script runner and its process session

    A shallow embedding of [AutoByteGUI.py]: the module-level state
    ([current_proc], the Tk widgets), the callbacks [run_script],
    [stop_process], [send_input], [reset_ui], [write_log], and the [reader]
    closure run by the background thread, followed by the properties of the
    session controller they implement.

    Python strings are sequences of Unicode code points, the operating
    system (processes, pipes, temporary files) is an explicit part of the
    state, and whatever the outside world decides (the HTTP answer, whether
    a spawn or a write succeeds, what a process prints and when it exits)
    is an argument of the function or a label of the step that depends on
    it.  A callback of the main loop runs as a whole; the [reader] thread
    runs beside the main loop, and between any two of its calls on a
    widget the main loop may handle another event. *)

From Stdlib Require Import ZArith NArith Lia DecimalString.
From stdpp Require Import base option list gmap strings.

Open Scope Z_scope.
Open Scope list_scope.

(** ** Python strings *)

Module Py.

(** A [str] is a sequence of code points. *)
Definition str := list N.

(** A literal of the source, written with its ASCII characters. *)
Definition lit (s : string) : str :=
  Ascii.N_of_ascii <$> String.list_ascii_of_string s.

(** [str(n)] for an [int]. *)
Definition str_of_int (z : Z) : str :=
  lit (NilZero.string_of_int (Z.to_int z)).

(** [str.isspace] on one code point: the characters [str.rstrip()] removes
    when it is called without argument. *)
Definition isspace (c : N) : bool :=
  ((9 <=? c) && (c <=? 13) || (28 <=? c) && (c <=? 32)
   || (c =? 133) || (c =? 160) || (c =? 5760)
   || (8192 <=? c) && (c <=? 8202) || (c =? 8232) || (c =? 8233)
   || (c =? 8239) || (c =? 8287) || (c =? 12288))%N.

(** [s.rstrip()]: drop the longest suffix of white space. *)
Fixpoint rstrip (s : str) : str :=
  match s with
  | [] => []
  | c :: s' =>
      match rstrip s' with
      | [] => if isspace c then [] else [c]
      | r => c :: r
      end
  end.

(** An exception, with the text [str(e)] that an f-string shows. *)
Inductive exn := Exception (kind : str) (msg : str).

Definition str_of_exn (e : exn) : str :=
  match e with Exception _ m => m end.

End Py.

Import Py.

(** ** The state of the program and of the system around it *)

(** The [state] option of a Tk button. *)
Inductive widget_state := normal | disabled.

(** Who inserted a line into the console: a callback of the controller, or
    the reader forwarding a line of the process with that index.  The
    widget itself stores only the text; the tag is ghost information used
    to speak of "the lines of a process". *)
Inductive origin := by_controller | by_process (p : nat).

#[global] Instance origin_eq_dec : EqDecision origin.
Proof. solve_decision. Defined.

Record Widgets := {
  script_buttons : list widget_state;
  stop_btn : widget_state;
  status_label : str;
  output_box : list (origin * str);  (* the insertions that took effect *)
  hidden : nat;                      (* how many of them Clear deleted *)
  box_state : widget_state;          (* the [state] option of the console *)
  ignored : list (origin * str);     (* the insertions a disabled console
                                        did not take; ghost, like the tags *)
  input_entry : str }.

(** One call on a widget.  [write_log] and [reset_ui] are sequences of
    such calls. *)
Inductive tk_call :=
| box_configure (st : widget_state)   (* [output_box.configure(state=st)] *)
| box_insert (o : origin) (message : str)
                                      (* [output_box.insert(END, message + nl)] *)
| box_see                             (* [output_box.see(END)] *)
| btn_configure (i : nat) (st : widget_state)
                                      (* [script_buttons[i].configure(state=st)] *)
| stop_configure (st : widget_state)  (* [stop_btn.configure(state=st)] *)
| status_config (txt : str).          (* [status_label.config(text=txt)] *)

(** How a standard stream of a child is set up by [subprocess.Popen]. *)
Inductive stdio := PIPE | STDOUT | INHERITED.

(** A call made on the [stdin] object of a child. *)
Inductive stdin_call := stdin_write (data : str) | stdin_flush.

(** A [Popen] object together with the child it stands for: how it was
    launched, the calls made on its [stdin], the lines it has put on its
    output stream so far, how many of them the iteration over [stdout] has
    taken, and its exit status once it has one. *)
Record Popen := {
  args : list str;
  stdin : stdio;
  stdout : stdio;
  stderr : stdio;
  text : bool;
  stdin_calls : list stdin_call;
  emitted : list str;
  consumed : nat;
  returncode : option Z }.

(** Where the [reader] closure of one [run_script] call stands. *)
Inductive reader_pc :=
| at_for                         (* about to evaluate [current_proc.stdout] *)
| in_for (p : nat)               (* iterating over the stream of child [p] *)
| in_body (p : nat) (line : str) (* a line is read, [write_log] comes next *)
| at_wait                        (* stream exhausted, [current_proc.wait()] *)
| at_remove (code : Z)           (* [os.remove(tmp.name)] comes next *)
| at_log (code : Z)              (* the [Completed] line comes next *)
| at_reset                       (* [reset_ui()] comes next *)
| in_call (todo : list tk_call) (next : reader_pc)
                                 (* inside [write_log] or [reset_ui]: the
                                    calls still to make, then on to [next] *)
| finished
| died (e : exn).                (* an exception ended the thread *)

(** A reader thread: the temporary file its closure captured ([tmp]) and
    its program point. *)
Record Reader := { tmp : nat; pc : reader_pc }.

Record State := {
  current_proc : option nat;     (* the global: an index into [procs] *)
  procs : list Popen;            (* every child spawned so far *)
  files : gmap nat str;          (* the temporary files on disk *)
  tmp_count : nat;               (* temporary files created so far *)
  removed : list nat;            (* the successful [os.remove] calls *)
  gui : Widgets;
  threads : list Reader;
  tracebacks : list exn }.       (* exceptions that left a Tk callback *)

(** What a call does: return, or raise. *)
Inductive outcome := Returned (s : State) | Raised (e : exn) (s : State).

Definition state_of (o : outcome) : State :=
  match o with Returned s | Raised _ s => s end.

(** *** Field updates *)

Definition with_gui (f : Widgets -> Widgets) (s : State) : State :=
  {| current_proc := current_proc s; procs := procs s; files := files s;
     tmp_count := tmp_count s; removed := removed s; gui := f (gui s);
     threads := threads s; tracebacks := tracebacks s |}.

Definition with_procs (f : list Popen -> list Popen) (s : State) : State :=
  {| current_proc := current_proc s; procs := f (procs s); files := files s;
     tmp_count := tmp_count s; removed := removed s; gui := gui s;
     threads := threads s; tracebacks := tracebacks s |}.

Definition with_threads (f : list Reader -> list Reader) (s : State) : State :=
  {| current_proc := current_proc s; procs := procs s; files := files s;
     tmp_count := tmp_count s; removed := removed s; gui := gui s;
     threads := f (threads s); tracebacks := tracebacks s |}.

Definition with_current_proc (c : option nat) (s : State) : State :=
  {| current_proc := c; procs := procs s; files := files s;
     tmp_count := tmp_count s; removed := removed s; gui := gui s;
     threads := threads s; tracebacks := tracebacks s |}.

Definition with_traceback (e : exn) (s : State) : State :=
  {| current_proc := current_proc s; procs := procs s; files := files s;
     tmp_count := tmp_count s; removed := removed s; gui := gui s;
     threads := threads s; tracebacks := tracebacks s ++ [e] |}.

(** A new temporary file: [NamedTemporaryFile(delete=False, ...)] picks a
    name that no file has; names are numbered in the order of creation. *)
Definition create_tmp (content : str) (s : State) : State :=
  {| current_proc := current_proc s; procs := procs s;
     files := <[tmp_count s := content]> (files s);
     tmp_count := S (tmp_count s); removed := removed s; gui := gui s;
     threads := threads s; tracebacks := tracebacks s |}.

Definition delete_file (n : nat) (s : State) : State :=
  {| current_proc := current_proc s; procs := procs s;
     files := delete n (files s);
     tmp_count := tmp_count s; removed := removed s ++ [n]; gui := gui s;
     threads := threads s; tracebacks := tracebacks s |}.

Definition set_pc (c : reader_pc) (r : Reader) : Reader :=
  {| tmp := tmp r; pc := c |}.

Definition with_thread (t : nat) (c : reader_pc) (s : State) : State :=
  with_threads (alter (set_pc c) t) s.

Definition with_proc (p : nat) (f : Popen -> Popen) (s : State) : State :=
  with_procs (alter f p) s.

(** The [name] attribute of the [n]-th temporary file; [suffix='.ps1']. *)
Definition tmp_name (n : nat) : str :=
  lit "tmp" ++ str_of_int (Z.of_nat n) ++ lit ".ps1".

(** ** The module-level constants *)

Definition nl : str := [10%N].

Definition GITHUB_SCRIPTS : list (str * str) :=
  let base := "https://raw.githubusercontent.com/deep1ne8/misc/main/Scripts/"%string in
  (fun '(label, file) => (lit label, lit (base +:+ file))) <$>
  [ ("Disk Cleaner", "DiskCleaner.ps1");
    ("Enable Files On Demand", "EnableFilesOnDemand.ps1");
    ("Download & Install Package", "DownloadandInstallPackage.ps1");
    ("Check User Profile", "CheckUserProfileIssue.ps1");
    ("Dell Bloatware Remover", "BloatWareRemover.ps1");
    ("Reset & Install Windows Update", "InstallWindowsUpdate.ps1");
    ("Windows System Repair", "WindowsSystemRepair.ps1");
    ("Reset Windows Search DB", "ResetandClearWindowsSearchDB.ps1");
    ("Install MS Projects", "InstallMSProjects.ps1");
    ("Check Drive Space", "CheckDriveSpace.ps1");
    ("Internet Speed Test", "InternetSpeedTest.ps1");
    ("Internet Latency Test", "InternetLatencyTest.ps1");
    ("Monitor Troubleshooter", "WorkPaperMonitorTroubleShooter.ps1") ]%string.

(** The header that overrides [Read-Host] in the downloaded scripts. *)
Definition PS_OVERRIDE : str :=
  nl ++ lit "# Redirect Read-Host to stdin pipe" ++
  nl ++ lit "if (Get-Command Read-Host -ErrorAction SilentlyContinue) {" ++
  nl ++ lit "    Remove-Item Function:\Read-Host -ErrorAction SilentlyContinue" ++
  nl ++ lit "}" ++
  nl ++ lit "function Read-Host {" ++
  nl ++ lit "    param([string]$prompt=" ++ [34; 34]%N ++ lit ")" ++
  nl ++ lit "    Write-Host $prompt -NoNewline" ++
  nl ++ lit "    return [Console]::In.ReadLine()" ++
  nl ++ lit "}" ++ nl.

(** The state when [root.mainloop()] starts: no child, one enabled button
    per catalog entry, the stop button as created (enabled), an empty
    console, created with [state='disabled'], and an empty entry. *)
Definition initial : State :=
  {| current_proc := None; procs := []; files := ∅; tmp_count := 0;
     removed := [];
     gui := {| script_buttons := (fun _ => normal) <$> GITHUB_SCRIPTS;
               stop_btn := normal;
               status_label := lit "Ready";
               output_box := [];
               hidden := 0%nat;
               box_state := disabled;
               ignored := [];
               input_entry := [] |};
     threads := []; tracebacks := [] |}.

(** ** The callbacks *)

Definition is_normal (w : widget_state) : bool :=
  match w with normal => true | disabled => false end.

(** What one call does to the widgets.  A [Text] widget whose state is
    [disabled] ignores [insert]; the index of [btn_configure] comes from
    a loop over [script_buttons] and is never out of range. *)
Definition tk_exec (c : tk_call) (g : Widgets) : Widgets :=
  match c with
  | box_configure st =>
      {| script_buttons := script_buttons g; stop_btn := stop_btn g;
         status_label := status_label g; output_box := output_box g;
         hidden := hidden g; box_state := st; ignored := ignored g;
         input_entry := input_entry g |}
  | box_insert o message =>
      if is_normal (box_state g) then
        {| script_buttons := script_buttons g; stop_btn := stop_btn g;
           status_label := status_label g;
           output_box := output_box g ++ [(o, message)];
           hidden := hidden g; box_state := box_state g; ignored := ignored g;
           input_entry := input_entry g |}
      else
        {| script_buttons := script_buttons g; stop_btn := stop_btn g;
           status_label := status_label g; output_box := output_box g;
           hidden := hidden g; box_state := box_state g;
           ignored := ignored g ++ [(o, message)];
           input_entry := input_entry g |}
  | box_see => g
  | btn_configure i st =>
      {| script_buttons := <[i := st]> (script_buttons g);
         stop_btn := stop_btn g;
         status_label := status_label g; output_box := output_box g;
         hidden := hidden g; box_state := box_state g; ignored := ignored g;
         input_entry := input_entry g |}
  | stop_configure st =>
      {| script_buttons := script_buttons g; stop_btn := st;
         status_label := status_label g; output_box := output_box g;
         hidden := hidden g; box_state := box_state g; ignored := ignored g;
         input_entry := input_entry g |}
  | status_config txt =>
      {| script_buttons := script_buttons g; stop_btn := stop_btn g;
         status_label := txt; output_box := output_box g;
         hidden := hidden g; box_state := box_state g; ignored := ignored g;
         input_entry := input_entry g |}
  end.

(** The calls in a row, nothing in between. *)
Definition run_calls (cs : list tk_call) (g : Widgets) : Widgets :=
  foldl (fun g c => tk_exec c g) g cs.

(** The four calls of [write_log(output_box, message)], in the order of
    the source. *)
Definition write_log_calls (o : origin) (message : str) : list tk_call :=
  [box_configure normal; box_insert o message; box_see; box_configure disabled].

(** The calls of [reset_ui()] when there are [n] script buttons. *)
Definition reset_ui_calls (n : nat) : list tk_call :=
  ((fun i => btn_configure i normal) <$> seq 0 n) ++
  [stop_configure disabled; status_config (lit "Ready")].

(** [write_log(output_box, message)] run as a whole, as a callback of the
    main loop runs it: the console is made writable, so the insertion at
    its end takes effect, and is left disabled. *)
Definition write_log (o : origin) (message : str) (s : State) : State :=
  with_gui (fun g =>
    {| script_buttons := script_buttons g; stop_btn := stop_btn g;
       status_label := status_label g;
       output_box := output_box g ++ [(o, message)];
       hidden := hidden g; box_state := disabled; ignored := ignored g;
       input_entry := input_entry g |}) s.

(** [reset_ui()] run as a whole. *)
Definition reset_ui (s : State) : State :=
  with_gui (fun g =>
    {| script_buttons := (fun _ => normal) <$> script_buttons g;
       stop_btn := disabled;
       status_label := lit "Ready";
       output_box := output_box g;
       hidden := hidden g; box_state := box_state g; ignored := ignored g;
       input_entry := input_entry g |}) s.

(** [current_proc.poll()] on child [p]. *)
Definition poll (p : nat) (s : State) : option Z :=
  procs s !! p ≫= returncode.

(** The exit status of a child ended by [kill()]: [powershell.exe] runs on
    Windows, where [kill] is [TerminateProcess(handle, 1)]. *)
Definition killed_status : Z := 1.

(** The child ends, by itself or not; a child that has ended stays so. *)
Definition exit_with (code : Z) (pr : Popen) : Popen :=
  {| args := args pr; stdin := stdin pr; stdout := stdout pr;
     stderr := stderr pr; text := text pr; stdin_calls := stdin_calls pr;
     emitted := emitted pr; consumed := consumed pr;
     returncode := match returncode pr with
                   | None => Some code
                   | Some c => Some c
                   end |}.

(** [current_proc.kill()]: nothing happens to a child that has exited. *)
Definition kill (p : nat) (s : State) : State :=
  with_proc p (exit_with killed_status) s.

(** [stop_process()].  [race] is the status with which the child exits by
    itself between the [poll()] of the test and the [kill()], if it does. *)
Definition stop_process (race : option Z) (s : State) : outcome :=
  match current_proc s with
  | Some p =>
      match poll p s with
      | None =>
          let s := match race with
                   | Some code => with_proc p (exit_with code) s
                   | None => s
                   end in
          let s := kill p s in
          let s := write_log by_controller (lit "[Stopped]") s in
          Returned (reset_ui s)
      | Some _ => Returned s
      end
  | None => Returned s
  end.

(** What the two calls on [current_proc.stdin] do. *)
Inductive send_result :=
| sent
| write_raises (e : exn)
| flush_raises (e : exn).

Definition call_stdin (p : nat) (c : stdin_call) (s : State) : State :=
  with_proc p (fun pr =>
    {| args := args pr; stdin := stdin pr; stdout := stdout pr;
       stderr := stderr pr; text := text pr;
       stdin_calls := stdin_calls pr ++ [c];
       emitted := emitted pr; consumed := consumed pr;
       returncode := returncode pr |}) s.

Definition clear_entry (s : State) : State :=
  with_gui (fun g =>
    {| script_buttons := script_buttons g; stop_btn := stop_btn g;
       status_label := status_label g; output_box := output_box g;
       hidden := hidden g; box_state := box_state g; ignored := ignored g;
       input_entry := [] |}) s.

(** [send_input(event)]. *)
Definition send_input (io : send_result) (s : State) : outcome :=
  let text := input_entry (gui s) in
  let s :=
    match current_proc s with
    | Some p =>
        match poll p s with
        | None =>
            let s := call_stdin p (stdin_write (text ++ nl)) s in
            match io with
            | write_raises e =>
                write_log by_controller (lit "[Send error] " ++ str_of_exn e) s
            | flush_raises e =>
                let s := call_stdin p stdin_flush s in
                write_log by_controller (lit "[Send error] " ++ str_of_exn e) s
            | sent =>
                let s := call_stdin p stdin_flush s in
                write_log by_controller (lit "> " ++ text) s
            end
        | Some _ => s
        end
    | None => s
    end in
  Returned (clear_entry s).

(** *** Starting a script *)

(** The answer to [requests.get(url, timeout=30)]. *)
Record Response := { status_code : Z; reason : str; resp_text : str }.

Inductive get_result := get_raises (e : exn) | get_returns (r : Response).

(** [resp.raise_for_status()] of the requests library: an [HTTPError] for
    the 4xx and 5xx answers, nothing otherwise. *)
Definition raise_for_status (url : str) (r : Response) : option exn :=
  if (400 <=? status_code r) && (status_code r <? 500) then
    Some (Exception (lit "HTTPError")
            (str_of_int (status_code r) ++ lit " Client Error: " ++
             reason r ++ lit " for url: " ++ url))
  else if (500 <=? status_code r) && (status_code r <? 600) then
    Some (Exception (lit "HTTPError")
            (str_of_int (status_code r) ++ lit " Server Error: " ++
             reason r ++ lit " for url: " ++ url))
  else None.

(** What creating and writing the temporary file does: all goes well, or
    the creation raises, or the file is created and [write] or [close]
    raises, leaving some [partial] content. *)
Inductive tmp_result :=
| tmp_written
| tmp_create_raises (e : exn)
| tmp_write_raises (e : exn) (partial : str).

(** What the outside world does during one call of [run_script]. *)
Record World := {
  http_get : get_result;
  tmp_io : tmp_result;
  spawn : option exn }.          (* the exception of [Popen], if it raises *)

(** The body of the [try]: the index of the temporary file when it
    completes, the exception caught by [except Exception] otherwise. *)
Definition download (url : str) (w : World) (s : State)
  : exn * State + nat * State :=
  match http_get w with
  | get_raises e => inl (e, s)
  | get_returns resp =>
      match raise_for_status url resp with
      | Some e => inl (e, s)
      | None =>
          let script_content := PS_OVERRIDE ++ nl ++ resp_text resp in
          match tmp_io w with
          | tmp_create_raises e => inl (e, s)
          | tmp_write_raises e partial => inl (e, create_tmp partial s)
          | tmp_written =>
              let n := tmp_count s in
              let s := create_tmp script_content s in
              inr (n, write_log by_controller (lit "Saved to " ++ tmp_name n) s)
          end
      end
  end.

(** The child as [subprocess.Popen] creates it for the script [file]. *)
Definition spawned (file : str) : Popen :=
  {| args := [lit "powershell.exe"; lit "-NoProfile";
              lit "-ExecutionPolicy"; lit "Bypass"; lit "-File"; file];
     stdin := PIPE; stdout := PIPE; stderr := STDOUT; text := true;
     stdin_calls := []; emitted := []; consumed := 0%nat;
     returncode := None |}.

(** [run_script(url, desc)]. *)
Definition run_script (url desc : str) (w : World) (s : State) : outcome :=
  let s := with_gui (fun g =>
    {| script_buttons := (fun _ => disabled) <$> script_buttons g;
       stop_btn := normal;
       status_label := lit "Running: " ++ desc;
       output_box := output_box g;
       hidden := hidden g; box_state := box_state g; ignored := ignored g;
       input_entry := input_entry g |}) s in
  let s := write_log by_controller ([62; 9654; 32]%N ++ desc) s in
  let s := write_log by_controller (lit "Downloading from " ++ url) s in
  match download url w s with
  | inl (e, s) =>
      let s := write_log by_controller
                 (lit "[Download error] " ++ str_of_exn e) s in
      Returned (reset_ui s)
  | inr (n, s) =>
      match spawn w with
      | Some e => Raised e s
      | None =>
          let p := length (procs s) in
          let s := with_procs (fun l => l ++ [spawned (tmp_name n)]) s in
          let s := with_current_proc (Some p) s in
          Returned (with_threads (fun l => l ++ [{| tmp := n; pc := at_for |}]) s)
      end
  end.

(** *** The reader thread *)

Definition take_line (pr : Popen) : Popen :=
  {| args := args pr; stdin := stdin pr; stdout := stdout pr;
     stderr := stderr pr; text := text pr; stdin_calls := stdin_calls pr;
     emitted := emitted pr; consumed := S (consumed pr);
     returncode := returncode pr |}.

(** Where the thread stands once it has made a call of the function it is
    in: still in the function, or past it. *)
Definition after_calls (rest : list tk_call) (next : reader_pc) : reader_pc :=
  match rest with
  | [] => next
  | _ :: _ => in_call rest next
  end.

(** Thread [t] makes the first of the calls [todo]; after the last one it
    goes on at [next]. *)
Definition call_next (t : nat) (todo : list tk_call) (next : reader_pc)
    (s : State) : State :=
  match todo with
  | [] => with_thread t next s
  | c :: rest => with_thread t (after_calls rest next) (with_gui (tk_exec c) s)
  end.

Arguments call_next : simpl never.

(** One step of the [reader] closure run by thread [t]; [None] when the
    thread is blocked (nothing to read from a live child, or waiting for a
    child that has not exited) or has ended.  [current_proc] is the global
    at the time of the step: the closure does not capture the child.  A
    call of [write_log] or [reset_ui] takes one step per call on a
    widget. *)
Definition reader_step (t : nat) (s : State) : option State :=
  r ← threads s !! t;
  match pc r with
  | at_for =>
      p ← current_proc s;
      Some (with_thread t (in_for p) s)
  | in_for p =>
      pr ← procs s !! p;
      match emitted pr !! consumed pr with
      | Some line => Some (with_thread t (in_body p line) (with_proc p take_line s))
      | None =>
          match returncode pr with
          | Some _ => Some (with_thread t at_wait s)
          | None => None
          end
      end
  | in_body p line =>
      Some (call_next t (write_log_calls (by_process p) (rstrip line))
              (in_for p) s)
  | at_wait =>
      p ← current_proc s;
      code ← poll p s;
      Some (with_thread t (at_remove code) s)
  | at_remove code =>
      match files s !! tmp r with
      | Some _ => Some (with_thread t (at_log code) (delete_file (tmp r) s))
      | None =>
          Some (with_thread t
                  (died (Exception (lit "FileNotFoundError") (tmp_name (tmp r)))) s)
      end
  | at_log code =>
      Some (call_next t
              (write_log_calls by_controller
                 (lit "[Completed] Exit code: " ++ str_of_int code))
              at_reset s)
  | at_reset =>
      Some (call_next t (reset_ui_calls (length (script_buttons (gui s))))
              finished s)
  | in_call todo next => Some (call_next t todo next s)
  | finished | died _ => None
  end.

(** The iteration over [current_proc.stdout] raises in thread [t]: the
    stream is decoded as text with the strict error handler, so bytes of
    the child that are not valid in the encoding make the next read raise
    ([UnicodeDecodeError]).  Nothing catches the exception: the thread
    ends there. *)
Definition reader_raise (t : nat) (e : exn) (s : State) : option State :=
  r ← threads s !! t;
  match pc r with
  | in_for _ => Some (with_thread t (died e) s)
  | _ => None
  end.

(** ** The running program *)

(** What can happen next: an action of the user on a widget, an action of
    a child, or one step of a reader thread. *)
Inductive label :=
| click_script (i : nat) (w : World)   (* the [i]-th script button *)
| click_stop (race : option Z)
| submit_input (io : send_result)      (* Return in the entry, or Send *)
| type_entry (content : str)
| click_clear
| proc_emit (p : nat) (line : str)
| proc_exit (p : nat) (code : Z)
| thread_step (t : nat)
| read_raises (t : nat) (e : exn).     (* the read of thread [t] fails *)

(** Tk runs a callback inside its own handler: an exception that leaves
    the callback is reported (a traceback on the error stream) and the
    main loop goes on. *)
Definition callback (o : outcome) : State :=
  match o with
  | Returned s => s
  | Raised e s => with_traceback e s
  end.

Definition starting (r : Reader) : bool :=
  match pc r with at_for => true | _ => false end.

Definition put_line (line : str) (pr : Popen) : Popen :=
  {| args := args pr; stdin := stdin pr; stdout := stdout pr;
     stderr := stderr pr; text := text pr; stdin_calls := stdin_calls pr;
     emitted := emitted pr ++ [line]; consumed := consumed pr;
     returncode := returncode pr |}.

(** One step.  A disabled button does not call its command.  The Clear
    button makes the console writable, deletes its text and disables it
    again.  With
    [prompt] set, a script button is handled only once every reader thread
    has evaluated the iterable of its loop: [Thread.start()] returns when
    the thread runs, and the flag states that the thread takes its first
    step before the user's next click on a script. *)
Definition step (prompt : bool) (l : label) (s : State) : option State :=
  match l with
  | click_script i w =>
      b ← script_buttons (gui s) !! i;
      '(label, url) ← GITHUB_SCRIPTS !! i;
      if is_normal b && negb (prompt && existsb starting (threads s))
      then Some (callback (run_script url label w s))
      else None
  | click_stop race =>
      if is_normal (stop_btn (gui s))
      then Some (callback (stop_process race s))
      else None
  | submit_input io => Some (callback (send_input io s))
  | type_entry content =>
      Some (with_gui (fun g =>
        {| script_buttons := script_buttons g; stop_btn := stop_btn g;
           status_label := status_label g; output_box := output_box g;
           hidden := hidden g; box_state := box_state g;
           ignored := ignored g; input_entry := content |}) s)
  | click_clear =>
      Some (with_gui (fun g =>
        {| script_buttons := script_buttons g; stop_btn := stop_btn g;
           status_label := status_label g; output_box := output_box g;
           hidden := length (output_box g);
           box_state := disabled; ignored := ignored g;
           input_entry := input_entry g |}) s)
  | proc_emit p line =>
      pr ← procs s !! p;
      match returncode pr with
      | None => Some (with_proc p (put_line line) s)
      | Some _ => None
      end
  | proc_exit p code =>
      pr ← procs s !! p;
      match returncode pr with
      | None => Some (with_proc p (exit_with code) s)
      | Some _ => None
      end
  | thread_step t => reader_step t s
  | read_raises t e => reader_raise t e s
  end.

(** A run from a state along a list of labels. *)
Fixpoint run (prompt : bool) (ls : list label) (s : State) : option State :=
  match ls with
  | [] => Some s
  | l :: ls => s' ← step prompt l s; run prompt ls s'
  end.

(** The states the program can be in. *)
Inductive reachable (prompt : bool) : State -> Prop :=
| reachable_initial : reachable prompt initial
| reachable_step l s s' :
    reachable prompt s -> step prompt l s = Some s' -> reachable prompt s'.

(** What the console shows: the insertions Clear has not deleted. *)
Definition shown (s : State) : list str :=
  snd <$> drop (hidden (gui s)) (output_box (gui s)).

(** The lines of child [p] that the console has received, in the order of
    their insertion. *)
Definition lines_of (p : nat) (box : list (origin * str)) : list str :=
  snd <$> filter (fun e => fst e = by_process p) box.

(** The child [current_proc] refers to is alive. *)
Definition running (p : nat) (s : State) : Prop :=
  current_proc s = Some p /\
  exists pr, procs s !! p = Some pr /\ returncode pr = None.

(** ** Sample states and worlds *)

Definition ok_response (body : str) : Response :=
  {| status_code := 200; reason := lit "OK"; resp_text := body |}.

(** Everything goes well: the script is served, written and launched. *)
Definition fine (body : str) : World :=
  {| http_get := get_returns (ok_response body);
     tmp_io := tmp_written; spawn := None |}.

(** The server answers 404. *)
Definition not_found : World :=
  {| http_get := get_returns
       {| status_code := 404; reason := lit "Not Found"; resp_text := [] |};
     tmp_io := tmp_written; spawn := None |}.

(** The script is served and written, but the interpreter cannot start. *)
Definition no_interpreter (body : str) : World :=
  {| http_get := get_returns (ok_response body);
     tmp_io := tmp_written;
     spawn := Some (Exception (lit "FileNotFoundError")
                      (lit "[WinError 2] The system cannot find the file specified")) |}.

Definition one_liner : str := lit "Write-Output 'ok'".

(** The state after a click on "Check Drive Space" that goes well. *)
Definition started : State :=
  default initial (step false (click_script 9 (fine one_liner)) initial).

(** The same, with something typed into the entry. *)
Definition started_typed : State :=
  default started (step false (type_entry (lit "yes")) started).

Definition idle_typed : State :=
  default initial (step false (type_entry (lit "yes")) initial).

(** ** Notions used by the statements *)

(** A call tells its caller or the user that something went wrong: it
    raises, or it inserts something into the console. *)
Definition signals (s : State) (o : outcome) : Prop :=
  (exists e s', o = Raised e s') \/
  output_box (gui (state_of o)) <> output_box (gui s).

(** A call of [run_script] is turned down: no child and no file is added. *)
Definition turned_down (s : State) (o : outcome) : Prop :=
  procs (state_of o) = procs s /\ files (state_of o) = files s.

(** A line without its terminator. *)
Definition chomp (line : str) : str :=
  match reverse line with
  | 10%N :: r => reverse r
  | _ => line
  end.

(** The exception the download raises, if the request or the status check
    fails. *)
Definition fetch_error (url : str) (w : World) : option exn :=
  match http_get w with
  | get_raises e => Some e
  | get_returns r => raise_for_status url r
  end.

(** The reader thread has not removed its file: its [os.remove] is still
    ahead, or the thread died. *)
Fixpoint before_remove (c : reader_pc) : bool :=
  match c with
  | at_for | in_for _ | in_body _ _ | at_wait | at_remove _ | died _ => true
  | in_call _ next => before_remove next
  | at_log _ | at_reset | finished => false
  end.

(** The files, the threads and the record of removals fit together: names
    are below the counter, no file is removed twice, no two threads share a
    file, a thread that has not removed its file still finds it, and a
    thread past its [os.remove] has removed it. *)
Record files_ok (fs : gmap nat str) (count : nat) (rm : list nat)
    (ths : list Reader) : Prop := {
  inv_files_lt : forall n, is_Some (fs !! n) -> (n < count)%nat;
  inv_removed_lt : forall n, n ∈ rm -> (n < count)%nat;
  inv_removed_nodup : NoDup rm;
  inv_removed_gone : forall n, n ∈ rm -> fs !! n = None;
  inv_tmp_lt : forall t r, ths !! t = Some r -> (tmp r < count)%nat;
  inv_tmp_inj : forall t1 t2 r1 r2,
    ths !! t1 = Some r1 -> ths !! t2 = Some r2 -> tmp r1 = tmp r2 -> t1 = t2;
  inv_before : forall t r, ths !! t = Some r ->
    before_remove (pc r) = true -> is_Some (fs !! tmp r) /\ tmp r ∉ rm;
  inv_after : forall t r, ths !! t = Some r ->
    before_remove (pc r) = false -> tmp r ∈ rm }.

Definition files_inv (s : State) : Prop :=
  files_ok (files s) (tmp_count s) (removed s) (threads s).

(** The lines child [p] has emitted so far. *)
Definition emitted_of (p : nat) (s : State) : list str :=
  default [] (emitted <$> procs s !! p).

Definition is_insert (c : tk_call) : bool :=
  match c with box_insert _ _ => true | _ => false end.

(** The reader has taken a line from the stream and has not yet made the
    [insert] call for it. *)
Definition holds_line (c : reader_pc) : bool :=
  match c with
  | in_body _ _ => true
  | in_call todo (in_for _) => existsb is_insert todo
  | _ => false
  end.

(** How many lines of the child the reader has handled: taken from the
    stream and handed to [insert]. *)
Definition handled_by (r : Reader) (pr : Popen) : nat :=
  if holds_line (pc r) then pred (consumed pr) else consumed pr.


(** A call that inserts no line of a child. *)
Definition is_proc_insert (c : tk_call) : bool :=
  match c with box_insert (by_process _) _ => true | _ => false end.

Definition quiet (todo : list tk_call) : Prop :=
  Forall (fun c => is_proc_insert c = false) todo.

(** The loop over the stream of the child is over: the child has exited
    and every line it wrote has been taken. *)
Definition past_loop (pr : Popen) : Prop :=
  is_Some (returncode pr) /\ consumed pr = length (emitted pr).

(** Where reader [t] stands with respect to the child [t] launched with
    it: before its loop the global still refers to that child; in its loop
    it reads that child, the line it holds is the last one taken, and the
    calls it still has to make are those of [write_log] for that line;
    past its loop the child has exited and its stream is exhausted. *)
Definition phase_ok (cp : option nat) (t : nat) (r : Reader) (pr : Popen) : Prop :=
  match pc r with
  | at_for => cp = Some t /\ consumed pr = 0%nat
  | in_for p => p = t
  | in_body p line =>
      p = t /\ exists k, consumed pr = S k /\ emitted pr !! k = Some line
  | in_call todo (in_for p) =>
      p = t /\ exists k line, consumed pr = S k /\ emitted pr !! k = Some line /\
      (todo = write_log_calls (by_process t) (rstrip line) \/
       todo = [box_insert (by_process t) (rstrip line); box_see;
               box_configure disabled] \/
       todo = [box_see; box_configure disabled] \/
       todo = [box_configure disabled])
  | died _ => True
  | in_call todo at_reset | in_call todo finished => past_loop pr /\ quiet todo
  | at_wait | at_remove _ | at_log _ | at_reset | finished => past_loop pr
  | in_call _ _ => False
  end.

(** Reader [t] and the console: the lines of child [t] in the console
    are, in order, lines the reader has handled, and each handled line is
    in the console or was ignored by it. *)
Record thread_ok (cp : option nat) (box ign : list (origin * str))
    (t : nat) (r : Reader) (pr : Popen) : Prop := {
  th_phase : phase_ok cp t r pr;
  th_consumed : (consumed pr <= length (emitted pr))%nat;
  th_sub : lines_of t box `sublist_of`
             (rstrip <$> take (handled_by r pr) (emitted pr));
  th_count : (length (lines_of t box) + length (lines_of t ign))%nat =
             handled_by r pr }.

Record stream_ok (cp : option nat) (ps : list Popen) (ths : list Reader)
    (box ign : list (origin * str)) : Prop := {
  inv_threads_procs : length ths = length ps;
  inv_box_procs : forall p m, (by_process p, m) ∈ box -> (p < length ps)%nat;
  inv_ign_procs : forall p m, (by_process p, m) ∈ ign -> (p < length ps)%nat;
  inv_thread : forall t r pr,
    ths !! t = Some r -> ps !! t = Some pr -> thread_ok cp box ign t r pr }.

Definition stream_inv (s : State) : Prop :=
  stream_ok (current_proc s) (procs s) (threads s)
    (output_box (gui s)) (ignored (gui s)).

Definition lines_emitted (p : nat) (ps : list Popen) : list str :=
  default [] (emitted <$> ps !! p).

(** A program point that holds neither a line nor calls still to make. *)
Definition plain (c : reader_pc) : Prop :=
  match c with
  | in_body _ _ | in_call _ _ => False
  | _ => True
  end.

(** Every line of a child in the console comes from a line that child
    emitted, and so does a line a reader holds or is about to insert. *)
Record origin_ok (ps : list Popen) (ths : list Reader)
    (box : list (origin * str)) : Prop := {
  inv_box_origin : forall p m,
    (by_process p, m) ∈ box ->
    exists line, line ∈ lines_emitted p ps /\ m = rstrip line;
  inv_body_origin : forall t r p line,
    ths !! t = Some r -> pc r = in_body p line ->
    line ∈ lines_emitted p ps;
  inv_todo_origin : forall t r todo next p m,
    ths !! t = Some r -> pc r = in_call todo next ->
    box_insert (by_process p) m ∈ todo ->
    exists line, line ∈ lines_emitted p ps /\ m = rstrip line;
  inv_todo_next : forall t r todo next,
    ths !! t = Some r -> pc r = in_call todo next -> plain next }.

Definition origin_inv (s : State) : Prop :=
  origin_ok (procs s) (threads s) (output_box (gui s)).

(** The state after a click on "Check Drive Space" when the interpreter
    cannot be started. *)
Definition wedged : State :=
  default initial (step false (click_script 9 (no_interpreter one_liner)) initial).

(** The same after the user has tried the stop button, the entry and the
    Clear button. *)
Definition wedged_later : State :=
  default wedged
    (run false [click_stop None; submit_input sent; click_clear] wedged).

(** A state in which nothing can start a script any more: every script
    button is disabled and there is neither a child nor a thread that
    could enable them again. *)
Record stuck (s : State) : Prop := {
  stuck_no_proc : current_proc s = None;
  stuck_no_procs : procs s = [];
  stuck_no_threads : threads s = [];
  stuck_buttons : Forall (fun b => b = disabled) (script_buttons (gui s));
  stuck_count : length (script_buttons (gui s)) = 13%nat;
  stuck_box : output_box (gui s) = output_box (gui wedged);
  stuck_file : files s = files wedged }.

(** One whole session: the script is started, its reader forwards the
    line "ok", the user presses Stop just as the child exits by itself
    with status 0, and the reader finishes. *)
Definition session : list label :=
  [ click_script 9 (fine one_liner);
    thread_step 0;
    proc_emit 0 (lit "ok" ++ nl) ] ++
  replicate 5 (thread_step 0) ++
  [ click_stop (Some 0) ] ++
  replicate 22 (thread_step 0).

Definition session_end : State :=
  default initial (run true session initial).

(** A child writes the lines "A", "B" and "C"; its reader has forwarded
    the first two. *)
Definition abc : list label :=
  [ click_script 9 (fine one_liner);
    thread_step 0;
    proc_emit 0 (lit "A" ++ nl);
    proc_emit 0 (lit "B" ++ nl);
    proc_emit 0 (lit "C" ++ nl) ] ++
  replicate 10 (thread_step 0).

Definition abc_state : State := default initial (run true abc initial).

(** A child writes "ok" followed by two blanks and a newline, and its
    reader forwards the line. *)
Definition padded : list label :=
  [ click_script 9 (fine one_liner);
    thread_step 0;
    proc_emit 0 (lit "ok  " ++ nl) ] ++
  replicate 5 (thread_step 0).

Definition padded_state : State := default initial (run false padded initial).








(** ** The button grid *)

(** The script buttons are laid out by [row, col = divmod(idx, cols)];
    Stop and Clear sit in column [cols] of rows 0 and 1. *)
Definition cols : nat := 7.

Definition grid_cell (idx : nat) : nat * nat :=
  (Nat.div idx cols, Nat.modulo idx cols).

Definition stop_cell : nat * nat := (0%nat, cols).

Definition clear_cell : nat * nat := (1%nat, cols).

(** ** Notions for the life of a child and of the window *)

(** What can become of a [Popen] object: its launch parameters stay, the
    calls on its [stdin] and the lines it emitted only grow, lines are
    only taken, and once it has an exit status that status, its output and
    its input are settled. *)
Record evolves (pr pr' : Popen) : Prop := {
  ev_args : args pr' = args pr;
  ev_stdin : stdin pr' = stdin pr;
  ev_stdout : stdout pr' = stdout pr;
  ev_stderr : stderr pr' = stderr pr;
  ev_text : text pr' = text pr;
  ev_calls : stdin_calls pr `prefix_of` stdin_calls pr';
  ev_emitted : emitted pr `prefix_of` emitted pr';
  ev_consumed : (consumed pr <= consumed pr')%nat;
  ev_exited : forall c, returncode pr = Some c ->
    returncode pr' = Some c /\ emitted pr' = emitted pr /\
    stdin_calls pr' = stdin_calls pr }.

(** Every child is still there, and has evolved. *)
Definition grows (ps ps' : list Popen) : Prop :=
  forall p pr, ps !! p = Some pr ->
    exists pr', ps' !! p = Some pr' /\ evolves pr pr'.

(** The child was launched on the [n]-th temporary file. *)
Definition launched_with (n : nat) (pr : Popen) : Prop :=
  args pr = [lit "powershell.exe"; lit "-NoProfile"; lit "-ExecutionPolicy";
             lit "Bypass"; lit "-File"; tmp_name n] /\
  stdin pr = PIPE /\ stdout pr = PIPE /\ stderr pr = STDOUT /\ text pr = true.

Definition newline_terminated (c : stdin_call) : Prop :=
  match c with
  | stdin_write data => exists t, data = t ++ nl
  | stdin_flush => True
  end.

(** The script buttons are all enabled or all disabled. *)
Definition uniform (bs : list widget_state) : Prop :=
  Forall (fun b => b = normal) bs \/ Forall (fun b => b = disabled) bs.

(** A call that leaves the script buttons alone. *)
Definition keeps_buttons (c : tk_call) : bool :=
  match c with btn_configure _ _ => false | _ => true end.

(** The reader thread has begun its [reset_ui]. *)
Definition in_reset (c : reader_pc) : bool :=
  match c with
  | in_call _ finished | finished => true
  | _ => false
  end.

Definition resetting (ths : list Reader) : Prop :=
  exists t r, ths !! t = Some r /\ in_reset (pc r) = true.

(** The child launched last, if any. *)
Definition latest (ps : list Popen) : option nat :=
  match length ps with
  | O => None
  | S n => Some n
  end.

Record wf_ok (cp : option nat) (ps : list Popen) (ths : list Reader)
    (bs : list widget_state) (hid : nat) (box : list (origin * str)) : Prop := {
  wf_latest : cp = latest ps;
  wf_threads : length ths = length ps;
  wf_launched : forall t r pr,
    ths !! t = Some r -> ps !! t = Some pr -> launched_with (tmp r) pr;
  wf_count : length bs = length GITHUB_SCRIPTS;
  wf_uniform : uniform bs \/ resetting ths;
  wf_calls : forall t r todo next,
    ths !! t = Some r -> pc r = in_call todo next ->
    next = finished \/ Forall (fun c => keeps_buttons c = true) todo;
  wf_hidden : (hid <= length box)%nat;
  wf_input : forall p pr,
    ps !! p = Some pr -> Forall newline_terminated (stdin_calls pr) }.

Definition wf (s : State) : Prop :=
  wf_ok (current_proc s) (procs s) (threads s)
    (script_buttons (gui s)) (hidden (gui s)) (output_box (gui s)).

(** No reader thread holds the [n]-th temporary file. *)
Definition unowned (n : nat) (ths : list Reader) : Prop :=
  Forall (fun r => tmp r <> n) ths.

(** The file of every reader thread that has not removed it holds a script
    that begins with the [Read-Host] override. *)
Definition script_ok (fs : gmap nat str) (ths : list Reader) : Prop :=
  forall t r, ths !! t = Some r -> before_remove (pc r) = true ->
    exists body, fs !! tmp r = Some (PS_OVERRIDE ++ nl ++ body).

Definition script_inv (s : State) : Prop := script_ok (files s) (threads s).

(** A run in which the user does not click Clear. *)
Definition is_clear (l : label) : bool :=
  match l with click_clear => true | _ => false end.

Definition no_clear (ls : list label) : Prop := existsb is_clear ls = false.

(** The world in which the script is served but writing the temporary
    file fails half way. *)
Definition disk_full (body partial : str) : World :=
  {| http_get := get_returns (ok_response body);
     tmp_io := tmp_write_raises
                 (Exception (lit "OSError")
                    (lit "[Errno 28] No space left on device")) partial;
     spawn := None |}.

(** The state after a click whose temporary file could not be written. *)
Definition half_written : State :=
  default initial
    (step true (click_script 9 (disk_full one_liner (lit "Write-"))) initial).

(** A child has written three lines and its reader, in its loop, has taken
    none of them yet. *)
Definition abc_pending : State :=
  default initial (run true (take 5 abc) initial).

(** A child has exited with status 3 without writing anything; its reader
    is in its loop. *)
Definition silent_exit : State :=
  default initial
    (run true [click_script 9 (fine one_liner); thread_step 0; proc_exit 0 3]
       initial).

(** The user has answered a running script with "yes". *)
Definition answered : State :=
  default started_typed (step false (submit_input sent) started_typed).

(** The reader of a first script has enabled the first script button when
    the user clicks it: [run_script] disables every script button, and the
    reader goes on enabling the others. *)
Definition eager_click : list label :=
  [ click_script 9 (fine one_liner); thread_step 0; proc_exit 0 0 ] ++
  replicate 8 (thread_step 0) ++
  [ click_script 0 (fine one_liner) ] ++
  replicate 14 (thread_step 0).

Definition eager_click_state : State :=
  default initial (run true eager_click initial).

(** * Properties *)

(** ** Python strings *)

Example rstrip_ok : rstrip (lit "ok  " ++ [13; 10]%N) = lit "ok".
Proof. reflexivity. Qed.

Example str_of_int_neg : str_of_int (-9) = lit "-9".
Proof. reflexivity. Qed.

Example str_of_int_zero : str_of_int 0 = lit "0".
Proof. reflexivity. Qed.

Lemma rstrip_nil_iff s : rstrip s = [] <-> forallb isspace s = true.
Proof.
  induction s as [|c s IH]; simpl; [done|].
  destruct (rstrip s) eqn:E.
  - destruct (isspace c); simpl; [|split; discriminate].
    split; [intros _; by apply IH|done].
  - split; [discriminate|]. intros H. apply andb_prop in H as [_ H].
    apply IH in H. discriminate.
Qed.

(** [rstrip] splits a string into what it keeps and a tail of white space,
    and what it keeps does not end in white space. *)
Lemma rstrip_spec s :
  exists ws, s = rstrip s ++ ws /\ forallb isspace ws = true /\
    forall c, last (rstrip s) = Some c -> isspace c = false.
Proof.
  induction s as [|c s (ws & Hs & Hws & Hlast)].
  - exists []. by repeat split.
  - simpl. destruct (rstrip s) as [|d r] eqn:E.
    + destruct (isspace c) eqn:Hc.
      * exists (c :: s). repeat split; [|done].
        simpl. rewrite Hc. by apply rstrip_nil_iff.
      * exists ws. simpl in Hs. rewrite Hs at 1. repeat split; [done|].
        intros c' [= <-]. done.
    + exists ws. rewrite Hs at 1. repeat split; [done|].
      intros c'. rewrite last_cons. destruct (last (d :: r)) eqn:El.
      * intros [= <-]. by apply Hlast.
      * by apply last_None in El.
Qed.

(** ** The callbacks, one call at a time *)

Example started_running :
  current_proc started = Some 0%nat /\ poll 0 started = None.
Proof. split; reflexivity. Qed.

Example started_file :
  files started !! 0%nat = Some (PS_OVERRIDE ++ nl ++ one_liner).
Proof. reflexivity. Qed.

Lemma poll_None_running p s :
  running p s -> current_proc s = Some p /\ poll p s = None.
Proof. intros [Hc (pr & Hp & Hr)]. split; [done|]. unfold poll. by rewrite Hp. Qed.

(** *** [send_input] *)

(** C10.  Whatever [send_input] finds (no child, a child that has exited,
    a live child, a write or a flush that raises), it returns and leaves
    the entry empty. *)
Theorem send_input_clears_entry (io : send_result) (s : State) :
  exists s', send_input io s = Returned s' /\ input_entry (gui s') = [].
Proof. unfold send_input. eexists. split; reflexivity. Qed.

(** C4, as the program has it.  When [current_proc] is [None] or refers to
    a child that has exited, [send_input] makes no call on any [stdin],
    inserts nothing into the console and raises nothing: it only empties
    the entry, so that nothing tells the user that the text went
    nowhere. *)
Theorem send_input_not_running (io : send_result) (s : State) :
  current_proc s = None \/
  (exists p c, current_proc s = Some p /\ poll p s = Some c) ->
  exists s', send_input io s = Returned s' /\
    procs s' = procs s /\
    output_box (gui s') = output_box (gui s) /\
    input_entry (gui s') = [] /\
    ~ signals s (send_input io s).
Proof.
  intros H. exists (clear_entry s).
  assert (send_input io s = Returned (clear_entry s)) as ->.
  { unfold send_input. destruct H as [->|(p & c & -> & ->)]; reflexivity. }
  repeat split. intros [(e & s' & [=])|Hbox]. by apply Hbox.
Qed.

Lemma send_input_not_running_witness :
  exists s', send_input sent idle_typed = Returned s' /\
    procs s' = procs idle_typed /\
    output_box (gui s') = output_box (gui idle_typed) /\
    input_entry (gui s') = [] /\
    ~ signals idle_typed (send_input sent idle_typed).
Proof. apply (send_input_not_running sent idle_typed). left. reflexivity. Defined.

(** C4, as stated, fails: with no child at all and "yes" in the entry,
    [send_input] signals nothing, neither by raising nor in the console. *)
Lemma send_input_idle_no_error :
  input_entry (gui idle_typed) = lit "yes" /\
  current_proc idle_typed = None /\
  ~ signals idle_typed (send_input sent idle_typed).
Proof.
  repeat split. intros [(e & s' & [=])|Hbox]. by apply Hbox.
Qed.

(** C5.  With a live child, [send_input] calls [write] with the content of
    the entry followed by a newline, then [flush], on the [stdin] of that
    child and of no other; when either call raises, the exception is
    caught and shown in the console as a [Send error] line, and in every
    case the call returns. *)
Theorem send_input_running (io : send_result) (s : State) (p : nat) (pr : Popen) :
  current_proc s = Some p -> procs s !! p = Some pr -> returncode pr = None ->
  exists s' pr',
    send_input io s = Returned s' /\
    procs s' !! p = Some pr' /\
    stdin_calls pr' = stdin_calls pr ++
      match io with
      | write_raises _ => [stdin_write (input_entry (gui s) ++ nl)]
      | _ => [stdin_write (input_entry (gui s) ++ nl); stdin_flush]
      end /\
    returncode pr' = None /\
    (forall q, q <> p -> procs s' !! q = procs s !! q) /\
    output_box (gui s') = output_box (gui s) ++
      [(by_controller,
        match io with
        | sent => lit "> " ++ input_entry (gui s)
        | write_raises e | flush_raises e => lit "[Send error] " ++ str_of_exn e
        end)].
Proof.
  intros Hc Hp Hr. unfold send_input. rewrite Hc.
  assert (poll p s = None) as -> by (unfold poll; by rewrite Hp).
  destruct io; simpl; eexists _, _; (split; [reflexivity|]); simpl;
    rewrite ?list_lookup_alter_eq, ?Hp; simpl;
    (split; [reflexivity|]); simpl; rewrite <- ?app_assoc; simpl;
    (repeat split; try done);
    intros q Hq; by rewrite ?list_lookup_alter_ne.
Qed.

Lemma send_input_running_witness :
  exists s' pr',
    send_input sent started_typed = Returned s' /\
    procs s' !! 0%nat = Some pr' /\
    stdin_calls pr' = [stdin_write (lit "yes" ++ nl); stdin_flush] /\
    returncode pr' = None /\
    (forall q, q <> 0%nat -> procs s' !! q = procs started_typed !! q) /\
    output_box (gui s') = output_box (gui started_typed) ++
      [(by_controller, lit "> " ++ lit "yes")].
Proof.
  apply (send_input_running sent started_typed 0
           (spawned (tmp_name 0))); reflexivity.
Defined.

(** *** [run_script] *)

Lemma raise_for_status_error url r :
  400 <= status_code r < 600 -> is_Some (raise_for_status url r).
Proof.
  intros H. unfold raise_for_status.
  destruct (Z.leb_spec 400 (status_code r)); [|lia].
  destruct (Z.ltb_spec (status_code r) 500); simpl; [by eexists|].
  destruct (Z.leb_spec 500 (status_code r)); [|lia].
  destruct (Z.ltb_spec (status_code r) 600); simpl; [by eexists|lia].
Qed.

Lemma raise_for_status_success url r :
  200 <= status_code r < 300 -> raise_for_status url r = None.
Proof.
  intros H. unfold raise_for_status.
  destruct (Z.ltb_spec (status_code r) 500); [|lia].
  destruct (Z.leb_spec 400 (status_code r)); [lia|]. simpl.
  destruct (Z.leb_spec 500 (status_code r)); [lia|]. done.
Qed.

(** C6.  When the request raises or the answer has an error status,
    [run_script] returns after showing the exception as a
    [Download error] line: no child is launched, no file is written, no
    thread is started, [current_proc] is what it was, every script button
    is enabled again, the stop button is disabled and the status reads
    [Ready]. *)
Theorem run_script_fetch_error (url desc : str) (w : World) (s : State) (e : exn) :
  fetch_error url w = Some e ->
  exists s', run_script url desc w s = Returned s' /\
    output_box (gui s') = output_box (gui s) ++
      [(by_controller, [62; 9654; 32]%N ++ desc);
       (by_controller, lit "Downloading from " ++ url);
       (by_controller, lit "[Download error] " ++ str_of_exn e)] /\
    procs s' = procs s /\ files s' = files s /\ threads s' = threads s /\
    current_proc s' = current_proc s /\
    script_buttons (gui s') = (fun _ => normal) <$> script_buttons (gui s) /\
    stop_btn (gui s') = disabled /\
    status_label (gui s') = lit "Ready".
Proof.
  intros He. unfold fetch_error in He. unfold run_script, download.
  destruct (http_get w) as [e'|r]; [injection He as ->|rewrite He];
    (eexists; split; [reflexivity|]); simpl;
    rewrite <- !app_assoc, <- list_fmap_compose; by repeat split.
Qed.

Lemma run_script_fetch_error_witness :
  fetch_error (lit "https://example/missing.ps1") not_found =
    Some (Exception (lit "HTTPError")
            (lit "404 Client Error: Not Found for url: https://example/missing.ps1")) /\
  exists s',
    run_script (lit "https://example/missing.ps1") (lit "Missing") not_found initial
      = Returned s' /\
    output_box (gui s') = output_box (gui initial) ++
      [(by_controller, [62; 9654; 32]%N ++ lit "Missing");
       (by_controller, lit "Downloading from " ++ lit "https://example/missing.ps1");
       (by_controller, lit "[Download error] " ++
          lit "404 Client Error: Not Found for url: https://example/missing.ps1")] /\
    procs s' = procs initial /\ files s' = files initial /\
    threads s' = threads initial /\
    current_proc s' = current_proc initial /\
    script_buttons (gui s') = (fun _ => normal) <$> script_buttons (gui initial) /\
    stop_btn (gui s') = disabled /\
    status_label (gui s') = lit "Ready".
Proof.
  split; [reflexivity|].
  apply (run_script_fetch_error (lit "https://example/missing.ps1")
           (lit "Missing") not_found initial
           (Exception (lit "HTTPError")
              (lit "404 Client Error: Not Found for url: https://example/missing.ps1"))).
  reflexivity.
Defined.

(** C1, as the program has it.  [run_script] never looks at
    [current_proc]: whenever the download, the temporary file and the
    spawn go well it writes a new file and launches a new child, whether
    or not an earlier child is alive.  The earlier children are left as
    they are, but [current_proc] now refers to the new one.  What stands
    in the way of a second start is the interface alone: the call
    disables every script button. *)
Theorem run_script_unguarded (url desc : str) (w : World) (s : State) (r : Response) :
  http_get w = get_returns r -> raise_for_status url r = None ->
  tmp_io w = tmp_written -> spawn w = None ->
  exists s', run_script url desc w s = Returned s' /\
    length (procs s') = S (length (procs s)) /\
    current_proc s' = Some (length (procs s)) /\
    (forall q pr, procs s !! q = Some pr -> procs s' !! q = Some pr) /\
    is_Some (files s' !! tmp_count s) /\
    tmp_count s' = S (tmp_count s) /\
    script_buttons (gui s') = (fun _ => disabled) <$> script_buttons (gui s).
Proof.
  intros Hg Hr Ht Hs. unfold run_script, download.
  rewrite Hg, Hr, Ht, Hs. eexists. split; [reflexivity|]. simpl.
  rewrite length_app. simpl. repeat split; [lia| |].
  - intros q pr Hq. by apply lookup_app_l_Some.
  - rewrite lookup_insert_eq. by eexists.
Qed.

Lemma run_script_unguarded_witness :
  running 0 started /\
  exists s',
    run_script (lit "https://example/b.ps1") (lit "B") (fine one_liner) started
      = Returned s' /\
    length (procs s') = 2%nat /\
    current_proc s' = Some 1%nat /\
    (forall q pr, procs started !! q = Some pr -> procs s' !! q = Some pr) /\
    is_Some (files s' !! 1%nat) /\
    tmp_count s' = 2%nat /\
    script_buttons (gui s') =
      (fun _ => disabled) <$> script_buttons (gui started).
Proof.
  split; [split; [reflexivity|eexists; split; reflexivity]|].
  apply (run_script_unguarded (lit "https://example/b.ps1") (lit "B")
           (fine one_liner) started (ok_response one_liner)); reflexivity.
Defined.

(** C1, as stated, fails: called while the first child is alive,
    [run_script] is not turned down; it returns with a second child and a
    second temporary file. *)
Lemma second_start_not_rejected :
  running 0 started /\
  exists s',
    run_script (lit "https://example/b.ps1") (lit "B") (fine one_liner) started
      = Returned s' /\
    length (procs s') = 2%nat /\ poll 0 s' = None /\ poll 1 s' = None /\
    is_Some (files s' !! 0%nat) /\ is_Some (files s' !! 1%nat) /\
    ~ turned_down started (Returned s').
Proof.
  split; [split; [reflexivity|eexists; split; reflexivity]|].
  eexists. split; [reflexivity|].
  repeat split; try (by eexists). intros [H _]. discriminate H.
Qed.

(** A disabled script button starts nothing. *)
Lemma click_script_disabled prompt i w s :
  script_buttons (gui s) !! i = Some disabled ->
  step prompt (click_script i w) s = None.
Proof.
  intros H. simpl. rewrite H. simpl. by destruct (GITHUB_SCRIPTS !! i) as [[]|].
Qed.

(** *** A spawn that fails *)

Lemma stuck_step prompt l s s' :
  stuck s -> step prompt l s = Some s' -> stuck s'.
Proof.
  intros [Hc Hp Ht Hb Hn Hbox Hf] Hstep. destruct l; simpl in Hstep.
  - destruct (script_buttons (gui s) !! i) as [b|] eqn:Hi; [|done].
    simpl in Hstep. destruct (GITHUB_SCRIPTS !! i) as [[lbl url]|]; [|done].
    simpl in Hstep.
    rewrite Forall_lookup in Hb. rewrite (Hb _ _ Hi) in Hstep. done.
  - destruct (is_normal _); [|done]. injection Hstep as <-.
    unfold stop_process. rewrite Hc. by constructor.
  - injection Hstep as <-. unfold send_input. rewrite Hc. by constructor.
  - injection Hstep as <-. by constructor.
  - injection Hstep as <-. by constructor.
  - rewrite Hp in Hstep. done.
  - rewrite Hp in Hstep. done.
  - unfold reader_step in Hstep. rewrite Ht in Hstep. done.
  - unfold reader_raise in Hstep. rewrite Ht in Hstep. done.
Qed.

Lemma stuck_run prompt ls s s' :
  stuck s -> run prompt ls s = Some s' -> stuck s'.
Proof.
  revert s. induction ls as [|l ls IH]; intros s Hs Hrun.
  - by injection Hrun as <-.
  - simpl in Hrun. destruct (step prompt l s) as [s1|] eqn:E; [|done].
    eapply IH; [|exact Hrun]. by eapply stuck_step.
Qed.

Lemma stuck_wedged : stuck wedged.
Proof. constructor; try reflexivity. simpl. repeat constructor. Qed.

(** C7 fails on the program.  When [Popen] raises, the exception leaves
    [run_script]: nothing about it reaches the console, whose last line is
    the [Saved to] line, and [reset_ui] is not called.  Tk keeps the
    window alive, but from then on, whatever the user does, every script
    button stays disabled, so no script can be started again; the
    temporary file stays on disk. *)
Theorem launch_error_wedges (prompt : bool) (ls : list label) (s : State) :
  run prompt ls wedged = Some s ->
  (exists e s0,
     run_script (lit "https://raw.githubusercontent.com/deep1ne8/misc/main/Scripts/CheckDriveSpace.ps1")
       (lit "Check Drive Space") (no_interpreter one_liner) initial = Raised e s0 /\
     wedged = callback (Raised e s0)) /\
  output_box (gui s) =
    [(by_controller, [62; 9654; 32]%N ++ lit "Check Drive Space");
     (by_controller, lit "Downloading from https://raw.githubusercontent.com/deep1ne8/misc/main/Scripts/CheckDriveSpace.ps1");
     (by_controller, lit "Saved to tmp0.ps1")] /\
  Forall (fun b => b = disabled) (script_buttons (gui s)) /\
  length (script_buttons (gui s)) = 13%nat /\
  (forall i w, step prompt (click_script i w) s = None) /\
  files s !! 0%nat = Some (PS_OVERRIDE ++ nl ++ one_liner).
Proof.
  intros Hrun.
  destruct (stuck_run _ _ _ _ stuck_wedged Hrun) as [Hc Hp Ht Hb Hn Hbox Hf].
  split; [eexists _, _; split; reflexivity|].
  split; [by rewrite Hbox|]. split; [done|]. split; [done|].
  split; [|by rewrite Hf].
  intros i w. simpl. destruct (script_buttons (gui s) !! i) as [b|] eqn:Hi; [|done].
  simpl. destruct (GITHUB_SCRIPTS !! i) as [[lbl url]|]; [|done]. simpl.
  rewrite Forall_lookup in Hb. by rewrite (Hb _ _ Hi).
Qed.

Lemma launch_error_wedges_witness :
  (exists e s0,
     run_script (lit "https://raw.githubusercontent.com/deep1ne8/misc/main/Scripts/CheckDriveSpace.ps1")
       (lit "Check Drive Space") (no_interpreter one_liner) initial = Raised e s0 /\
     wedged = callback (Raised e s0)) /\
  output_box (gui wedged_later) =
    [(by_controller, [62; 9654; 32]%N ++ lit "Check Drive Space");
     (by_controller, lit "Downloading from https://raw.githubusercontent.com/deep1ne8/misc/main/Scripts/CheckDriveSpace.ps1");
     (by_controller, lit "Saved to tmp0.ps1")] /\
  Forall (fun b => b = disabled) (script_buttons (gui wedged_later)) /\
  length (script_buttons (gui wedged_later)) = 13%nat /\
  (forall i w, step false (click_script i w) wedged_later = None) /\
  files wedged_later !! 0%nat = Some (PS_OVERRIDE ++ nl ++ one_liner).
Proof.
  apply (launch_error_wedges false
           [click_stop None; submit_input sent; click_clear] wedged_later).
  reflexivity.
Defined.

(** ** The calls of [write_log] and [reset_ui] *)

(** [write_log] as a callback runs it is its four calls in a row. *)
Lemma write_log_whole o message s :
  with_gui (run_calls (write_log_calls o message)) s = write_log o message s.
Proof. reflexivity. Qed.

Lemma enable_buttons (bs : list widget_state) (done_ : list widget_state) :
  foldl (fun l i => <[i := normal]> l) (done_ ++ bs)
    (seq (length done_) (length bs)) =
  done_ ++ ((fun _ => normal) <$> bs).
Proof.
  revert done_. induction bs as [|b bs IH]; intros done_; [done|]. simpl.
  rewrite <- (Nat.add_0_r (length done_)) at 1. rewrite insert_app_r. simpl.
  change (done_ ++ normal :: bs) with (done_ ++ [normal] ++ bs).
  rewrite app_assoc.
  replace (S (length done_)) with (length (done_ ++ [normal]))
    by (rewrite length_app; simpl; lia).
  rewrite IH. by rewrite <- app_assoc.
Qed.

Lemma run_calls_buttons (g : Widgets) (ix : list nat) :
  run_calls ((fun i => btn_configure i normal) <$> ix) g =
  {| script_buttons := foldl (fun l i => <[i := normal]> l) (script_buttons g) ix;
     stop_btn := stop_btn g; status_label := status_label g;
     output_box := output_box g; hidden := hidden g;
     box_state := box_state g; ignored := ignored g;
     input_entry := input_entry g |}.
Proof.
  unfold run_calls. revert g. induction ix as [|i ix IH]; intros g;
    [by destruct g|].
  rewrite fmap_cons. simpl. by rewrite IH.
Qed.

(** [reset_ui] as a callback runs it is its calls in a row. *)
Lemma reset_ui_whole s :
  with_gui (run_calls (reset_ui_calls (length (script_buttons (gui s))))) s =
  reset_ui s.
Proof.
  pose proof (enable_buttons (script_buttons (gui s)) []) as E.
  rewrite !app_nil_l in E. change (length []) with 0%nat in E.
  unfold reset_ui, with_gui, reset_ui_calls. f_equal.
  unfold run_calls. rewrite foldl_app.
  change (foldl (fun g c => tk_exec c g) (gui s)
            ((fun i => btn_configure i normal) <$>
             seq 0 (length (script_buttons (gui s)))))
    with (run_calls ((fun i => btn_configure i normal) <$>
                     seq 0 (length (script_buttons (gui s)))) (gui s)).
  rewrite run_calls_buttons. cbn [foldl tk_exec script_buttons stop_btn
    status_label output_box hidden box_state ignored input_entry].
  by rewrite E.
Qed.

Lemma before_remove_after_calls rest next :
  before_remove (after_calls rest next) = before_remove next.
Proof. by destruct rest. Qed.

(** What a call does to the console. *)
Lemma tk_exec_box c g :
  hidden (tk_exec c g) = hidden g /\
  ((output_box (tk_exec c g) = output_box g /\
    ignored (tk_exec c g) = ignored g /\ is_insert c = false) \/
   exists o m, c = box_insert o m /\
     ((output_box (tk_exec c g) = output_box g ++ [(o, m)] /\
       ignored (tk_exec c g) = ignored g) \/
      (output_box (tk_exec c g) = output_box g /\
       ignored (tk_exec c g) = ignored g ++ [(o, m)]))).
Proof.
  destruct c; simpl; try (split; [done|by left]).
  destruct (is_normal (box_state g)); simpl; (split; [done|]); right;
    eexists _, _; (split; [done|]); [by left|by right].
Qed.

(** ** The temporary files *)

Lemma lookup_set_pc (ths : list Reader) t c t' r' :
  alter (set_pc c) t ths !! t' = Some r' ->
  exists r0, ths !! t' = Some r0 /\ tmp r' = tmp r0 /\
    ((t' <> t /\ r' = r0) \/ (t' = t /\ pc r' = c)).
Proof.
  destruct (decide (t = t')) as [->|Hne].
  - rewrite list_lookup_alter_eq. destruct (ths !! t') as [r0|]; [|done].
    intros [= <-]. exists r0. repeat split. by right.
  - rewrite list_lookup_alter_ne by done. intros H. exists r'.
    repeat split; [done|]. left. split; [congruence|done].
Qed.

Lemma files_ok_set_pc fs n rm ths t r c :
  files_ok fs n rm ths -> ths !! t = Some r ->
  before_remove c = before_remove (pc r) ->
  files_ok fs n rm (alter (set_pc c) t ths).
Proof.
  intros [Hf Hrl Hnd Hg Htl Hinj Hb Ha] Ht Hbc. constructor; try done.
  - intros t' r' H'. apply lookup_set_pc in H' as (r0 & H0 & -> & _). eauto.
  - intros t1 t2 r1 r2 H1 H2.
    apply lookup_set_pc in H1 as (r01 & H1 & -> & _).
    apply lookup_set_pc in H2 as (r02 & H2 & -> & _). eauto.
  - intros t' r' H'. apply lookup_set_pc in H' as (r0 & H0 & -> & [[_ ->]|[-> ->]]).
    + eauto.
    + rewrite Ht in H0. injection H0 as <-. rewrite Hbc. eauto.
  - intros t' r' H'. apply lookup_set_pc in H' as (r0 & H0 & -> & [[_ ->]|[-> ->]]).
    + eauto.
    + rewrite Ht in H0. injection H0 as <-. rewrite Hbc. eauto.
Qed.

Lemma files_ok_remove fs n rm ths t r code :
  files_ok fs n rm ths -> ths !! t = Some r -> pc r = at_remove code ->
  files_ok (delete (tmp r) fs) n (rm ++ [tmp r])
    (alter (set_pc (at_log code)) t ths).
Proof.
  intros [Hf Hrl Hnd Hg Htl Hinj Hb Ha] Ht Hpc.
  destruct (Hb t r Ht) as [Hfile Hnot]; [by rewrite Hpc|].
  constructor.
  - intros n' [x Hx]. apply lookup_delete_Some in Hx as [_ Hx]. eauto.
  - intros n' [Hn'|Hn']%elem_of_app; [eauto|].
    apply list_elem_of_singleton in Hn' as ->. eauto.
  - apply NoDup_app. repeat split; [done| |apply NoDup_singleton].
    intros x Hx Hx'. apply list_elem_of_singleton in Hx' as ->. done.
  - intros n' [Hn'|Hn']%elem_of_app.
    + destruct (decide (tmp r = n')) as [<-|Hne]; [done|].
      rewrite lookup_delete_ne by done. eauto.
    + apply list_elem_of_singleton in Hn' as ->. apply lookup_delete_eq.
  - intros t' r' H'. apply lookup_set_pc in H' as (r0 & H0 & -> & _). eauto.
  - intros t1 t2 r1 r2 H1 H2.
    apply lookup_set_pc in H1 as (r01 & H1 & -> & _).
    apply lookup_set_pc in H2 as (r02 & H2 & -> & _). eauto.
  - intros t' r' H'. apply lookup_set_pc in H' as (r0 & H0 & -> & [[Hne ->]|[-> ->]]);
      [|done].
    intros Hbr. destruct (Hb t' r0 H0 Hbr) as [Hfile0 Hnot0].
    assert (tmp r <> tmp r0) as Htmp.
    { intros Heq. apply Hne. symmetry. eapply Hinj; eauto. }
    split; [by rewrite lookup_delete_ne|].
    intros [?|Hin]%elem_of_app; [done|].
    apply list_elem_of_singleton in Hin. congruence.
  - intros t' r' H'. apply lookup_set_pc in H' as (r0 & H0 & -> & [[Hne ->]|[-> ->]]).
    + intros Hbr. apply elem_of_app. left. eauto.
    + rewrite Ht in H0. injection H0 as <-. intros _.
      apply elem_of_app. right. by apply list_elem_of_singleton.
Qed.

Lemma files_ok_create fs n rm ths content :
  files_ok fs n rm ths -> files_ok (<[n:=content]> fs) (S n) rm ths.
Proof.
  intros [Hf Hrl Hnd Hg Htl Hinj Hb Ha]. constructor; try done.
  - intros n' Hn'. apply lookup_insert_is_Some in Hn' as [->|[_ Hn']]; [lia|].
    apply Hf in Hn'. lia.
  - intros n' Hn'. apply Hrl in Hn'. lia.
  - intros n' Hn'. rewrite lookup_insert_ne; [eauto|]. apply Hrl in Hn'. lia.
  - intros t r Ht. apply Htl in Ht. lia.
  - intros t r Ht Hbr. destruct (Hb t r Ht Hbr) as [Hfile Hnot].
    split; [|done]. apply lookup_insert_is_Some.
    destruct (decide (n = tmp r)); [by left|by right].
Qed.

Lemma files_ok_thread fs n rm ths content :
  files_ok fs n rm ths ->
  files_ok (<[n:=content]> fs) (S n) rm (ths ++ [{| tmp := n; pc := at_for |}]).
Proof.
  intros H. pose proof (files_ok_create _ _ _ _ content H) as [Hf Hrl Hnd Hg Htl Hinj Hb Ha].
  destruct H as [_ Hrl0 _ _ Htl0 _ _ _].
  constructor; try done.
  - intros t r [[_ Ht]|[_ <-]]%lookup_snoc_Some; [eauto|]. simpl. lia.
  - intros t1 t2 r1 r2 [[_ H1]|[H1 <-]]%lookup_snoc_Some [[_ H2]|[H2 <-]]%lookup_snoc_Some;
      simpl; intros Heq.
    + eauto.
    + apply Htl0 in H1. lia.
    + apply Htl0 in H2. lia.
    + congruence.
  - intros t r [[_ Ht]|[_ <-]]%lookup_snoc_Some; [eauto|]. simpl. intros _.
    split; [rewrite lookup_insert_eq; by eexists|].
    intros Hin. apply Hrl0 in Hin. lia.
  - intros t r [[_ Ht]|[_ <-]]%lookup_snoc_Some; [eauto|]. done.
Qed.

Lemma run_script_files_inv url desc w s :
  files_inv s -> files_inv (callback (run_script url desc w s)).
Proof.
  unfold files_inv, run_script, download. intros H.
  destruct (http_get w) as [e|r]; simpl; [done|].
  destruct (raise_for_status url r); simpl; [done|].
  destruct (tmp_io w); simpl; [|done|by apply files_ok_create].
  destruct (spawn w); simpl; [by apply files_ok_create|by apply files_ok_thread].
Qed.

Lemma stop_process_files_inv race s :
  files_inv s -> files_inv (callback (stop_process race s)).
Proof.
  unfold files_inv, stop_process. intros H.
  destruct (current_proc s) as [p|]; [|done].
  destruct (poll p s); [done|]. by destruct race.
Qed.

Lemma send_input_files_inv io s :
  files_inv s -> files_inv (callback (send_input io s)).
Proof.
  unfold files_inv, send_input. intros H.
  destruct (current_proc s) as [p|]; [|done].
  destruct (poll p s); [done|]. by destruct io.
Qed.

(** A call on a widget touches no file. *)
Lemma call_next_files_inv t r todo next s :
  files_inv s -> threads s !! t = Some r ->
  before_remove next = before_remove (pc r) ->
  files_inv (call_next t todo next s).
Proof.
  unfold files_inv, call_next. intros H Ht Hb.
  destruct todo as [|c rest]; simpl;
    (eapply files_ok_set_pc; [exact H|exact Ht|]);
    by rewrite ?before_remove_after_calls.
Qed.

Local Ltac same_side H Ht Hpc Hs :=
  injection Hs as <-; simpl;
  eapply files_ok_set_pc; [exact H|exact Ht|by rewrite Hpc].

Lemma reader_step_files_inv t s s' :
  files_inv s -> reader_step t s = Some s' -> files_inv s'.
Proof.
  unfold reader_step. intros H Hs.
  destruct (threads s !! t) as [r|] eqn:Ht; [|done]. simpl in Hs.
  destruct (pc r) eqn:Hpc.
  - destruct (current_proc s); [|done]. simpl in Hs. same_side H Ht Hpc Hs.
  - destruct (procs s !! p) as [pr|]; [|done]. simpl in Hs.
    destruct (emitted pr !! consumed pr).
    + same_side H Ht Hpc Hs.
    + destruct (returncode pr); [|done]. same_side H Ht Hpc Hs.
  - injection Hs as <-. eapply call_next_files_inv; [done..|by rewrite Hpc].
  - destruct (current_proc s) as [p|]; [|done]. simpl in Hs.
    destruct (poll p s); [|done]. simpl in Hs. same_side H Ht Hpc Hs.
  - destruct (files s !! tmp r) eqn:Hfile.
    + injection Hs as <-. simpl. by apply files_ok_remove with (code := code).
    + destruct (inv_before _ _ _ _ H t r Ht) as [[x Hx] _]; [by rewrite Hpc|].
      congruence.
  - injection Hs as <-. eapply call_next_files_inv; [done..|by rewrite Hpc].
  - injection Hs as <-. eapply call_next_files_inv; [done..|by rewrite Hpc].
  - injection Hs as <-. eapply call_next_files_inv; [done..|by rewrite Hpc].
  - done.
  - done.
Qed.

Lemma reader_raise_files_inv t e s s' :
  files_inv s -> reader_raise t e s = Some s' -> files_inv s'.
Proof.
  unfold reader_raise. intros H Hs.
  destruct (threads s !! t) as [r|] eqn:Ht; [|done]. simpl in Hs.
  destruct (pc r) eqn:Hpc; try done. same_side H Ht Hpc Hs.
Qed.

Lemma step_files_inv prompt l s s' :
  files_inv s -> step prompt l s = Some s' -> files_inv s'.
Proof.
  intros H Hs. destruct l; simpl in Hs.
  - destruct (script_buttons (gui s) !! i); [|done]. simpl in Hs.
    destruct (GITHUB_SCRIPTS !! i) as [[lbl url]|]; [|done]. simpl in Hs.
    destruct (_ && _); [|done]. injection Hs as <-.
    by apply run_script_files_inv.
  - destruct (is_normal _); [|done]. injection Hs as <-.
    by apply stop_process_files_inv.
  - injection Hs as <-. by apply send_input_files_inv.
  - by injection Hs as <-.
  - by injection Hs as <-.
  - destruct (procs s !! p) as [pr|]; [|done]. simpl in Hs.
    destruct (returncode pr); [done|]. by injection Hs as <-.
  - destruct (procs s !! p) as [pr|]; [|done]. simpl in Hs.
    destruct (returncode pr); [done|]. by injection Hs as <-.
  - by eapply reader_step_files_inv.
  - by eapply reader_raise_files_inv.
Qed.

Lemma reachable_files_inv prompt s : reachable prompt s -> files_inv s.
Proof.
  induction 1 as [|l s s' _ IH Hs].
  - constructor; simpl; try done.
    + intros n [x Hx]. by rewrite lookup_empty in Hx.
    + intros n Hn. by apply not_elem_of_nil in Hn.
    + apply NoDup_nil_2.
  - by eapply step_files_inv.
Qed.

Lemma run_reachable prompt ls s s' :
  reachable prompt s -> run prompt ls s = Some s' -> reachable prompt s'.
Proof.
  revert s. induction ls as [|l ls IH]; intros s Hs Hrun.
  - by injection Hrun as <-.
  - simpl in Hrun. destruct (step prompt l s) as [s1|] eqn:E; [|done].
    eapply IH; [|exact Hrun]. by eapply reachable_step.
Qed.



Example session_runs : run true session initial = Some session_end.
Proof. vm_compute. reflexivity. Qed.

Example session_shown :
  shown session_end =
    [ [62; 9654; 32]%N ++ lit "Check Drive Space";
      lit "Downloading from https://raw.githubusercontent.com/deep1ne8/misc/main/Scripts/CheckDriveSpace.ps1";
      lit "Saved to tmp0.ps1";
      lit "ok";
      lit "[Stopped]";
      lit "[Completed] Exit code: 0" ].
Proof. vm_compute. reflexivity. Qed.

Example session_end_thread :
  threads session_end = [{| tmp := 0; pc := finished |}] /\
  files session_end = ∅ /\ removed session_end = [0%nat].
Proof. repeat split; vm_compute; reflexivity. Qed.






(** C9.  When the script is served and nothing fails, [run_script] creates
    a temporary file that did not exist, whose content is [PS_OVERRIDE],
    a newline and the served text, and launches
    [powershell.exe -NoProfile -ExecutionPolicy Bypass -File <that file>]
    in text mode with [stdin] and [stdout] as pipes and [stderr] sent to
    [stdout]; [current_proc] refers to that child. *)
Theorem run_script_writes_and_launches
    (prompt : bool) (url desc : str) (w : World) (s : State) (r : Response) :
  reachable prompt s ->
  http_get w = get_returns r -> raise_for_status url r = None ->
  tmp_io w = tmp_written -> spawn w = None ->
  exists s', run_script url desc w s = Returned s' /\
    files s !! tmp_count s = None /\
    files s' = <[tmp_count s := PS_OVERRIDE ++ nl ++ resp_text r]> (files s) /\
    procs s' = procs s ++
      [{| args := [lit "powershell.exe"; lit "-NoProfile";
                   lit "-ExecutionPolicy"; lit "Bypass"; lit "-File";
                   tmp_name (tmp_count s)];
          stdin := PIPE; stdout := PIPE; stderr := STDOUT; text := true;
          stdin_calls := []; emitted := []; consumed := 0%nat;
          returncode := None |}] /\
    current_proc s' = Some (length (procs s)).
Proof.
  intros Hs Hg Hr Ht Hsp. unfold run_script, download.
  rewrite Hg, Hr, Ht, Hsp. eexists. split; [reflexivity|]. simpl.
  repeat split. apply reachable_files_inv in Hs as [Hf _ _ _ _ _ _ _].
  destruct (files s !! tmp_count s) eqn:E; [|done].
  assert (tmp_count s < tmp_count s)%nat by (apply Hf; by eexists). lia.
Qed.

Lemma run_script_writes_and_launches_witness :
  exists s',
    run_script (lit "https://example/CheckDriveSpace.ps1") (lit "Check Drive Space")
      (fine one_liner) initial = Returned s' /\
    files initial !! 0%nat = None /\
    files s' = <[0%nat := PS_OVERRIDE ++ nl ++ one_liner]> (files initial) /\
    procs s' = procs initial ++
      [{| args := [lit "powershell.exe"; lit "-NoProfile";
                   lit "-ExecutionPolicy"; lit "Bypass"; lit "-File";
                   lit "tmp0.ps1"];
          stdin := PIPE; stdout := PIPE; stderr := STDOUT; text := true;
          stdin_calls := []; emitted := []; consumed := 0%nat;
          returncode := None |}] /\
    current_proc s' = Some 0%nat.
Proof.
  apply (run_script_writes_and_launches true
           (lit "https://example/CheckDriveSpace.ps1") (lit "Check Drive Space")
           (fine one_liner) initial (ok_response one_liner));
    [constructor|reflexivity..].
Defined.

(** ** The order of the lines *)

Lemma lines_of_app p b1 b2 :
  lines_of p (b1 ++ b2) = lines_of p b1 ++ lines_of p b2.
Proof. unfold lines_of. by rewrite filter_app, fmap_app. Qed.

Lemma lines_of_controller p box m :
  lines_of p (box ++ [(by_controller, m)]) = lines_of p box.
Proof. rewrite lines_of_app. unfold lines_of at 2. simpl. apply app_nil_r. Qed.

Lemma lines_of_other p q box m :
  p <> q -> lines_of p (box ++ [(by_process q, m)]) = lines_of p box.
Proof.
  intros Hne. rewrite lines_of_app. unfold lines_of at 2.
  rewrite filter_cons. simpl. destruct (decide (by_process q = by_process p)) as [[=]|_];
    [congruence|]. apply app_nil_r.
Qed.

Lemma lines_of_same p box m :
  lines_of p (box ++ [(by_process p, m)]) = lines_of p box ++ [m].
Proof.
  rewrite lines_of_app. unfold lines_of at 2.
  rewrite filter_cons. simpl. by destruct (decide (by_process p = by_process p)).
Qed.

Lemma lines_of_absent p box :
  (forall m, (by_process p, m) ∉ box) -> lines_of p box = [].
Proof.
  induction box as [|[o m] box IH] using rev_ind; [done|]. intros H.
  assert (lines_of p box = []) as Hbox.
  { apply IH. intros m' Hm'. apply (H m'). apply elem_of_app. by left. }
  destruct o as [|q]; [by rewrite lines_of_controller|].
  rewrite lines_of_other; [done|]. intros ->. apply (H m).
  apply elem_of_app. right. by apply list_elem_of_singleton.
Qed.

(** An insertion that is not one of child [t]. *)
Lemma lines_of_quiet t box o m :
  o <> by_process t -> lines_of t (box ++ [(o, m)]) = lines_of t box.
Proof.
  intros Ho. destruct o as [|q]; [apply lines_of_controller|].
  apply lines_of_other. congruence.
Qed.


Lemma handled_by_le r pr : (handled_by r pr <= consumed pr)%nat.
Proof. unfold handled_by. destruct (holds_line (pc r)); lia. Qed.

Lemma past_loop_ext pr pr' :
  emitted pr' = emitted pr -> consumed pr' = consumed pr ->
  (is_Some (returncode pr) -> is_Some (returncode pr')) ->
  past_loop pr -> past_loop pr'.
Proof. unfold past_loop. intros -> -> Hr [H1 H2]. auto. Qed.

Lemma phase_ok_ext cp t r pr pr' :
  emitted pr' = emitted pr -> consumed pr' = consumed pr ->
  (is_Some (returncode pr) -> is_Some (returncode pr')) ->
  phase_ok cp t r pr -> phase_ok cp t r pr'.
Proof.
  destruct pr as [a1 i1 o1 e1 x1 sc1 em1 co1 rc1],
           pr' as [a2 i2 o2 e2 x2 sc2 em2 co2 rc2].
  simpl. intros -> -> Hr. unfold phase_ok, past_loop. simpl.
  destruct (pc r) as [| | | | | | |todo next| |]; try done;
    try (intros [H1 H2]; by auto).
  destruct next; try done; intros [[H1 H2] H3]; auto.
Qed.

Lemma thread_ok_ext cp box box' ign ign' t r pr pr' :
  lines_of t box' = lines_of t box -> lines_of t ign' = lines_of t ign ->
  emitted pr' = emitted pr -> consumed pr' = consumed pr ->
  (is_Some (returncode pr) -> is_Some (returncode pr')) ->
  thread_ok cp box ign t r pr -> thread_ok cp box' ign' t r pr'.
Proof.
  intros Hb Hi He Hc Hr [H1 H2 H3 H4]. unfold handled_by in *. constructor.
  - by eapply phase_ok_ext.
  - by rewrite He, Hc.
  - unfold handled_by. by rewrite Hb, He, Hc.
  - unfold handled_by. by rewrite Hb, Hi, Hc.
Qed.

(** The thread moves on, holding what it held. *)
Lemma thread_ok_set_pc cp box ign t r pr c :
  thread_ok cp box ign t r pr ->
  phase_ok cp t (set_pc c r) pr -> holds_line c = holds_line (pc r) ->
  thread_ok cp box ign t (set_pc c r) pr.
Proof.
  intros [H1 H2 H3 H4] Hp Hh.
  constructor; unfold handled_by in *; simpl; rewrite ?Hh; done.
Qed.

(** Insertions that are not lines of a child change nothing for the
    readers. *)
Lemma stream_ok_console cp ps ths box ign box' ign' :
  (forall t, lines_of t box' = lines_of t box) ->
  (forall t, lines_of t ign' = lines_of t ign) ->
  (forall p m, (by_process p, m) ∈ box' -> (by_process p, m) ∈ box) ->
  (forall p m, (by_process p, m) ∈ ign' -> (by_process p, m) ∈ ign) ->
  stream_ok cp ps ths box ign -> stream_ok cp ps ths box' ign'.
Proof.
  intros Hb Hi Hbm Him [Hlen Hbox Hign Hth]. constructor; eauto.
  intros t r pr Ht Hp. eapply thread_ok_ext; [apply Hb|apply Hi|done..|]. eauto.
Qed.

(** A line of the controller changes nothing for the readers. *)
Lemma stream_ok_log cp ps ths box ign m :
  stream_ok cp ps ths box ign ->
  stream_ok cp ps ths (box ++ [(by_controller, m)]) ign.
Proof.
  apply stream_ok_console; try done.
  - intros t. apply lines_of_controller.
  - intros p m' [Hin|Hin]%elem_of_app; [done|].
    by apply list_elem_of_singleton in Hin.
Qed.

(** A change to a child that leaves its stream alone, and lets it end. *)
Lemma stream_ok_alter cp ps ths box ign p f :
  (forall pr, emitted (f pr) = emitted pr /\ consumed (f pr) = consumed pr /\
     (is_Some (returncode pr) -> is_Some (returncode (f pr)))) ->
  stream_ok cp ps ths box ign -> stream_ok cp (alter f p ps) ths box ign.
Proof.
  intros Hf [Hlen Hbox Hign Hth]. constructor.
  - by rewrite length_alter.
  - intros q m Hq. rewrite length_alter. eauto.
  - intros q m Hq. rewrite length_alter. eauto.
  - intros t r pr' Ht Hp. destruct (decide (p = t)) as [->|Hne].
    + rewrite list_lookup_alter_eq in Hp.
      destruct (ps !! t) as [pr|] eqn:E; [|done]. injection Hp as <-.
      destruct (Hf pr) as (He & Hc & Hr).
      eapply thread_ok_ext; [done|done|done|done|done|]. eauto.
    + rewrite list_lookup_alter_ne in Hp by done. eauto.
Qed.

(** The child [p], still alive, emits a line. *)
Lemma stream_ok_emit cp ps ths box ign p pr line :
  ps !! p = Some pr -> returncode pr = None ->
  stream_ok cp ps ths box ign ->
  stream_ok cp (alter (put_line line) p ps) ths box ign.
Proof.
  intros Hpr Hrc [Hlen Hbox Hign Hth]. constructor.
  - by rewrite length_alter.
  - intros q m Hq. rewrite length_alter. eauto.
  - intros q m Hq. rewrite length_alter. eauto.
  - intros t r pr' Ht Hp. destruct (decide (p = t)) as [->|Hne].
    + rewrite list_lookup_alter_eq, Hpr in Hp. injection Hp as <-.
      destruct (Hth t r pr Ht Hpr) as [H1 H2 H3 H4].
      pose proof (handled_by_le r pr) as Hle.
      assert (forall pr0, past_loop pr0 -> returncode pr0 = None -> False) as Hno.
      { intros pr0 [[x Hx] _] Hn. congruence. }
      constructor.
      * unfold phase_ok in *. simpl.
        destruct (pc r) as [| | | | | | |todo next| |]; try done;
          try (exfalso; by eapply Hno).
        -- destruct H1 as (-> & k & Hk & Hline). split; [done|].
           exists k. split; [done|by apply lookup_app_l_Some].
        -- destruct next; try done;
             try (exfalso; destruct H1 as [H1 _]; by eapply Hno).
           destruct H1 as (-> & k & l & Hk & Hline & Htodo). split; [done|].
           exists k, l. split; [done|]. split; [by apply lookup_app_l_Some|done].
      * simpl. rewrite length_app. lia.
      * unfold handled_by in *. simpl. rewrite take_app_le by lia. done.
      * done.
    + rewrite list_lookup_alter_ne in Hp by done. eauto.
Qed.

Lemma not_starting ths t r :
  existsb starting ths = false -> ths !! t = Some r -> pc r <> at_for.
Proof.
  intros Hex Ht Hpc. assert (existsb starting ths = true) as Htrue; [|congruence].
  apply existsb_exists. exists r. split.
  - apply list_elem_of_In, list_elem_of_lookup. eauto.
  - unfold starting. by rewrite Hpc.
Qed.

(** A new child and its reader, when no earlier reader is still about to
    evaluate [current_proc.stdout]. *)
Lemma stream_ok_spawn cp ps ths box ign file n :
  existsb starting ths = false ->
  stream_ok cp ps ths box ign ->
  stream_ok (Some (length ps)) (ps ++ [spawned file])
    (ths ++ [{| tmp := n; pc := at_for |}]) box ign.
Proof.
  intros Hquiet [Hlen Hbox Hign Hth]. constructor.
  - rewrite !length_app. simpl. lia.
  - intros q m Hq. rewrite length_app. apply Hbox in Hq. lia.
  - intros q m Hq. rewrite length_app. apply Hign in Hq. lia.
  - intros t r pr [[Hlt Ht]|[Heq <-]]%lookup_snoc_Some Hp.
    + rewrite lookup_app_l in Hp by lia.
      destruct (Hth t r pr Ht Hp) as [H1 H2 H3 H4].
      pose proof (not_starting _ _ _ Hquiet Ht) as Hns.
      constructor; try done. unfold phase_ok in *. by destruct (pc r).
    + subst t. rewrite Hlen in Hp. rewrite list_lookup_middle in Hp by done.
      injection Hp as <-.
      assert (lines_of (length ps) box = []) as Hb0.
      { apply lines_of_absent. intros m Hm. apply Hbox in Hm. lia. }
      assert (lines_of (length ps) ign = []) as Hi0.
      { apply lines_of_absent. intros m Hm. apply Hign in Hm. lia. }
      constructor; unfold phase_ok, handled_by; simpl; rewrite ?Hlen, ?Hb0, ?Hi0;
        done.
Qed.

Lemma stream_ok_set_pc cp ps ths box ign t r c :
  stream_ok cp ps ths box ign -> ths !! t = Some r ->
  (forall pr, ps !! t = Some pr ->
     thread_ok cp box ign t r pr -> thread_ok cp box ign t (set_pc c r) pr) ->
  stream_ok cp ps (alter (set_pc c) t ths) box ign.
Proof.
  intros [Hlen Hbox Hign Hth] Ht Hnew. constructor.
  - by rewrite length_alter.
  - done.
  - done.
  - intros t' r' pr Ht' Hp. destruct (decide (t = t')) as [<-|Hne].
    + rewrite list_lookup_alter_eq, Ht in Ht'. injection Ht' as <-. eauto.
    + rewrite list_lookup_alter_ne in Ht' by done. eauto.
Qed.

Lemma stream_ok_own cp ps ths box ign t r :
  stream_ok cp ps ths box ign -> ths !! t = Some r ->
  exists pr, ps !! t = Some pr /\ thread_ok cp box ign t r pr.
Proof.
  intros [Hlen Hbox Hign Hth] Ht.
  destruct (lookup_lt_is_Some_2 ps t) as [pr Hpr].
  { rewrite <- Hlen. by eapply lookup_lt_Some. }
  exists pr. split; [done|]. eauto.
Qed.

(** The reader takes the next line of its stream. *)
Lemma stream_ok_read cp ps ths box ign t r p pr line :
  stream_ok cp ps ths box ign -> ths !! t = Some r -> pc r = in_for p ->
  ps !! p = Some pr -> emitted pr !! consumed pr = Some line ->
  stream_ok cp (alter take_line p ps)
    (alter (set_pc (in_body p line)) t ths) box ign.
Proof.
  intros H Ht Hpc Hp Hline.
  destruct (stream_ok_own _ _ _ _ _ _ _ H Ht) as (pr0 & Hp0 & [H1 H2 H3 H4]).
  unfold phase_ok in H1. rewrite Hpc in H1. subst p.
  rewrite Hp in Hp0. injection Hp0 as <-.
  unfold handled_by in *. rewrite Hpc in H3, H4. simpl in H3, H4.
  destruct H as [Hlen Hbox Hign Hth]. constructor.
  - by rewrite !length_alter.
  - intros q m Hq. rewrite length_alter. eauto.
  - intros q m Hq. rewrite length_alter. eauto.
  - intros t' r' pr' Ht' Hp'. destruct (decide (t = t')) as [<-|Hne].
    + rewrite list_lookup_alter_eq, Ht in Ht'. injection Ht' as <-.
      rewrite list_lookup_alter_eq, Hp in Hp'. injection Hp' as <-.
      apply lookup_lt_Some in Hline as Hlt.
      constructor; unfold phase_ok, handled_by; simpl; try done; try lia.
      split; [done|]. by exists (consumed pr).
    + rewrite list_lookup_alter_ne in Ht' by done.
      rewrite list_lookup_alter_ne in Hp' by done. eauto.
Qed.

Lemma quiet_write_log m : quiet (write_log_calls by_controller m).
Proof. repeat constructor. Qed.

Lemma quiet_reset_ui n : quiet (reset_ui_calls n).
Proof.
  unfold quiet, reset_ui_calls. apply Forall_app. split.
  - apply Forall_fmap, Forall_forall. done.
  - repeat constructor.
Qed.

(** The reader thread [t], inside [write_log] or [reset_ui] with the
    calls [c :: rest] still to make, makes the call [c]. *)
Lemma stream_ok_call cp ps ths g t r c rest next :
  stream_ok cp ps ths (output_box g) (ignored g) -> ths !! t = Some r ->
  (forall pr, ps !! t = Some pr ->
     phase_ok cp t (set_pc (in_call (c :: rest) next) r) pr /\
     holds_line (in_call (c :: rest) next) = holds_line (pc r)) ->
  stream_ok cp ps (alter (set_pc (after_calls rest next)) t ths)
    (output_box (tk_exec c g)) (ignored (tk_exec c g)).
Proof.
  intros H Ht Hvirt.
  destruct (stream_ok_own _ _ _ _ _ _ _ H Ht) as (pr & Hp & [H1 H2 H3 H4]).
  destruct (Hvirt pr Hp) as [Hph Hh]. clear Hvirt H1.
  assert (t < length ps)%nat as Htlt by (by eapply lookup_lt_Some).
  destruct H as [Hlen Hbox Hign Hth].
  (* what the other threads see *)
  assert (forall box' ign',
    (forall t', t' <> t -> lines_of t' box' = lines_of t' (output_box g)) ->
    (forall t', t' <> t -> lines_of t' ign' = lines_of t' (ignored g)) ->
    (forall p m, (by_process p, m) ∈ box' -> (p < length ps)%nat) ->
    (forall p m, (by_process p, m) ∈ ign' -> (p < length ps)%nat) ->
    thread_ok cp box' ign' t (set_pc (after_calls rest next) r) pr ->
    stream_ok cp ps (alter (set_pc (after_calls rest next)) t ths) box' ign')
    as Hbuild.
  { intros box' ign' Hb Hi Hbm Him Hown. constructor.
    - by rewrite length_alter.
    - done.
    - done.
    - intros t' r' pr' Ht' Hp'. destruct (decide (t = t')) as [<-|Hne].
      + rewrite list_lookup_alter_eq, Ht in Ht'. injection Ht' as <-.
        rewrite Hp in Hp'. by injection Hp' as <-.
      + rewrite list_lookup_alter_ne in Ht' by done.
        eapply thread_ok_ext; [by apply Hb|by apply Hi|done..|]. eauto. }
  (* the call inserts no line of a child *)
  assert (is_proc_insert c = false ->
          phase_ok cp t (set_pc (after_calls rest next) r) pr ->
          holds_line (after_calls rest next) = holds_line (pc r) ->
          stream_ok cp ps (alter (set_pc (after_calls rest next)) t ths)
            (output_box (tk_exec c g)) (ignored (tk_exec c g))) as Hquiet.
  { intros Hc Hph' Hh'.
    assert (forall t', lines_of t' (output_box (tk_exec c g)) =
                       lines_of t' (output_box g)) as Hb.
    { intros t'. destruct (tk_exec_box c g) as [_ [(-> & _ & _)|(o & m & -> & [[-> _]|[-> _]])]];
        try done. destruct o; [apply lines_of_controller|done]. }
    assert (forall t', lines_of t' (ignored (tk_exec c g)) =
                       lines_of t' (ignored g)) as Hi.
    { intros t'. destruct (tk_exec_box c g) as [_ [(_ & -> & _)|(o & m & -> & [[_ ->]|[_ ->]])]];
        try done. destruct o; [apply lines_of_controller|done]. }
    apply Hbuild; auto.
    - intros p m Hm. apply (Hbox p m).
      destruct (tk_exec_box c g) as [_ [(E & _ & _)|(o & m' & -> & [[E _]|[E _]])]];
        rewrite E in Hm; try done.
      apply elem_of_app in Hm as [Hm|Hm]; [done|].
      apply list_elem_of_singleton in Hm. injection Hm as <- <-. done.
    - intros p m Hm. apply (Hign p m).
      destruct (tk_exec_box c g) as [_ [(_ & E & _)|(o & m' & -> & [[_ E]|[_ E]])]];
        rewrite E in Hm; try done.
      apply elem_of_app in Hm as [Hm|Hm]; [done|].
      apply list_elem_of_singleton in Hm. injection Hm as <- <-. done.
    - constructor; unfold handled_by in *; simpl; rewrite ?Hh', ?Hb, ?Hi;
        done. }
  unfold phase_ok in Hph. simpl in Hph.
  destruct next; try done.
  - (* in the loop *)
    destruct Hph as (-> & k & line & Hk & Hline & Htodo).
    apply lookup_lt_Some in Hline as Hklt.
    simpl in Hh. unfold handled_by in H3, H4. rewrite <- Hh in H3, H4.
    destruct Htodo as [Htodo|[Htodo|[Htodo|Htodo]]];
      injection Htodo as -> ->.
    + apply Hquiet; [done| |done].
      unfold phase_ok. simpl. split; [done|]. exists k, line. eauto 10.
    + simpl in H3, H4. rewrite Hk in H3, H4. simpl in H3, H4.
      apply Hbuild.
      * intros t' Hne. simpl. destruct (is_normal (box_state g)); simpl; [|done].
        by apply lines_of_other.
      * intros t' Hne. simpl. destruct (is_normal (box_state g)); simpl; [done|].
        by apply lines_of_other.
      * intros p m. simpl. destruct (is_normal (box_state g)); simpl; [|by eauto].
        intros [Hm|Hm]%elem_of_app; [eauto|].
        apply list_elem_of_singleton in Hm. by injection Hm as -> _.
      * intros p m. simpl. destruct (is_normal (box_state g)); simpl; [by eauto|].
        intros [Hm|Hm]%elem_of_app; [eauto|].
        apply list_elem_of_singleton in Hm. by injection Hm as -> _.
      * constructor; unfold phase_ok, handled_by; simpl.
        -- split; [done|]. exists k, line. eauto 10.
        -- done.
        -- rewrite Hk, (take_S_r _ _ _ Hline), fmap_app. simpl.
           destruct (is_normal (box_state g)); simpl.
           ++ rewrite lines_of_same. by apply sublist_app.
           ++ by apply sublist_inserts_r.
        -- rewrite Hk. destruct (is_normal (box_state g)); simpl;
             rewrite lines_of_same, length_app; simpl; lia.
    + apply Hquiet; [done| |done].
      unfold phase_ok. simpl. split; [done|]. exists k, line. eauto 10.
    + apply Hquiet; [done|by unfold phase_ok|done].
  - (* the [Completed] line *)
    destruct Hph as [Hpast Hq]. apply Forall_cons in Hq as [Hc Hq].
    apply Hquiet; [done| |by destruct rest].
    unfold phase_ok. destruct rest; simpl; [done|by split].
  - (* [reset_ui] *)
    destruct Hph as [Hpast Hq]. apply Forall_cons in Hq as [Hc Hq].
    apply Hquiet; [done| |by destruct rest].
    unfold phase_ok. destruct rest; simpl; [done|by split].
Qed.

Lemma call_next_stream_inv t r todo next s :
  stream_inv s -> threads s !! t = Some r -> todo <> [] ->
  (forall pr, procs s !! t = Some pr ->
     phase_ok (current_proc s) t (set_pc (in_call todo next) r) pr /\
     holds_line (in_call todo next) = holds_line (pc r)) ->
  stream_inv (call_next t todo next s).
Proof.
  unfold stream_inv, call_next. intros H Ht Hne Hv.
  destruct todo as [|c rest]; [done|]. simpl. by eapply stream_ok_call.
Qed.

Lemma run_script_stream_inv url desc w s :
  existsb starting (threads s) = false ->
  stream_inv s -> stream_inv (callback (run_script url desc w s)).
Proof.
  unfold stream_inv, run_script, download. intros Hquiet H.
  destruct (http_get w) as [e|r]; simpl; [by repeat apply stream_ok_log|].
  destruct (raise_for_status url r); simpl; [by repeat apply stream_ok_log|].
  destruct (tmp_io w); simpl; [|by repeat apply stream_ok_log..].
  destruct (spawn w); simpl; [by repeat apply stream_ok_log|].
  apply stream_ok_spawn with (cp := current_proc s); [done|].
  by repeat apply stream_ok_log.
Qed.

Lemma exit_with_stream code pr :
  emitted (exit_with code pr) = emitted pr /\
  consumed (exit_with code pr) = consumed pr /\
  (is_Some (returncode pr) -> is_Some (returncode (exit_with code pr))).
Proof. repeat split. simpl. by destruct (returncode pr). Qed.

Lemma stop_process_stream_inv race s :
  stream_inv s -> stream_inv (callback (stop_process race s)).
Proof.
  unfold stream_inv, stop_process. intros H.
  destruct (current_proc s) as [p|] eqn:Hc; rewrite <- Hc in H; [|done].
  destruct (poll p s); [done|]. simpl.
  apply stream_ok_log. apply stream_ok_alter; [apply exit_with_stream|].
  destruct race; simpl; [|done].
  apply stream_ok_alter; [apply exit_with_stream|done].
Qed.

Lemma send_input_stream_inv io s :
  stream_inv s -> stream_inv (callback (send_input io s)).
Proof.
  unfold stream_inv, send_input. intros H.
  destruct (current_proc s) as [p|] eqn:Hc; rewrite <- Hc in H; [|done].
  destruct (poll p s); [done|].
  destruct io; simpl; apply stream_ok_log;
    repeat (apply stream_ok_alter; [by intros pr|]); done.
Qed.

Lemma reader_step_stream_inv t s s' :
  stream_inv s -> reader_step t s = Some s' -> stream_inv s'.
Proof.
  unfold reader_step. intros H Hs.
  destruct (threads s !! t) as [r|] eqn:Ht; [|done]. simpl in Hs.
  destruct (pc r) as [|p|p line| |code|code| |todo next| |e] eqn:Hpc.
  - destruct (current_proc s) as [p|] eqn:Hc; [|done]. injection Hs as <-.
    unfold stream_inv in *. simpl.
    rewrite Hc. eapply stream_ok_set_pc; [by rewrite <- Hc|done|].
    intros pr Hpr Hok. apply thread_ok_set_pc; [done| |by rewrite Hpc].
    destruct Hok as [Hph _ _ _]. unfold phase_ok in *. rewrite Hpc in Hph.
    simpl. destruct Hph as [Hcp _]. congruence.
  - destruct (procs s !! p) as [pr|] eqn:Hp; [|done]. simpl in Hs.
    destruct (emitted pr !! consumed pr) as [line|] eqn:Hline.
    + injection Hs as <-. unfold stream_inv in *. simpl. by eapply stream_ok_read.
    + destruct (returncode pr) eqn:Hrc; [|done]. injection Hs as <-.
      unfold stream_inv in *. simpl.
      eapply stream_ok_set_pc; [done..|].
      intros pr0 Hpr0 Hok. apply thread_ok_set_pc; [done| |by rewrite Hpc].
      destruct Hok as [Hph Hle _ _]. unfold phase_ok in *. rewrite Hpc in Hph.
      subst p. rewrite Hp in Hpr0. injection Hpr0 as <-. simpl.
      split; [by rewrite Hrc|]. apply lookup_ge_None in Hline. lia.
  - injection Hs as <-. eapply call_next_stream_inv; [done..|].
    intros pr Hpr. destruct (stream_ok_own _ _ _ _ _ _ _ H Ht) as (pr0 & Hp0 & [Hph _ _ _]).
    rewrite Hpr in Hp0. injection Hp0 as <-.
    unfold phase_ok in *. rewrite Hpc in *. simpl.
    destruct Hph as (-> & k & Hk & Hl). split; [|done].
    split; [done|]. exists k, line. eauto 10.
  - destruct (current_proc s) as [p|] eqn:Hc; [|done]. simpl in Hs.
    destruct (poll p s); [|done]. injection Hs as <-.
    unfold stream_inv in *. simpl. rewrite Hc.
    eapply stream_ok_set_pc; [by rewrite <- Hc|done|].
    intros pr0 _ Hok. apply thread_ok_set_pc; [done| |by rewrite Hpc].
    destruct Hok as [Hph _ _ _]. unfold phase_ok in *. by rewrite Hpc in Hph.
  - destruct (files s !! tmp r); injection Hs as <-; unfold stream_inv in *; simpl;
      (eapply stream_ok_set_pc; [done..|]);
      intros pr0 _ Hok; (apply thread_ok_set_pc; [done| |by rewrite Hpc]);
      destruct Hok as [Hph _ _ _]; unfold phase_ok in *; by rewrite Hpc in Hph.
  - injection Hs as <-. eapply call_next_stream_inv; [done..|].
    intros pr Hpr. destruct (stream_ok_own _ _ _ _ _ _ _ H Ht) as (pr0 & Hp0 & [Hph _ _ _]).
    rewrite Hpr in Hp0. injection Hp0 as <-.
    unfold phase_ok in *. rewrite Hpc in *. simpl.
    split; [|done]. split; [done|apply quiet_write_log].
  - injection Hs as <-.
    destruct (reset_ui_calls (length (script_buttons (gui s)))) as [|c rest] eqn:E.
    { unfold reset_ui_calls in E. by destruct (_ <$> _). }
    eapply call_next_stream_inv; [done..|].
    intros pr Hpr. destruct (stream_ok_own _ _ _ _ _ _ _ H Ht) as (pr0 & Hp0 & [Hph _ _ _]).
    rewrite Hpr in Hp0. injection Hp0 as <-.
    unfold phase_ok in *. rewrite Hpc in *. simpl.
    split; [|done]. split; [done|]. rewrite <- E. apply quiet_reset_ui.
  - destruct todo as [|c rest].
    + injection Hs as <-. unfold call_next, stream_inv in *. simpl.
      eapply stream_ok_set_pc; [done..|].
      intros pr0 _ Hok. pose proof (th_phase _ _ _ _ _ _ Hok) as Hph.
      unfold phase_ok in Hph. rewrite Hpc in Hph.
      apply thread_ok_set_pc; [done| |].
      * unfold phase_ok. simpl. destruct next; try done.
        -- by destruct Hph as (_ & k & l & _ & _ & [?|[?|[?|?]]]).
        -- by destruct Hph.
        -- by destruct Hph.
      * rewrite Hpc. by destruct next.
    + injection Hs as <-. eapply call_next_stream_inv; [done..|].
      intros pr Hpr. destruct (stream_ok_own _ _ _ _ _ _ _ H Ht) as (pr0 & Hp0 & [Hph _ _ _]).
      rewrite Hpr in Hp0. injection Hp0 as <-.
      unfold phase_ok in *. rewrite Hpc in *. simpl. done.
  - done.
  - done.
Qed.

Lemma reader_raise_stream_inv t e s s' :
  stream_inv s -> reader_raise t e s = Some s' -> stream_inv s'.
Proof.
  unfold reader_raise. intros H Hs.
  destruct (threads s !! t) as [r|] eqn:Ht; [|done]. simpl in Hs.
  destruct (pc r) eqn:Hpc; try done. injection Hs as <-.
  unfold stream_inv in *. simpl. eapply stream_ok_set_pc; [done..|].
  intros pr _ Hok. apply thread_ok_set_pc; [done|done|by rewrite Hpc].
Qed.

Lemma step_stream_inv l s s' :
  stream_inv s -> step true l s = Some s' -> stream_inv s'.
Proof.
  intros H Hs. destruct l; simpl in Hs.
  - destruct (script_buttons (gui s) !! i) as [b|]; [|done]. simpl in Hs.
    destruct (GITHUB_SCRIPTS !! i) as [[lbl url]|]; [|done]. simpl in Hs.
    destruct (is_normal b); [|done]. simpl in Hs.
    destruct (existsb starting (threads s)) eqn:Hquiet; [done|].
    injection Hs as <-. by apply run_script_stream_inv.
  - destruct (is_normal _); [|done]. injection Hs as <-.
    by apply stop_process_stream_inv.
  - injection Hs as <-. by apply send_input_stream_inv.
  - by injection Hs as <-.
  - by injection Hs as <-.
  - destruct (procs s !! p) as [pr|] eqn:Hp; [|done]. simpl in Hs.
    destruct (returncode pr) eqn:Hrc; [done|]. injection Hs as <-.
    by eapply stream_ok_emit.
  - destruct (procs s !! p) as [pr|] eqn:Hp; [|done]. simpl in Hs.
    destruct (returncode pr) eqn:Hrc; [done|]. injection Hs as <-.
    apply stream_ok_alter; [apply exit_with_stream|done].
  - by eapply reader_step_stream_inv.
  - by eapply reader_raise_stream_inv.
Qed.

Lemma reachable_stream_inv s : reachable true s -> stream_inv s.
Proof.
  induction 1 as [|l s s' _ IH Hs].
  - constructor; simpl; try done.
    + intros p m Hm. by apply not_elem_of_nil in Hm.
    + intros p m Hm. by apply not_elem_of_nil in Hm.
  - by eapply step_stream_inv.
Qed.

Example abc_runs : run true abc initial = Some abc_state.
Proof. vm_compute. reflexivity. Qed.

Example abc_lines :
  emitted_of 0 abc_state = [lit "A" ++ nl; lit "B" ++ nl; lit "C" ++ nl] /\
  lines_of 0 (output_box (gui abc_state)) = [lit "A"; lit "B"].
Proof. split; vm_compute; reflexivity. Qed.




(** ** What a forwarded line looks like *)

Lemma lines_emitted_alter p q f ps line :
  (forall pr x, x ∈ emitted pr -> x ∈ emitted (f pr)) ->
  line ∈ lines_emitted p ps -> line ∈ lines_emitted p (alter f q ps).
Proof.
  intros Hf. unfold lines_emitted. destruct (decide (q = p)) as [->|Hne].
  - rewrite list_lookup_alter_eq. destruct (ps !! p); simpl; eauto.
  - by rewrite list_lookup_alter_ne.
Qed.

Lemma lines_emitted_app p ps pr line :
  line ∈ lines_emitted p ps -> line ∈ lines_emitted p (ps ++ [pr]).
Proof.
  unfold lines_emitted. destruct (ps !! p) as [pr0|] eqn:E; simpl.
  - by rewrite (lookup_app_l_Some _ _ _ _ E).
  - intros H. by apply not_elem_of_nil in H.
Qed.

Lemma origin_ok_mono ps ps' ths box :
  (forall p line, line ∈ lines_emitted p ps -> line ∈ lines_emitted p ps') ->
  origin_ok ps ths box -> origin_ok ps' ths box.
Proof.
  intros Hsub [Hbox Hbody Htodo Hnext]. constructor.
  - intros p m Hm. destruct (Hbox p m Hm) as (line & Hl & ->). eauto.
  - eauto.
  - intros t r todo next p m Ht Hpc Hin.
    destruct (Htodo t r todo next p m Ht Hpc Hin) as (line & Hl & ->). eauto.
  - done.
Qed.

Lemma origin_ok_alter ps ths box q f :
  (forall pr x, x ∈ emitted pr -> x ∈ emitted (f pr)) ->
  origin_ok ps ths box -> origin_ok (alter f q ps) ths box.
Proof.
  intros Hf. apply origin_ok_mono. intros p line. by apply lines_emitted_alter.
Qed.

Lemma origin_ok_log ps ths box m :
  origin_ok ps ths box -> origin_ok ps ths (box ++ [(by_controller, m)]).
Proof.
  intros [Hbox Hbody Htodo Hnext]. constructor; [|done..].
  intros p m' [Hin|Hin]%elem_of_app; [eauto|].
  by apply list_elem_of_singleton in Hin.
Qed.

Lemma origin_ok_spawn ps ths box pr n :
  origin_ok ps ths box ->
  origin_ok (ps ++ [pr]) (ths ++ [{| tmp := n; pc := at_for |}]) box.
Proof.
  intros H. apply origin_ok_mono with (ps' := ps ++ [pr]) in H;
    [|intros p line; apply lines_emitted_app].
  destruct H as [Hbox Hbody Htodo Hnext]. constructor; [done| | |].
  - intros t r p line [[_ Ht]|[_ <-]]%lookup_snoc_Some; [eauto|done].
  - intros t r todo next p m [[_ Ht]|[_ <-]]%lookup_snoc_Some; [eauto|done].
  - intros t r todo next [[_ Ht]|[_ <-]]%lookup_snoc_Some; [eauto|done].
Qed.

Lemma origin_ok_set_pc ps ths box t c :
  (forall p line, c = in_body p line -> line ∈ lines_emitted p ps) ->
  (forall todo next, c = in_call todo next ->
     plain next /\
     forall p m, box_insert (by_process p) m ∈ todo ->
       exists line, line ∈ lines_emitted p ps /\ m = rstrip line) ->
  origin_ok ps ths box -> origin_ok ps (alter (set_pc c) t ths) box.
Proof.
  intros Hc Hd [Hbox Hbody Htodo Hnext]. constructor; [done| | |].
  - intros t' r' p line Ht' Hpc.
    apply lookup_set_pc in Ht' as (r0 & H0 & _ & [[_ ->]|[_ Hpc']]); [eauto|].
    apply Hc. congruence.
  - intros t' r' todo next p m Ht' Hpc.
    apply lookup_set_pc in Ht' as (r0 & H0 & _ & [[_ ->]|[_ Hpc']]); [eauto|].
    apply (Hd todo next). congruence.
  - intros t' r' todo next Ht' Hpc.
    apply lookup_set_pc in Ht' as (r0 & H0 & _ & [[_ ->]|[_ Hpc']]); [eauto|].
    apply (Hd todo next). congruence.
Qed.

(** The reader makes the next call of the function it is in; the lines of
    children it still has to insert come from lines those children
    emitted. *)
Lemma call_next_origin_inv t todo next s :
  origin_inv s -> plain next ->
  (forall p m, box_insert (by_process p) m ∈ todo ->
     exists line, line ∈ lines_emitted p (procs s) /\ m = rstrip line) ->
  origin_inv (call_next t todo next s).
Proof.
  unfold origin_inv, call_next. intros H Hn Hin.
  destruct todo as [|c rest]; simpl.
  - apply origin_ok_set_pc; [by destruct next|by destruct next|done].
  - apply origin_ok_set_pc.
    + intros p line E. destruct rest; simpl in E; [|done]. by subst next.
    + intros todo' next' E. destruct rest as [|c' rest]; simpl in E.
      * by subst next.
      * injection E as <- <-. split; [done|]. intros p m Hm.
        apply Hin. by apply elem_of_cons; right.
    + destruct H as [Hbox Hbody Htodo Hnext]. constructor; [|done..].
      intros p m Hm.
      destruct (tk_exec_box c (gui s)) as [_ [(E & _ & _)|(o & m' & -> & [[E _]|[E _]])]];
        rewrite E in Hm; eauto.
      apply elem_of_app in Hm as [Hm|Hm]; [eauto|].
      apply list_elem_of_singleton in Hm. injection Hm as <- <-.
      apply Hin. by apply elem_of_cons; left.
Qed.

Lemma run_script_origin_inv url desc w s :
  origin_inv s -> origin_inv (callback (run_script url desc w s)).
Proof.
  unfold origin_inv, run_script, download. intros H.
  destruct (http_get w) as [e|r]; simpl; [by repeat apply origin_ok_log|].
  destruct (raise_for_status url r); simpl; [by repeat apply origin_ok_log|].
  destruct (tmp_io w); simpl; [|by repeat apply origin_ok_log..].
  destruct (spawn w); simpl; [by repeat apply origin_ok_log|].
  apply origin_ok_spawn. by repeat apply origin_ok_log.
Qed.

Lemma stop_process_origin_inv race s :
  origin_inv s -> origin_inv (callback (stop_process race s)).
Proof.
  unfold origin_inv, stop_process. intros H.
  destruct (current_proc s) as [p|]; [|done].
  destruct (poll p s); [done|]. simpl.
  apply origin_ok_log. apply origin_ok_alter; [done|].
  destruct race; simpl; [|done]. by apply origin_ok_alter.
Qed.

Lemma send_input_origin_inv io s :
  origin_inv s -> origin_inv (callback (send_input io s)).
Proof.
  unfold origin_inv, send_input. intros H.
  destruct (current_proc s) as [p|]; [|done].
  destruct (poll p s); [done|].
  destruct io; simpl; apply origin_ok_log;
    repeat (apply origin_ok_alter; [done|]); done.
Qed.

Lemma reader_step_origin_inv t s s' :
  origin_inv s -> reader_step t s = Some s' -> origin_inv s'.
Proof.
  unfold reader_step. intros H Hs.
  destruct (threads s !! t) as [r|] eqn:Ht; [|done]. simpl in Hs.
  destruct (pc r) as [|p|p line| |code|code| |todo next| |e] eqn:Hpc.
  - destruct (current_proc s) as [p|]; [|done]. injection Hs as <-.
    unfold origin_inv in *. simpl. by apply origin_ok_set_pc.
  - destruct (procs s !! p) as [pr|] eqn:Hp; [|done]. simpl in Hs.
    destruct (emitted pr !! consumed pr) as [line|] eqn:Hline.
    + injection Hs as <-. unfold origin_inv in *. simpl. apply origin_ok_set_pc.
      * intros p' line' [= <- <-]. unfold lines_emitted.
        rewrite list_lookup_alter_eq, Hp. simpl.
        apply list_elem_of_lookup. eauto.
      * done.
      * by apply origin_ok_alter.
    + destruct (returncode pr); [|done]. injection Hs as <-.
      unfold origin_inv in *. simpl. by apply origin_ok_set_pc.
  - injection Hs as <-. apply call_next_origin_inv; [done..|].
    intros q m Hm. unfold write_log_calls in Hm.
    apply elem_of_cons in Hm as [[=]|Hm].
    apply elem_of_cons in Hm as [[= -> ->]|Hm].
    + exists line. split; [|done]. by eapply (inv_body_origin _ _ _ H).
    + apply elem_of_cons in Hm as [[=]|Hm].
      apply elem_of_cons in Hm as [[=]|Hm]. by apply not_elem_of_nil in Hm.
  - destruct (current_proc s) as [p|]; [|done]. simpl in Hs.
    destruct (poll p s); [|done]. injection Hs as <-.
    unfold origin_inv in *. simpl. by apply origin_ok_set_pc.
  - destruct (files s !! tmp r); injection Hs as <-; unfold origin_inv in *; simpl;
      by apply origin_ok_set_pc.
  - injection Hs as <-. apply call_next_origin_inv; [done..|].
    intros q m Hm. unfold write_log_calls in Hm.
    repeat (apply elem_of_cons in Hm as [[=]|Hm]). by apply not_elem_of_nil in Hm.
  - injection Hs as <-. apply call_next_origin_inv; [done..|].
    intros q m Hm. unfold reset_ui_calls in Hm.
    apply elem_of_app in Hm as [Hm|Hm].
    + apply list_elem_of_fmap in Hm as (i & [=] & _).
    + repeat (apply elem_of_cons in Hm as [[=]|Hm]). by apply not_elem_of_nil in Hm.
  - injection Hs as <-. apply call_next_origin_inv; [done| |].
    + by eapply (inv_todo_next _ _ _ H).
    + intros q m Hm. by eapply (inv_todo_origin _ _ _ H).
  - done.
  - done.
Qed.

Lemma reader_raise_origin_inv t e s s' :
  origin_inv s -> reader_raise t e s = Some s' -> origin_inv s'.
Proof.
  unfold reader_raise. intros H Hs.
  destruct (threads s !! t) as [r|] eqn:Ht; [|done]. simpl in Hs.
  destruct (pc r); try done. injection Hs as <-.
  unfold origin_inv in *. simpl. by apply origin_ok_set_pc.
Qed.

Lemma step_origin_inv prompt l s s' :
  origin_inv s -> step prompt l s = Some s' -> origin_inv s'.
Proof.
  intros H Hs. destruct l; simpl in Hs.
  - destruct (script_buttons (gui s) !! i) as [b|]; [|done]. simpl in Hs.
    destruct (GITHUB_SCRIPTS !! i) as [[lbl url]|]; [|done]. simpl in Hs.
    destruct (_ && _); [|done]. injection Hs as <-.
    by apply run_script_origin_inv.
  - destruct (is_normal _); [|done]. injection Hs as <-.
    by apply stop_process_origin_inv.
  - injection Hs as <-. by apply send_input_origin_inv.
  - by injection Hs as <-.
  - by injection Hs as <-.
  - destruct (procs s !! p) as [pr|] eqn:Hp; [|done]. simpl in Hs.
    destruct (returncode pr) eqn:Hrc; [done|]. injection Hs as <-.
    apply origin_ok_alter; [|done]. intros pr0 x Hx. simpl.
    apply elem_of_app. by left.
  - destruct (procs s !! p) as [pr|] eqn:Hp; [|done]. simpl in Hs.
    destruct (returncode pr) eqn:Hrc; [done|]. injection Hs as <-.
    by apply origin_ok_alter.
  - by eapply reader_step_origin_inv.
  - by eapply reader_raise_origin_inv.
Qed.

Lemma reachable_origin_inv prompt s : reachable prompt s -> origin_inv s.
Proof.
  induction 1 as [|l s s' _ IH Hs].
  - constructor; simpl; try done.
    intros p m Hm. by apply not_elem_of_nil in Hm.
  - by eapply step_origin_inv.
Qed.

Example padded_runs : run false padded initial = Some padded_state.
Proof. vm_compute. reflexivity. Qed.

(** C8, as the program has it.  Every line of a child that the console
    has received is [rstrip] of a line that child emitted: the line
    without its whole tail of white space (blanks, tabs, carriage
    returns, the newline, ...), and with nothing else changed. *)
Theorem forwarded_line_is_rstrip (prompt : bool) (s : State) (p : nat) (m : str) :
  reachable prompt s -> (by_process p, m) ∈ output_box (gui s) ->
  exists line ws,
    line ∈ emitted_of p s /\ m = rstrip line /\
    line = m ++ ws /\ forallb isspace ws = true /\
    (forall c, last m = Some c -> isspace c = false).
Proof.
  intros Hs Hm. apply reachable_origin_inv in Hs as [Hbox _].
  destruct (Hbox p m Hm) as (line & Hline & ->).
  destruct (rstrip_spec line) as (ws & Hsplit & Hws & Hlast).
  by exists line, ws.
Qed.

Lemma forwarded_line_is_rstrip_witness :
  exists line ws,
    line ∈ emitted_of 0 padded_state /\ lit "ok" = rstrip line /\
    line = lit "ok" ++ ws /\ forallb isspace ws = true /\
    (forall c, last (lit "ok") = Some c -> isspace c = false).
Proof.
  apply (forwarded_line_is_rstrip false padded_state 0 (lit "ok")).
  - apply (run_reachable false padded initial);
      [constructor|vm_compute; reflexivity].
  - apply list_elem_of_lookup. exists 3%nat. vm_compute. reflexivity.
Defined.

(** C8, as stated, fails: the child emits "ok" followed by two blanks and
    a newline; without its terminator that line still ends in two blanks,
    but the console receives "ok". *)
Lemma trailing_blanks_dropped :
  reachable false padded_state /\
  emitted_of 0 padded_state = [lit "ok  " ++ nl] /\
  chomp (lit "ok  " ++ nl) = lit "ok  " /\
  lines_of 0 (output_box (gui padded_state)) = [lit "ok"] /\
  lines_of 0 (output_box (gui padded_state)) <>
    chomp <$> emitted_of 0 padded_state.
Proof.
  split; [apply (run_reachable false padded initial);
            [constructor|vm_compute; reflexivity]|].
  repeat split; try (vm_compute; reflexivity).
  vm_compute. discriminate.
Qed.

(** * Further properties *)

(** ** The button grid *)

(** X1.  The grid gives every script button of the catalog a cell of its
    own inside two rows of [cols] columns, so no two buttons overlap and
    none lands on the Stop or the Clear button. *)
Theorem grid_layout (i : nat) :
  (i < length GITHUB_SCRIPTS)%nat ->
  (fst (grid_cell i) < 2)%nat /\ (snd (grid_cell i) < cols)%nat /\
  grid_cell i <> stop_cell /\ grid_cell i <> clear_cell /\
  (forall j, grid_cell i = grid_cell j -> i = j).
Proof.
  intros Hi. change (length GITHUB_SCRIPTS) with 13%nat in Hi.
  assert (cols <> 0)%nat as Hc by done.
  assert (cols = 7%nat) as Hc7 by done.
  unfold grid_cell, stop_cell, clear_cell. cbn [fst snd].
  pose proof (Nat.mod_upper_bound i cols Hc) as Hm.
  repeat split.
  - apply Nat.Div0.div_lt_upper_bound. lia.
  - done.
  - intros H. apply (f_equal snd) in H. cbn [snd] in H. lia.
  - intros H. apply (f_equal snd) in H. cbn [snd] in H. lia.
  - intros j H. pose proof (f_equal fst H) as Hd. pose proof (f_equal snd H) as Hm'.
    cbn [fst snd] in Hd, Hm'.
    pose proof (Nat.div_mod_eq i cols). pose proof (Nat.div_mod_eq j cols).
    congruence.
Qed.

Lemma grid_layout_witness :
  (fst (grid_cell 12) < 2)%nat /\ (snd (grid_cell 12) < cols)%nat /\
  grid_cell 12 <> stop_cell /\ grid_cell 12 <> clear_cell /\
  (forall j, grid_cell 12 = grid_cell j -> 12%nat = j).
Proof. apply (grid_layout 12). vm_compute. lia. Defined.

(** ** [stop_process] *)

(** X2.  With no child, or with a child that has exited, [stop_process]
    changes nothing at all: no line in the console, no reset of the
    buttons, no call on the child. *)
Theorem stop_process_nothing_running (race : option Z) (s : State) :
  current_proc s = None \/
  (exists p c, current_proc s = Some p /\ poll p s = Some c) ->
  stop_process race s = Returned s.
Proof.
  unfold stop_process. intros [->|(p & c & -> & ->)]; reflexivity.
Qed.

Lemma stop_process_nothing_running_witness :
  stop_process None session_end = Returned session_end.
Proof.
  apply (stop_process_nothing_running None session_end). right.
  exists 0%nat, 0. split; vm_compute; reflexivity.
Defined.

(** X3.  On a live child, [stop_process] ends it (with the status of
    [kill], or with its own if it exits first), writes [Stopped], enables
    the script buttons and disables Stop, and touches neither the files
    nor the threads; a second [stop_process] then does nothing. *)
Theorem stop_process_kills (race : option Z) (s : State) (p : nat) (pr : Popen) :
  current_proc s = Some p -> procs s !! p = Some pr -> returncode pr = None ->
  exists s',
    stop_process race s = Returned s' /\
    poll p s' = Some (default killed_status race) /\
    output_box (gui s') = output_box (gui s) ++ [(by_controller, lit "[Stopped]")] /\
    script_buttons (gui s') = (fun _ => normal) <$> script_buttons (gui s) /\
    stop_btn (gui s') = disabled /\ status_label (gui s') = lit "Ready" /\
    files s' = files s /\ threads s' = threads s /\
    forall race', stop_process race' s' = Returned s'.
Proof.
  intros Hc Hp Hr.
  assert (poll p s = None) as Hpoll by (unfold poll; by rewrite Hp).
  unfold stop_process at 1. rewrite Hc, Hpoll. eexists. split; [reflexivity|].
  assert (forall q, poll p (reset_ui (write_log by_controller q
            (kill p match race with
                    | Some code => with_proc p (exit_with code) s
                    | None => s
                    end))) = Some (default killed_status race)) as Hk.
  { intros q. unfold poll. destruct race; simpl;
      rewrite ?list_lookup_alter_eq, Hp; simpl; by rewrite Hr. }
  split; [apply Hk|]. do 6 (split; [by destruct race|]).
  intros race'. set (s1 := reset_ui _).
  assert (current_proc s1 = Some p) as Hc1 by by destruct race.
  assert (poll p s1 = Some (default killed_status race)) as Hk1 by apply Hk.
  unfold stop_process. by rewrite Hc1, Hk1.
Qed.

Lemma stop_process_kills_witness :
  exists s',
    stop_process None started = Returned s' /\
    poll 0 s' = Some killed_status /\
    output_box (gui s') =
      output_box (gui started) ++ [(by_controller, lit "[Stopped]")] /\
    script_buttons (gui s') = (fun _ => normal) <$> script_buttons (gui started) /\
    stop_btn (gui s') = disabled /\ status_label (gui s') = lit "Ready" /\
    files s' = files started /\ threads s' = threads started /\
    forall race', stop_process race' s' = Returned s'.
Proof.
  apply (stop_process_kills None started 0 (spawned (tmp_name 0)));
    reflexivity.
Defined.

(** ** A temporary file that cannot be written *)

(** X4.  When writing the temporary file raises, the same handler as for
    the download catches it: the console shows it as a [Download error],
    the interface is reset and no child is launched, but what was written
    of the file stays on disk. *)
Theorem run_script_tmp_error (url desc : str) (w : World) (s : State)
    (r : Response) (e : exn) (partial : str) :
  http_get w = get_returns r -> raise_for_status url r = None ->
  tmp_io w = tmp_write_raises e partial ->
  exists s', run_script url desc w s = Returned s' /\
    output_box (gui s') = output_box (gui s) ++
      [(by_controller, [62; 9654; 32]%N ++ desc);
       (by_controller, lit "Downloading from " ++ url);
       (by_controller, lit "[Download error] " ++ str_of_exn e)] /\
    files s' = <[tmp_count s := partial]> (files s) /\
    procs s' = procs s /\ threads s' = threads s /\
    current_proc s' = current_proc s /\
    script_buttons (gui s') = (fun _ => normal) <$> script_buttons (gui s) /\
    stop_btn (gui s') = disabled /\ status_label (gui s') = lit "Ready".
Proof.
  intros Hg Hr Ht. unfold run_script, download. rewrite Hg, Hr, Ht.
  eexists. split; [reflexivity|]. simpl.
  rewrite <- !app_assoc, <- list_fmap_compose. by repeat split.
Qed.

Lemma run_script_tmp_error_witness :
  exists s',
    run_script (lit "https://example/a.ps1") (lit "A")
      (disk_full one_liner (lit "Write-")) initial = Returned s' /\
    output_box (gui s') = output_box (gui initial) ++
      [(by_controller, [62; 9654; 32]%N ++ lit "A");
       (by_controller, lit "Downloading from " ++ lit "https://example/a.ps1");
       (by_controller, lit "[Download error] " ++
          lit "[Errno 28] No space left on device")] /\
    files s' = <[tmp_count initial := lit "Write-"]> (files initial) /\
    procs s' = procs initial /\ threads s' = threads initial /\
    current_proc s' = current_proc initial /\
    script_buttons (gui s') = (fun _ => normal) <$> script_buttons (gui initial) /\
    stop_btn (gui s') = disabled /\ status_label (gui s') = lit "Ready".
Proof.
  apply (run_script_tmp_error (lit "https://example/a.ps1") (lit "A")
           (disk_full one_liner (lit "Write-")) initial (ok_response one_liner)
           (Exception (lit "OSError") (lit "[Errno 28] No space left on device"))
           (lit "Write-")); reflexivity.
Defined.

(** ** What holds of the window and of the children in every state *)

Lemma wf_ok_box cp ps ths bs hid box l :
  wf_ok cp ps ths bs hid box -> wf_ok cp ps ths bs hid (box ++ l).
Proof.
  intros [H1 H2 H3 H4 H5 Hc H6 H7]. constructor; try done.
  rewrite length_app. lia.
Qed.

Lemma wf_ok_buttons cp ps ths bs hid box b :
  wf_ok cp ps ths bs hid box ->
  wf_ok cp ps ths ((fun _ => b) <$> bs) hid box.
Proof.
  intros [H1 H2 H3 H4 H5 Hc H6 H7]. constructor; try done.
  - by rewrite length_fmap.
  - left. destruct b; [left|right]; apply Forall_fmap, Forall_forall; done.
Qed.

Lemma wf_ok_clear cp ps ths bs hid box :
  wf_ok cp ps ths bs hid box -> wf_ok cp ps ths bs (length box) box.
Proof. intros [H1 H2 H3 H4 H5 Hc H6 H7]. by constructor. Qed.

Lemma wf_ok_alter cp ps ths bs hid box p f :
  (forall pr, args (f pr) = args pr /\ stdin (f pr) = stdin pr /\
     stdout (f pr) = stdout pr /\ stderr (f pr) = stderr pr /\
     text (f pr) = text pr /\
     (Forall newline_terminated (stdin_calls pr) ->
      Forall newline_terminated (stdin_calls (f pr)))) ->
  wf_ok cp ps ths bs hid box -> wf_ok cp (alter f p ps) ths bs hid box.
Proof.
  intros Hf [H1 H2 H3 H4 H5 Hc H6 H7]. constructor; try done.
  - unfold latest. by rewrite length_alter.
  - by rewrite length_alter.
  - intros t r pr' Ht Hp. destruct (decide (p = t)) as [->|Hne].
    + rewrite list_lookup_alter_eq in Hp.
      destruct (ps !! t) as [pr|] eqn:E; [|done]. injection Hp as <-.
      destruct (Hf pr) as (Ha & Hi & Ho & He & Htx & _).
      specialize (H3 _ _ _ Ht E). unfold launched_with in *.
      by rewrite Ha, Hi, Ho, He, Htx.
    + rewrite list_lookup_alter_ne in Hp by done. eauto.
  - intros q pr' Hp. destruct (decide (p = q)) as [->|Hne].
    + rewrite list_lookup_alter_eq in Hp.
      destruct (ps !! q) as [pr|] eqn:E; [|done]. injection Hp as <-.
      destruct (Hf pr) as (_ & _ & _ & _ & _ & Hin). eauto.
    + rewrite list_lookup_alter_ne in Hp by done. eauto.
Qed.

Lemma wf_ok_spawn cp ps ths bs hid box n :
  wf_ok cp ps ths bs hid box ->
  wf_ok (Some (length ps)) (ps ++ [spawned (tmp_name n)])
    (ths ++ [{| tmp := n; pc := at_for |}]) bs hid box.
Proof.
  intros [H1 H2 H3 H4 H5 Hc H6 H7]. constructor; try done.
  - unfold latest. rewrite length_app. simpl. by rewrite Nat.add_1_r.
  - rewrite !length_app. simpl. lia.
  - intros t r pr [[Hlt Ht]|[Heq <-]]%lookup_snoc_Some Hp.
    + rewrite lookup_app_l in Hp by lia. eauto.
    + subst t. rewrite H2 in Hp. rewrite list_lookup_middle in Hp by done.
      injection Hp as <-. by repeat split.
  - destruct H5 as [Hu|(t & r & Ht & Hr)]; [by left|]. right.
    exists t, r. split; [by apply lookup_app_l_Some|done].
  - intros t r todo next [[_ Ht]|[_ <-]]%lookup_snoc_Some; [eauto|done].
  - intros p pr [[_ Hp]|[_ <-]]%lookup_snoc_Some; [eauto|]. constructor.
Qed.

Lemma wf_ok_set_pc cp ps ths bs hid box t c :
  (forall r, ths !! t = Some r -> in_reset (pc r) = true -> in_reset c = true) ->
  (forall todo next, c = in_call todo next ->
     next = finished \/ Forall (fun c => keeps_buttons c = true) todo) ->
  wf_ok cp ps ths bs hid box ->
  wf_ok cp ps (alter (set_pc c) t ths) bs hid box.
Proof.
  intros Hr Hn [H1 H2 H3 H4 H5 Hc H6 H7]. constructor; try done.
  - by rewrite length_alter.
  - intros t' r' pr Ht' Hp.
    apply lookup_set_pc in Ht' as (r0 & H0 & -> & _). eauto.
  - destruct H5 as [Hu|(t' & r' & Ht' & Hr')]; [by left|]. right.
    destruct (decide (t' = t)) as [->|Hne].
    + exists t, (set_pc c r'). rewrite list_lookup_alter_eq, Ht'. simpl. eauto.
    + exists t', r'. by rewrite list_lookup_alter_ne.
  - intros t' r' todo next Ht' Hpc.
    apply lookup_set_pc in Ht' as (r0 & H0 & _ & [[_ ->]|[_ Hpc']]); [eauto|].
    apply Hn. congruence.
Qed.

Lemma tk_exec_buttons c g :
  length (script_buttons (tk_exec c g)) = length (script_buttons g) /\
  (keeps_buttons c = true -> script_buttons (tk_exec c g) = script_buttons g) /\
  exists i b, script_buttons (tk_exec c g) = <[i := b]> (script_buttons g).
Proof.
  assert (exists (i : nat) (b : widget_state),
            script_buttons g = <[i := b]> (script_buttons g)) as Hsame.
  { exists (length (script_buttons g)), normal. by rewrite list_insert_ge. }
  destruct c; simpl; try done.
  - by destruct (is_normal (box_state g)).
  - split; [apply length_insert|]. split; [done|]. eauto.
Qed.

(** The reader makes the next call of the function it is in. *)
Lemma call_next_wf t r todo next s :
  wf s -> threads s !! t = Some r -> plain next ->
  (in_reset (pc r) = true -> next = finished) ->
  (next = finished \/ Forall (fun c => keeps_buttons c = true) todo) ->
  wf (call_next t todo next s).
Proof.
  unfold wf, call_next. intros H Ht Hplain Hr Hn.
  destruct todo as [|c rest]; simpl.
  - apply wf_ok_set_pc; [| |done].
    + intros r' Hr' Hin. rewrite Ht in Hr'. injection Hr' as <-.
      by rewrite (Hr Hin).
    + intros todo' next' ->. done.
  - assert (in_reset (after_calls rest finished) = true) as Hfin
      by by destruct rest.
    assert (forall todo' next', after_calls rest next = in_call todo' next' ->
              next' = finished \/
              Forall (fun c => keeps_buttons c = true) todo') as Hcalls.
    { intros todo' next' E. destruct rest as [|c' rest]; simpl in E.
      - by subst next.
      - injection E as <- <-. destruct Hn as [->|Hn]; [by left|right].
        by apply Forall_cons in Hn as [_ Hn]. }
    destruct (tk_exec_buttons c (gui s)) as (Hlen & Hkeep & _).
    destruct (tk_exec_box c (gui s)) as [Hhid Hbox].
    destruct H as [H1 H2 H3 H4 H5 Hc H6 H7]. constructor; try done.
    + by rewrite length_alter.
    + intros t' r' pr Ht' Hp.
      apply lookup_set_pc in Ht' as (r0 & H0 & -> & _). eauto.
    + congruence.
    + destruct Hn as [->|Hn].
      * right. exists t, (set_pc (after_calls rest finished) r).
        by rewrite list_lookup_alter_eq, Ht.
      * apply Forall_cons in Hn as [Hk _]. rewrite (Hkeep Hk).
        destruct H5 as [Hu|(t' & r' & Ht' & Hr')]; [by left|]. right.
        destruct (decide (t' = t)) as [->|Hne].
        -- rewrite Ht in Ht'. injection Ht' as <-. rewrite (Hr Hr').
           exists t, (set_pc (after_calls rest finished) r).
           by rewrite list_lookup_alter_eq, Ht.
        -- exists t', r'. by rewrite list_lookup_alter_ne.
    + intros t' r' todo' next' Ht' Hpc.
      apply lookup_set_pc in Ht' as (r0 & H0 & _ & [[_ ->]|[_ Hpc']]); [eauto|].
      apply Hcalls. congruence.
    + rewrite Hhid.
      destruct Hbox as [(-> & _ & _)|(o & m & _ & [[-> _]|[-> _]])]; try done.
      rewrite length_app. lia.
Qed.

Lemma exit_with_wf code pr :
  args (exit_with code pr) = args pr /\ stdin (exit_with code pr) = stdin pr /\
  stdout (exit_with code pr) = stdout pr /\
  stderr (exit_with code pr) = stderr pr /\
  text (exit_with code pr) = text pr /\
  (Forall newline_terminated (stdin_calls pr) ->
   Forall newline_terminated (stdin_calls (exit_with code pr))).
Proof. by repeat split. Qed.

Lemma run_script_wf url desc w s :
  wf s -> wf (callback (run_script url desc w s)).
Proof.
  unfold wf, run_script, download. intros H.
  destruct (http_get w) as [e|r]; simpl;
    [by repeat first [apply wf_ok_box | apply wf_ok_buttons]|].
  destruct (raise_for_status url r); simpl;
    [by repeat first [apply wf_ok_box | apply wf_ok_buttons]|].
  destruct (tmp_io w); simpl;
    [|by repeat first [apply wf_ok_box | apply wf_ok_buttons]..].
  destruct (spawn w); simpl;
    [by repeat first [apply wf_ok_box | apply wf_ok_buttons]|].
  apply wf_ok_spawn with (cp := current_proc s).
  by repeat first [apply wf_ok_box | apply wf_ok_buttons].
Qed.

Lemma stop_process_wf race s :
  wf s -> wf (callback (stop_process race s)).
Proof.
  unfold wf, stop_process. intros H.
  destruct (current_proc s) as [p|] eqn:Hc; rewrite <- Hc in H; [|done].
  destruct (poll p s); [done|]. simpl.
  apply wf_ok_buttons, wf_ok_box. apply wf_ok_alter; [apply exit_with_wf|].
  destruct race; simpl; [|done].
  apply wf_ok_alter; [apply exit_with_wf|done].
Qed.

Lemma send_input_wf io s :
  wf s -> wf (callback (send_input io s)).
Proof.
  unfold wf, send_input. intros H.
  destruct (current_proc s) as [p|] eqn:Hc; rewrite <- Hc in H; [|done].
  destruct (poll p s); [done|].
  destruct io; simpl; apply wf_ok_box;
    repeat (apply wf_ok_alter;
            [intros pr; simpl; repeat split; intros Hall;
             apply Forall_app; split; [done|];
             repeat constructor; by eexists|]); done.
Qed.

Lemma reader_step_wf t s s' :
  origin_inv s -> wf s -> reader_step t s = Some s' -> wf s'.
Proof.
  unfold reader_step. intros Ho H Hs.
  destruct (threads s !! t) as [r|] eqn:Ht; [|done]. simpl in Hs.
  assert (forall c, in_reset (pc r) = false -> plain c ->
            wf (with_thread t c s)) as Hset.
  { intros c Hr Hc. unfold wf in *. simpl. apply wf_ok_set_pc; [| |done].
    - intros r' Hr'. rewrite Ht in Hr'. injection Hr' as <-. congruence.
    - intros todo next ->. done. }
  destruct (pc r) as [|p|p line| |code|code| |todo next| |e] eqn:Hpc.
  - destruct (current_proc s) as [p|]; [|done]. injection Hs as <-. by apply Hset.
  - destruct (procs s !! p) as [pr|] eqn:Hp; [|done]. simpl in Hs.
    destruct (emitted pr !! consumed pr) as [line|].
    + injection Hs as <-. unfold wf in *. simpl. apply wf_ok_set_pc.
      * intros r' Hr'. rewrite Ht in Hr'. injection Hr' as <-. by rewrite Hpc.
      * done.
      * by apply wf_ok_alter.
    + destruct (returncode pr); [|done]. injection Hs as <-. by apply Hset.
  - injection Hs as <-. eapply call_next_wf; [done|done|done| |].
    + by rewrite Hpc.
    + right. repeat constructor.
  - destruct (current_proc s) as [p|]; [|done].
    simpl in Hs. destruct (poll p s); [|done]. injection Hs as <-. by apply Hset.
  - destruct (files s !! tmp r); injection Hs as <-; by apply Hset.
  - injection Hs as <-. eapply call_next_wf; [done|done|done| |].
    + by rewrite Hpc.
    + right. repeat constructor.
  - injection Hs as <-. eapply call_next_wf; [done|done|done| |].
    + by rewrite Hpc.
    + by left.
  - injection Hs as <-. eapply call_next_wf; [done|done| | |].
    + by eapply (inv_todo_next _ _ _ Ho).
    + rewrite Hpc. simpl. by destruct next.
    + by eapply (wf_calls _ _ _ _ _ _ H).
  - done.
  - done.
Qed.

Lemma reader_raise_wf t e s s' :
  wf s -> reader_raise t e s = Some s' -> wf s'.
Proof.
  unfold reader_raise. intros H Hs.
  destruct (threads s !! t) as [r|] eqn:Ht; [|done]. simpl in Hs.
  destruct (pc r) eqn:Hpc; try done. injection Hs as <-.
  unfold wf in *. simpl. apply wf_ok_set_pc; [| |done].
  - intros r' Hr'. rewrite Ht in Hr'. injection Hr' as <-. by rewrite Hpc.
  - done.
Qed.

Lemma step_wf prompt l s s' :
  origin_inv s -> wf s -> step prompt l s = Some s' -> wf s'.
Proof.
  intros Ho H Hs. destruct l; simpl in Hs.
  - destruct (script_buttons (gui s) !! i) as [b|]; [|done]. simpl in Hs.
    destruct (GITHUB_SCRIPTS !! i) as [[lbl url]|]; [|done]. simpl in Hs.
    destruct (_ && _); [|done]. injection Hs as <-. by apply run_script_wf.
  - destruct (is_normal _); [|done]. injection Hs as <-.
    by apply stop_process_wf.
  - injection Hs as <-. by apply send_input_wf.
  - by injection Hs as <-.
  - injection Hs as <-. unfold wf. simpl.
    by apply wf_ok_clear with (hid := hidden (gui s)).
  - destruct (procs s !! p) as [pr|] eqn:Hp; [|done]. simpl in Hs.
    destruct (returncode pr) eqn:Hrc; [done|]. injection Hs as <-.
    unfold wf. simpl. by apply wf_ok_alter.
  - destruct (procs s !! p) as [pr|] eqn:Hp; [|done]. simpl in Hs.
    destruct (returncode pr) eqn:Hrc; [done|]. injection Hs as <-.
    unfold wf. simpl. apply wf_ok_alter; [apply exit_with_wf|done].
  - by eapply reader_step_wf.
  - by eapply reader_raise_wf.
Qed.

Lemma reachable_wf prompt s : reachable prompt s -> wf s.
Proof.
  induction 1 as [|l s s' Hr IH Hs].
  - constructor; simpl; try done.
    left. left. repeat constructor.
  - eapply step_wf; [|done..]. by eapply reachable_origin_inv.
Qed.

(** X5.  [current_proc] always refers to the child launched last: it is
    [None] only as long as no child was ever launched, and it is never
    reset when a child ends. *)
Theorem current_proc_is_latest (prompt : bool) (s : State) :
  reachable prompt s ->
  current_proc s = latest (procs s) /\
  (current_proc s = None <-> procs s = []) /\
  (forall p, current_proc s = Some p -> S p = length (procs s)).
Proof.
  intros Hs. apply reachable_wf in Hs as [H1 _ _ _ _ _ _ _].
  split; [done|]. rewrite H1. unfold latest.
  destruct (procs s) as [|pr ps]; simpl; split; try done.
  intros p [= <-]. done.
Qed.

Lemma current_proc_is_latest_witness :
  current_proc session_end = latest (procs session_end) /\
  (current_proc session_end = None <-> procs session_end = []) /\
  (forall p, current_proc session_end = Some p ->
     S p = length (procs session_end)).
Proof.
  apply (current_proc_is_latest true session_end).
  apply (run_reachable true session initial); [constructor|vm_compute; reflexivity].
Defined.

(** X6.  Every child ever launched has exactly one reader thread, the one
    with its index, and was launched as
    [powershell.exe -NoProfile -ExecutionPolicy Bypass -File f] in text
    mode with piped [stdin] and [stdout] and [stderr] sent to [stdout],
    where [f] is the temporary file that reader will remove. *)
Theorem child_and_reader (prompt : bool) (s : State) :
  reachable prompt s ->
  length (threads s) = length (procs s) /\
  forall t r pr, threads s !! t = Some r -> procs s !! t = Some pr ->
    launched_with (tmp r) pr.
Proof. intros Hs. apply reachable_wf in Hs as [_ H2 H3 _ _ _ _ _]. by split. Qed.

Lemma child_and_reader_witness :
  length (threads abc_state) = length (procs abc_state) /\
  forall t r pr, threads abc_state !! t = Some r -> procs abc_state !! t = Some pr ->
    launched_with (tmp r) pr.
Proof.
  apply (child_and_reader true abc_state).
  apply (run_reachable true abc initial); [constructor|vm_compute; reflexivity].
Defined.



Example eager_click_runs : run true eager_click initial = Some eager_click_state.
Proof. vm_compute. reflexivity. Qed.

(** The reader of a first script enables the script buttons one by one;
    a click on the first of them in between starts a second script, and
    the buttons are left mixed while that script runs: the one clicked is
    disabled, the others are enabled, Stop is disabled and the status
    reads Ready. *)
Example buttons_mixed :
  reachable true eager_click_state /\
  script_buttons (gui eager_click_state) = disabled :: replicate 12 normal /\
  ~ uniform (script_buttons (gui eager_click_state)) /\
  pc <$> threads eager_click_state = [finished; at_for] /\
  running 1 eager_click_state /\
  stop_btn (gui eager_click_state) = disabled /\
  status_label (gui eager_click_state) = lit "Ready".
Proof.
  split; [apply (run_reachable true eager_click initial);
            [constructor|vm_compute; reflexivity]|].
  split; [vm_compute; reflexivity|].
  split.
  { intros [H|H]; vm_compute in H.
    - apply Forall_cons in H as [H _]. discriminate.
    - apply Forall_cons in H as [_ H]. apply Forall_cons in H as [H _].
      discriminate. }
  split; [vm_compute; reflexivity|].
  split; [|split; vm_compute; reflexivity].
  split; [vm_compute; reflexivity|].
  eexists. split; vm_compute; reflexivity.
Qed.



(** X8.  Whatever is written to the [stdin] of a child ends with a
    newline: the program sends whole lines only. *)
Theorem stdin_gets_whole_lines (prompt : bool) (s : State) (p : nat) (pr : Popen) :
  reachable prompt s -> procs s !! p = Some pr ->
  Forall newline_terminated (stdin_calls pr).
Proof. intros Hs Hp. apply reachable_wf in Hs as [_ _ _ _ _ _ _ H7]. eauto. Qed.

Lemma stdin_gets_whole_lines_witness :
  exists pr, procs answered !! 0%nat = Some pr /\
    stdin_calls pr = [stdin_write (lit "yes" ++ nl); stdin_flush] /\
    Forall newline_terminated (stdin_calls pr).
Proof.
  eexists. split; [vm_compute; reflexivity|]. split; [reflexivity|].
  eapply (stdin_gets_whole_lines false answered 0).
  - apply (run_reachable false
             [click_script 9 (fine one_liner); type_entry (lit "yes");
              submit_input sent] initial);
      [constructor|vm_compute; reflexivity].
  - vm_compute. reflexivity.
Defined.

(** X9.  A line written by [write_log] appears at the end of what the
    console shows, and Clear leaves the console empty until the next
    line. *)
Theorem console_shows (prompt : bool) (s : State) (o : origin) (m : str) :
  reachable prompt s ->
  shown (write_log o m s) = shown s ++ [m] /\
  exists s', step prompt click_clear s = Some s' /\
    shown s' = [] /\ shown (write_log o m s') = [m].
Proof.
  intros Hs. apply reachable_wf in Hs as [_ _ _ _ _ _ H6 _].
  unfold shown. simpl. split.
  - by rewrite drop_app_le, fmap_app.
  - eexists. split; [reflexivity|]. simpl.
    by rewrite drop_all, drop_app_length.
Qed.

Lemma console_shows_witness :
  shown (write_log by_controller (lit "x") session_end) =
    shown session_end ++ [lit "x"] /\
  exists s', step true click_clear session_end = Some s' /\
    shown s' = [] /\ shown (write_log by_controller (lit "x") s') = [lit "x"].
Proof.
  apply (console_shows true session_end by_controller (lit "x")).
  apply (run_reachable true session initial); [constructor|vm_compute; reflexivity].
Defined.

(** ** The life of a child *)

Lemma evolves_refl pr : evolves pr pr.
Proof. constructor; done. Qed.

Lemma evolves_trans a b c : evolves a b -> evolves b c -> evolves a c.
Proof.
  intros [A1 A2 A3 A4 A5 A6 A7 A8 A9] [B1 B2 B3 B4 B5 B6 B7 B8 B9].
  constructor; try congruence.
  - by etrans.
  - by etrans.
  - lia.
  - intros k Hk. destruct (A9 k Hk) as (Hr & He & Hc).
    destruct (B9 k Hr) as (Hr' & He' & Hc'). repeat split; congruence.
Qed.

Lemma grows_refl ps : grows ps ps.
Proof. intros p pr Hp. exists pr. split; [done|apply evolves_refl]. Qed.

Lemma grows_trans a b c : grows a b -> grows b c -> grows a c.
Proof.
  intros Hab Hbc p pr Hp. destruct (Hab p pr Hp) as (pr1 & H1 & E1).
  destruct (Hbc p pr1 H1) as (pr2 & H2 & E2). exists pr2.
  split; [done|by eapply evolves_trans].
Qed.

Lemma grows_alter ps p f :
  (forall pr, ps !! p = Some pr -> evolves pr (f pr)) -> grows ps (alter f p ps).
Proof.
  intros Hf q pr Hq. destruct (decide (p = q)) as [->|Hne].
  - exists (f pr). rewrite list_lookup_alter_eq, Hq. split; [done|by apply Hf].
  - exists pr. rewrite list_lookup_alter_ne by done.
    split; [done|apply evolves_refl].
Qed.

Lemma grows_app ps l : grows ps (ps ++ l).
Proof.
  intros p pr Hp. exists pr. split; [by apply lookup_app_l_Some|apply evolves_refl].
Qed.

Lemma evolves_exit_with code pr : evolves pr (exit_with code pr).
Proof. constructor; try done. intros c Hc. simpl. by rewrite Hc. Qed.

Lemma evolves_take_line pr : evolves pr (take_line pr).
Proof. constructor; try done. simpl. lia. Qed.

Lemma evolves_put_line line pr :
  returncode pr = None -> evolves pr (put_line line pr).
Proof.
  intros Hr. constructor; try done.
  - simpl. by apply prefix_app_r.
  - intros c Hc. congruence.
Qed.

Lemma call_stdin_grows p c s :
  poll p s = None ->
  grows (procs s) (procs (call_stdin p c s)) /\ poll p (call_stdin p c s) = None.
Proof.
  unfold poll, call_stdin. simpl. intros Hpoll. split.
  - apply grows_alter. intros pr Hp. rewrite Hp in Hpoll. simpl in Hpoll.
    constructor; simpl; try done.
    + by apply prefix_app_r.
    + intros k Hk. congruence.
  - rewrite list_lookup_alter_eq. by destruct (procs s !! p).
Qed.

Lemma run_script_grows url desc w s :
  grows (procs s) (procs (callback (run_script url desc w s))).
Proof.
  unfold run_script, download.
  destruct (http_get w) as [e|r]; simpl; [apply grows_refl|].
  destruct (raise_for_status url r); simpl; [apply grows_refl|].
  destruct (tmp_io w); simpl; [|apply grows_refl..].
  destruct (spawn w); simpl; [apply grows_refl|apply grows_app].
Qed.

Lemma stop_process_grows race s :
  grows (procs s) (procs (callback (stop_process race s))).
Proof.
  unfold stop_process.
  destruct (current_proc s) as [p|]; [|apply grows_refl].
  destruct (poll p s); [apply grows_refl|]. simpl.
  destruct race; simpl.
  - eapply grows_trans; apply grows_alter; intros; apply evolves_exit_with.
  - apply grows_alter; intros; apply evolves_exit_with.
Qed.

Lemma send_input_grows io s :
  grows (procs s) (procs (callback (send_input io s))).
Proof.
  unfold send_input.
  destruct (current_proc s) as [p|]; [|apply grows_refl].
  destruct (poll p s) eqn:Hpoll; [apply grows_refl|].
  destruct (call_stdin_grows p (stdin_write (input_entry (gui s) ++ nl)) s Hpoll)
    as [G1 P1].
  destruct (call_stdin_grows p stdin_flush _ P1) as [G2 _].
  destruct io; [exact (grows_trans _ _ _ G1 G2)|exact G1|
                exact (grows_trans _ _ _ G1 G2)].
Qed.

Lemma call_next_procs t todo next s :
  procs (call_next t todo next s) = procs s /\
  current_proc (call_next t todo next s) = current_proc s.
Proof. unfold call_next. by destruct todo. Qed.

Lemma reader_step_grows t s s' :
  reader_step t s = Some s' -> grows (procs s) (procs s').
Proof.
  unfold reader_step. intros Hs.
  destruct (threads s !! t) as [r|]; [|done]. simpl in Hs.
  destruct (pc r) as [|p|p line| |code|code| |todo next| |e].
  - destruct (current_proc s); [|done]. injection Hs as <-. apply grows_refl.
  - destruct (procs s !! p) as [pr|]; [|done]. simpl in Hs.
    destruct (emitted pr !! consumed pr).
    + injection Hs as <-. simpl. apply grows_alter. intros.
      apply evolves_take_line.
    + destruct (returncode pr); [|done]. injection Hs as <-. apply grows_refl.
  - injection Hs as <-. rewrite (proj1 (call_next_procs _ _ _ _)).
    apply grows_refl.
  - destruct (current_proc s) as [p|]; [|done]. simpl in Hs.
    destruct (poll p s); [|done]. injection Hs as <-. apply grows_refl.
  - destruct (files s !! tmp r); injection Hs as <-; apply grows_refl.
  - injection Hs as <-. rewrite (proj1 (call_next_procs _ _ _ _)).
    apply grows_refl.
  - injection Hs as <-. rewrite (proj1 (call_next_procs _ _ _ _)).
    apply grows_refl.
  - injection Hs as <-. rewrite (proj1 (call_next_procs _ _ _ _)).
    apply grows_refl.
  - done.
  - done.
Qed.

Lemma reader_raise_frame t e s s' :
  reader_raise t e s = Some s' ->
  procs s' = procs s /\ current_proc s' = current_proc s /\
  files s' = files s /\ removed s' = removed s /\ gui s' = gui s.
Proof.
  unfold reader_raise. intros Hs.
  destruct (threads s !! t) as [r|]; [|done]. simpl in Hs.
  destruct (pc r); try done. by injection Hs as <-.
Qed.

Lemma step_grows prompt l s s' :
  step prompt l s = Some s' -> grows (procs s) (procs s').
Proof.
  intros Hs. destruct l; simpl in Hs.
  - destruct (script_buttons (gui s) !! i) as [b|]; [|done]. simpl in Hs.
    destruct (GITHUB_SCRIPTS !! i) as [[lbl url]|]; [|done]. simpl in Hs.
    destruct (_ && _); [|done]. injection Hs as <-. apply run_script_grows.
  - destruct (is_normal _); [|done]. injection Hs as <-.
    apply stop_process_grows.
  - injection Hs as <-. apply send_input_grows.
  - injection Hs as <-. apply grows_refl.
  - injection Hs as <-. apply grows_refl.
  - destruct (procs s !! p) as [pr|] eqn:Hp; [|done]. simpl in Hs.
    destruct (returncode pr) eqn:Hrc; [done|]. injection Hs as <-. simpl.
    apply grows_alter. intros pr' Hp'. apply evolves_put_line. congruence.
  - destruct (procs s !! p) as [pr|] eqn:Hp; [|done]. simpl in Hs.
    destruct (returncode pr) eqn:Hrc; [done|]. injection Hs as <-. simpl.
    apply grows_alter. intros. apply evolves_exit_with.
  - by eapply reader_step_grows.
  - apply reader_raise_frame in Hs as (-> & _). apply grows_refl.
Qed.

(** X10.  Along any run, a child keeps the command line and the stream
    setup it was launched with; the calls on its [stdin] and the lines it
    has emitted only grow; and once it has an exit status, that status
    stays and no further call is made on its [stdin]. *)
Theorem child_history (prompt : bool) (ls : list label) (s s' : State)
    (p : nat) (pr : Popen) :
  run prompt ls s = Some s' -> procs s !! p = Some pr ->
  exists pr', procs s' !! p = Some pr' /\ evolves pr pr'.
Proof.
  revert s pr. induction ls as [|l ls IH]; intros s pr Hrun Hp.
  - injection Hrun as <-. exists pr. split; [done|apply evolves_refl].
  - simpl in Hrun. destruct (step prompt l s) as [s1|] eqn:E; [|done].
    simpl in Hrun. destruct (step_grows _ _ _ _ E p pr Hp) as (pr1 & H1 & E1).
    destruct (IH s1 pr1 Hrun H1) as (pr2 & H2 & E2). exists pr2.
    split; [done|by eapply evolves_trans].
Qed.

Lemma child_history_witness :
  exists pr', procs session_end !! 0%nat = Some pr' /\
    evolves (spawned (tmp_name 0)) pr'.
Proof.
  apply (child_history true (tail session) started session_end 0
           (spawned (tmp_name 0))); vm_compute; reflexivity.
Defined.

(** ** The console between two clicks on Clear *)

Lemma step_box prompt l s s' :
  step prompt l s = Some s' -> is_clear l = false ->
  hidden (gui s') = hidden (gui s) /\
  exists k, output_box (gui s') = output_box (gui s) ++ k.
Proof.
  assert (forall (box : list (origin * str)), exists k, box = box ++ k) as Hnil
    by (intros box; exists []; by rewrite app_nil_r).
  intros Hs Hl. destruct l; simpl in Hs; try done.
  - destruct (script_buttons (gui s) !! i) as [b|]; [|done]. simpl in Hs.
    destruct (GITHUB_SCRIPTS !! i) as [[lbl url]|]; [|done]. simpl in Hs.
    destruct (_ && _); [|done]. injection Hs as <-.
    unfold run_script, download.
    destruct (http_get w) as [e|r]; simpl;
      [split; [done|]; rewrite <- !app_assoc; by eexists|].
    destruct (raise_for_status url r); simpl;
      [split; [done|]; rewrite <- !app_assoc; by eexists|].
    destruct (tmp_io w); simpl;
      [|split; [done|]; rewrite <- !app_assoc; by eexists..].
    destruct (spawn w); simpl; split; try done;
      rewrite <- !app_assoc; by eexists.
  - destruct (is_normal _); [|done]. injection Hs as <-.
    unfold stop_process. destruct (current_proc s) as [p|]; [|(split; [done|apply Hnil])].
    destruct (poll p s); [(split; [done|apply Hnil])|].
    destruct race; simpl; (split; [done|by eexists]).
  - injection Hs as <-. unfold send_input.
    destruct (current_proc s) as [p|]; [|(split; [done|apply Hnil])].
    destruct (poll p s); [(split; [done|apply Hnil])|].
    destruct io; simpl; split; try done; by eexists.
  - injection Hs as <-. (split; [done|apply Hnil]).
  - destruct (procs s !! p) as [pr|]; [|done]. simpl in Hs.
    destruct (returncode pr); [done|]. injection Hs as <-. (split; [done|apply Hnil]).
  - destruct (procs s !! p) as [pr|]; [|done]. simpl in Hs.
    destruct (returncode pr); [done|]. injection Hs as <-. (split; [done|apply Hnil]).
  - assert (forall todo next,
              hidden (gui (call_next t todo next s)) = hidden (gui s) /\
              exists k, output_box (gui (call_next t todo next s)) =
                        output_box (gui s) ++ k) as Hcall.
    { intros todo next. unfold call_next.
      destruct todo as [|c rest]; simpl; [split; [done|apply Hnil]|].
      destruct (tk_exec_box c (gui s))
        as [-> [(-> & _ & _)|(o & m & _ & [[-> _]|[-> _]])]];
        (split; [done|]); first [apply Hnil|by eexists]. }
    unfold reader_step in Hs.
    destruct (threads s !! t) as [r|]; [|done]. simpl in Hs.
    destruct (pc r) as [|p|p line| |code|code| |todo next| |e].
    + destruct (current_proc s); [|done]. injection Hs as <-. (split; [done|apply Hnil]).
    + destruct (procs s !! p) as [pr|]; [|done]. simpl in Hs.
      destruct (emitted pr !! consumed pr).
      * injection Hs as <-. (split; [done|apply Hnil]).
      * destruct (returncode pr); [|done]. injection Hs as <-. (split; [done|apply Hnil]).
    + injection Hs as <-. apply Hcall.
    + destruct (current_proc s) as [p|]; [|done]. simpl in Hs.
      destruct (poll p s); [|done]. injection Hs as <-. (split; [done|apply Hnil]).
    + destruct (files s !! tmp r); injection Hs as <-; (split; [done|apply Hnil]).
    + injection Hs as <-. apply Hcall.
    + injection Hs as <-. apply Hcall.
    + injection Hs as <-. apply Hcall.
    + done.
    + done.
  - apply reader_raise_frame in Hs as (_ & _ & _ & _ & ->).
    split; [done|apply Hnil].
Qed.

(** X11.  Only the Clear button removes text from the console: along a
    run without a click on Clear, what the console shows only grows at
    its end. *)
Theorem console_only_grows (prompt : bool) (ls : list label) (s s' : State) :
  reachable prompt s -> run prompt ls s = Some s' -> no_clear ls ->
  shown s `prefix_of` shown s'.
Proof.
  unfold no_clear. revert s. induction ls as [|l ls IH]; intros s Hr Hrun Hnc.
  - by injection Hrun as <-.
  - simpl in Hrun. destruct (step prompt l s) as [s1|] eqn:E; [|done].
    simpl in Hrun, Hnc. apply orb_false_elim in Hnc as [Hl Hnc].
    etrans; [|apply (IH s1); [by eapply reachable_step|done..]].
    destruct (step_box _ _ _ _ E Hl) as (Hh & k & Hk).
    apply reachable_wf in Hr as [_ _ _ _ _ _ H6 _].
    unfold shown. rewrite Hh, Hk, drop_app_le, fmap_app by done.
    by apply prefix_app_r.
Qed.

Lemma console_only_grows_witness :
  shown started `prefix_of` shown session_end.
Proof.
  apply (console_only_grows true (tail session) started session_end).
  - apply (reachable_step true (click_script 9 (fine one_liner)) initial);
      [constructor|vm_compute; reflexivity].
  - vm_compute. reflexivity.
  - vm_compute. reflexivity.
Defined.

(** ** Temporary files *)

Lemma call_next_threads t todo next s :
  exists c, threads (call_next t todo next s) = alter (set_pc c) t (threads s) /\
    before_remove c = before_remove next /\
    files (call_next t todo next s) = files s /\
    tmp_count (call_next t todo next s) = tmp_count s.
Proof.
  unfold call_next. destruct todo as [|c rest]; simpl.
  - by exists next.
  - exists (after_calls rest next). by rewrite before_remove_after_calls.
Qed.

Lemma step_unowned prompt l s s' n c :
  (n < tmp_count s)%nat -> files s !! n = Some c -> unowned n (threads s) ->
  step prompt l s = Some s' ->
  (n < tmp_count s')%nat /\ files s' !! n = Some c /\ unowned n (threads s').
Proof.
  unfold unowned. intros Hn Hf Hu Hs. destruct l; simpl in Hs.
  - destruct (script_buttons (gui s) !! i) as [b|]; [|done]. simpl in Hs.
    destruct (GITHUB_SCRIPTS !! i) as [[lbl url]|]; [|done]. simpl in Hs.
    destruct (_ && _); [|done]. injection Hs as <-.
    unfold run_script, download.
    destruct (http_get w) as [e|r]; simpl; [done|].
    destruct (raise_for_status url r); simpl; [done|].
    destruct (tmp_io w); simpl; [|done|].
    + destruct (spawn w); simpl; (split; [lia|]);
        (split; [by rewrite lookup_insert_ne by lia|]); [done|].
      apply Forall_app. split; [done|]. apply Forall_singleton. simpl. lia.
    + split; [lia|]. split; [by rewrite lookup_insert_ne by lia|done].
  - destruct (is_normal _); [|done]. injection Hs as <-.
    unfold stop_process. destruct (current_proc s) as [p|]; [|done].
    destruct (poll p s); [done|]. by destruct race.
  - injection Hs as <-. unfold send_input.
    destruct (current_proc s) as [p|]; [|done].
    destruct (poll p s); [done|]. by destruct io.
  - by injection Hs as <-.
  - by injection Hs as <-.
  - destruct (procs s !! p) as [pr|]; [|done]. simpl in Hs.
    destruct (returncode pr); [done|]. by injection Hs as <-.
  - destruct (procs s !! p) as [pr|]; [|done]. simpl in Hs.
    destruct (returncode pr); [done|]. by injection Hs as <-.
  - assert (forall k, Forall (fun r => tmp r <> n) (alter (set_pc k) t (threads s)))
      as Hset by (intros k; by apply Forall_alter).
    assert (forall todo next,
              (n < tmp_count (call_next t todo next s))%nat /\
              files (call_next t todo next s) !! n = Some c /\
              Forall (fun r => tmp r <> n) (threads (call_next t todo next s)))
      as Hcall.
    { intros todo next.
      destruct (call_next_threads t todo next s) as (k & -> & _ & -> & ->).
      auto. }
    unfold reader_step in Hs.
    destruct (threads s !! t) as [r|] eqn:Ht; [|done]. simpl in Hs.
    destruct (pc r) as [|p|p line| |code|code| |todo next| |e].
    + destruct (current_proc s); [|done]. injection Hs as <-; simpl; auto.
    + destruct (procs s !! p) as [pr|]; [|done]. simpl in Hs.
      destruct (emitted pr !! consumed pr).
      * injection Hs as <-; simpl; auto.
      * destruct (returncode pr); [|done]. injection Hs as <-; simpl; auto.
    + injection Hs as <-. apply Hcall.
    + destruct (current_proc s) as [p|]; [|done]. simpl in Hs.
      destruct (poll p s); [|done]. injection Hs as <-; simpl; auto.
    + pose proof (Forall_lookup_1 _ _ _ _ Hu Ht) as Hne.
      destruct (files s !! tmp r); injection Hs as <-; simpl; [|auto].
      rewrite lookup_delete_ne by done. auto.
    + injection Hs as <-. apply Hcall.
    + injection Hs as <-. apply Hcall.
    + injection Hs as <-. apply Hcall.
    + done.
    + done.
  - unfold reader_raise in Hs.
    destruct (threads s !! t) as [r|] eqn:Ht; [|done]. simpl in Hs.
    destruct (pc r); try done. injection Hs as <-. simpl.
    split; [done|]. split; [done|]. by apply Forall_alter.
Qed.

(** X12.  A temporary file that no reader thread holds (one left behind
    by a write or a launch that failed) is never removed or changed: it
    stays on disk with its content, and no later thread takes it over. *)
Theorem leaked_file_stays (prompt : bool) (ls : list label) (s s' : State)
    (n : nat) (c : str) :
  reachable prompt s -> files s !! n = Some c -> unowned n (threads s) ->
  run prompt ls s = Some s' ->
  files s' !! n = Some c /\ unowned n (threads s').
Proof.
  intros Hr Hf Hu Hrun.
  assert (n < tmp_count s)%nat as Hn.
  { apply reachable_files_inv in Hr as [Hlt _ _ _ _ _ _ _]. apply Hlt. eauto. }
  clear Hr. revert s Hf Hu Hn Hrun.
  induction ls as [|l ls IH]; intros s Hf Hu Hn Hrun.
  - by injection Hrun as <-.
  - simpl in Hrun. destruct (step prompt l s) as [s1|] eqn:E; [|done].
    simpl in Hrun.
    destruct (step_unowned _ _ _ _ _ _ Hn Hf Hu E) as (Hn1 & Hf1 & Hu1).
    by apply (IH s1).
Qed.

Lemma leaked_file_stays_witness :
  files (default half_written (run true session half_written)) !! 0%nat =
    Some (lit "Write-") /\
  unowned 0 (threads (default half_written (run true session half_written))).
Proof.
  apply (leaked_file_stays true session half_written
           (default half_written (run true session half_written)) 0
           (lit "Write-")).
  - apply (reachable_step true
             (click_script 9 (disk_full one_liner (lit "Write-"))) initial);
      [constructor|vm_compute; reflexivity].
  - vm_compute. reflexivity.
  - vm_compute. constructor.
  - vm_compute. reflexivity.
Defined.

Lemma script_ok_set_pc fs ths t r c :
  script_ok fs ths -> ths !! t = Some r ->
  (before_remove c = true -> before_remove (pc r) = true) ->
  script_ok fs (alter (set_pc c) t ths).
Proof.
  intros H Ht Hc t' r' H' Hb.
  apply lookup_set_pc in H' as (r0 & H0 & Htmp & [[Hne ->]|[-> Hpc]]).
  - eauto.
  - rewrite Htmp. rewrite Hpc in Hb. assert (r0 = r) as -> by congruence. eauto.
Qed.

Lemma script_ok_create fs count rm ths c :
  files_ok fs count rm ths -> script_ok fs ths ->
  script_ok (<[count := c]> fs) ths.
Proof.
  intros [Hf Hrl Hnd Hg Htl Hinj Hb Ha] H t r Ht Hbr.
  destruct (H t r Ht Hbr) as [body Hbody]. exists body.
  rewrite lookup_insert_ne; [done|]. specialize (Htl t r Ht). lia.
Qed.

Lemma script_ok_spawn fs ths n body :
  script_ok fs ths -> fs !! n = Some (PS_OVERRIDE ++ nl ++ body) ->
  script_ok fs (ths ++ [{| tmp := n; pc := at_for |}]).
Proof.
  intros H Hn t r [[_ Ht]|[_ <-]]%lookup_snoc_Some Hb; [eauto|].
  by exists body.
Qed.

Lemma run_script_script_inv url desc w s :
  files_inv s -> script_inv s -> script_inv (callback (run_script url desc w s)).
Proof.
  unfold files_inv, script_inv, run_script, download. intros F H.
  destruct (http_get w) as [e|r]; simpl; [done|].
  destruct (raise_for_status url r); simpl; [done|].
  destruct (tmp_io w); simpl; [|done|by eapply script_ok_create].
  destruct (spawn w); simpl; [by eapply script_ok_create|].
  eapply script_ok_spawn; [by eapply script_ok_create|].
  by rewrite lookup_insert_eq.
Qed.

Lemma call_next_script_inv t r todo next s :
  script_inv s -> threads s !! t = Some r ->
  (before_remove next = true -> before_remove (pc r) = true) ->
  script_inv (call_next t todo next s).
Proof.
  unfold script_inv. intros H Ht Hb.
  destruct (call_next_threads t todo next s) as (k & -> & Hk & -> & _).
  eapply script_ok_set_pc; [done..|]. by rewrite Hk.
Qed.

Lemma reader_step_script_inv t s s' :
  files_inv s -> script_inv s -> reader_step t s = Some s' -> script_inv s'.
Proof.
  unfold reader_step. intros F H Hs.
  destruct (threads s !! t) as [r|] eqn:Ht; [|done]. simpl in Hs.
  destruct (pc r) as [|p|p line| |code|code| |todo next| |e] eqn:Hpc.
  - destruct (current_proc s); [|done]. injection Hs as <-.
    unfold script_inv in *. simpl.
    eapply script_ok_set_pc; [done..|by rewrite Hpc].
  - destruct (procs s !! p) as [pr|]; [|done]. simpl in Hs.
    destruct (emitted pr !! consumed pr).
    + injection Hs as <-. unfold script_inv in *. simpl.
      eapply script_ok_set_pc; [done..|by rewrite Hpc].
    + destruct (returncode pr); [|done]. injection Hs as <-.
      unfold script_inv in *. simpl.
      eapply script_ok_set_pc; [done..|by rewrite Hpc].
  - injection Hs as <-. eapply call_next_script_inv; [done..|by rewrite Hpc].
  - destruct (current_proc s) as [p|]; [|done]. simpl in Hs.
    destruct (poll p s); [|done]. injection Hs as <-.
    unfold script_inv in *. simpl.
    eapply script_ok_set_pc; [done..|by rewrite Hpc].
  - unfold files_inv, script_inv in *.
    destruct (files s !! tmp r); injection Hs as <-; simpl;
      [|eapply script_ok_set_pc; [done..|by rewrite Hpc]].
    destruct F as [Hf Hrl Hnd Hg Htl Hinj Hb Ha].
    intros t' r' H' Hbr.
    apply lookup_set_pc in H' as (r0 & H0 & Htmp & [[Hne ->]|[-> Hpc']]).
    + destruct (H t' r0 H0 Hbr) as [body Hbody]. exists body.
      rewrite lookup_delete_ne; [done|]. intros Heq.
      apply Hne. by eapply Hinj.
    + by rewrite Hpc' in Hbr.
  - injection Hs as <-. by eapply call_next_script_inv.
  - injection Hs as <-. by eapply call_next_script_inv.
  - injection Hs as <-. eapply call_next_script_inv; [done..|by rewrite Hpc].
  - done.
  - done.
Qed.

Lemma step_script_inv prompt l s s' :
  files_inv s -> script_inv s -> step prompt l s = Some s' -> script_inv s'.
Proof.
  intros F H Hs. destruct l; simpl in Hs.
  - destruct (script_buttons (gui s) !! i) as [b|]; [|done]. simpl in Hs.
    destruct (GITHUB_SCRIPTS !! i) as [[lbl url]|]; [|done]. simpl in Hs.
    destruct (_ && _); [|done]. injection Hs as <-.
    by apply run_script_script_inv.
  - destruct (is_normal _); [|done]. injection Hs as <-.
    unfold stop_process. destruct (current_proc s) as [p|]; [|done].
    destruct (poll p s); [done|]. by destruct race.
  - injection Hs as <-. unfold send_input.
    destruct (current_proc s) as [p|]; [|done].
    destruct (poll p s); [done|]. by destruct io.
  - by injection Hs as <-.
  - by injection Hs as <-.
  - destruct (procs s !! p) as [pr|]; [|done]. simpl in Hs.
    destruct (returncode pr); [done|]. by injection Hs as <-.
  - destruct (procs s !! p) as [pr|]; [|done]. simpl in Hs.
    destruct (returncode pr); [done|]. by injection Hs as <-.
  - by eapply reader_step_script_inv.
  - unfold reader_raise in Hs.
    destruct (threads s !! t) as [r|] eqn:Ht; [|done]. simpl in Hs.
    destruct (pc r) eqn:Hpc; try done. injection Hs as <-.
    unfold script_inv in *. simpl.
    eapply script_ok_set_pc; [done..|by rewrite Hpc].
Qed.

Lemma reachable_script_inv prompt s : reachable prompt s -> script_inv s.
Proof.
  induction 1 as [|l s s' Hr IH Hs].
  - intros t r Ht. done.
  - eapply step_script_inv; [|done..]. by eapply reachable_files_inv.
Qed.

(** X13.  As long as a child has not exited, the script it was launched
    on is on disk, and it begins with the [Read-Host] override: the
    reader removes the file of a child only after that child has ended.
    (Reader threads start promptly.) *)
Theorem child_script_on_disk (s : State) (p : nat) (pr : Popen) :
  reachable true s -> procs s !! p = Some pr -> returncode pr = None ->
  exists n body, launched_with n pr /\
    files s !! n = Some (PS_OVERRIDE ++ nl ++ body).
Proof.
  intros Hr Hp Hrc.
  pose proof (reachable_stream_inv s Hr) as [Hlen _ _ Hth].
  pose proof (reachable_wf true s Hr) as [_ _ Hl _ _ _ _ _].
  pose proof (reachable_script_inv true s Hr) as Hsc.
  destruct (lookup_lt_is_Some_2 (threads s) p) as [r Ht].
  { rewrite Hlen. apply lookup_lt_is_Some. eauto. }
  specialize (Hl p r pr Ht Hp).
  destruct (Hth p r pr Ht Hp) as [Hph _ _ _].
  assert (forall pr0, past_loop pr0 -> returncode pr0 = None -> False) as Hno.
  { intros pr0 [[x Hx] _] Hn. congruence. }
  assert (before_remove (pc r) = true) as Hb.
  { unfold phase_ok in Hph.
    destruct (pc r) as [| | | | | | |todo next| |]; try done;
      try (exfalso; by eapply Hno).
    destruct next; try done; exfalso; destruct Hph as [Hph _]; by eapply Hno. }
  destruct (Hsc p r Ht Hb) as [body Hbody]. by exists (tmp r), body.
Qed.

Lemma child_script_on_disk_witness :
  exists n body, launched_with n (spawned (tmp_name 0)) /\
    files started !! n = Some (PS_OVERRIDE ++ nl ++ body).
Proof.
  apply (child_script_on_disk started 0 (spawned (tmp_name 0))).
  - apply (reachable_step true (click_script 9 (fine one_liner)) initial);
      [constructor|vm_compute; reflexivity].
  - vm_compute. reflexivity.
  - reflexivity.
Defined.

(** ** The reader thread, from loop to end *)

Lemma run_app prompt l1 l2 s :
  run prompt (l1 ++ l2) s = run prompt l1 s ≫= run prompt l2.
Proof.
  revert s. induction l1 as [|l l1 IH]; intros s; simpl; [done|].
  destruct (step prompt l s); simpl; [apply IH|done].
Qed.

Lemma lookup_with_thread t c s r :
  threads s !! t = Some r -> threads (with_thread t c s) !! t = Some (set_pc c r).
Proof. intros H. simpl. by rewrite list_lookup_alter_eq, H. Qed.

(** The calls of a function the reader has entered, made one after the
    other with nothing in between. *)
Lemma run_calls_steps prompt t todo next s r :
  threads s !! t = Some r -> todo <> [] ->
  reader_step t s = Some (call_next t todo next s) ->
  exists s',
    run prompt (replicate (length todo) (thread_step t)) s = Some s' /\
    gui s' = run_calls todo (gui s) /\
    procs s' = procs s /\ files s' = files s /\
    current_proc s' = current_proc s /\
    exists r', threads s' !! t = Some r' /\ pc r' = next /\ tmp r' = tmp r.
Proof.
  revert s r. induction todo as [|c rest IH]; intros s r Ht Hne Hstep; [done|].
  change (replicate (length (c :: rest)) (thread_step t)) with
    (thread_step t :: replicate (length rest) (thread_step t)).
  cbn [run step]. rewrite Hstep. cbn [mbind option_bind].
  unfold call_next. destruct rest as [|c' rest].
  - eexists. split; [reflexivity|]. simpl. do 4 (split; [done|]).
    exists (set_pc next r). by rewrite list_lookup_alter_eq, Ht.
  - set (s1 := with_thread t (after_calls (c' :: rest) next)
                 (with_gui (tk_exec c) s)).
    assert (threads s1 !! t = Some (set_pc (in_call (c' :: rest) next) r))
      as Ht1 by by apply (lookup_with_thread t _ (with_gui (tk_exec c) s)).
    destruct (IH s1 (set_pc (in_call (c' :: rest) next) r))
      as (s' & Hrun & Hgui & Hp & Hf & Hcp & r' & Hr' & Hpc' & Htmp').
    + done.
    + done.
    + unfold reader_step. by rewrite Ht1.
    + exists s'. split; [exact Hrun|]. split; [by rewrite Hgui|].
      do 3 (split; [done|]). by exists r'.
Qed.

(** One turn of the loop: the line is taken from the stream, then written
    to the console by the four calls of [write_log]. *)
Lemma reader_iteration prompt s t r p pr line :
  threads s !! t = Some r -> pc r = in_for p -> procs s !! p = Some pr ->
  emitted pr !! consumed pr = Some line ->
  exists s',
    run prompt (replicate 5 (thread_step t)) s = Some s' /\
    gui s' = gui (write_log (by_process p) (rstrip line) s) /\
    procs s' = alter take_line p (procs s) /\ files s' = files s /\
    current_proc s' = current_proc s /\
    exists r', threads s' !! t = Some r' /\ pc r' = in_for p /\ tmp r' = tmp r.
Proof.
  intros Ht Hpc Hp Hl.
  set (s1 := with_thread t (in_body p line) (with_proc p take_line s)).
  assert (step prompt (thread_step t) s = Some s1) as H1.
  { simpl. unfold reader_step. rewrite Ht. simpl. rewrite Hpc, Hp. simpl.
    by rewrite Hl. }
  assert (threads s1 !! t = Some (set_pc (in_body p line) r)) as Ht1
    by by apply (lookup_with_thread t _ (with_proc p take_line s)).
  destruct (run_calls_steps prompt t
              (write_log_calls (by_process p) (rstrip line)) (in_for p) s1
              (set_pc (in_body p line) r) Ht1)
    as (s' & Hrun & Hgui & Hprocs & Hfiles & Hcp & r' & Hr' & Hpc' & Htmp');
    [done|unfold reader_step; by rewrite Ht1|].
  exists s'. split.
  { change (replicate 5 (thread_step t)) with
      (thread_step t :: replicate 4 (thread_step t)).
    cbn [run]. rewrite H1. exact Hrun. }
  do 4 (split; [done|]). by exists r'.
Qed.

(** A reader in its loop, run until nothing is left to read. *)
Lemma reader_loop (prompt : bool) (s : State) (t : nat) (r : Reader)
    (p : nat) (pr : Popen) :
  threads s !! t = Some r -> pc r = in_for p -> procs s !! p = Some pr ->
  exists s',
    run prompt
      (replicate (5 * length (drop (consumed pr) (emitted pr))) (thread_step t))
      s = Some s' /\
    output_box (gui s') = output_box (gui s) ++
      ((fun l => (by_process p, rstrip l)) <$> drop (consumed pr) (emitted pr)) /\
    (exists r', threads s' !! t = Some r' /\ pc r' = in_for p /\ tmp r' = tmp r) /\
    (exists pr', procs s' !! p = Some pr' /\ emitted pr' = emitted pr /\
       drop (consumed pr') (emitted pr') = [] /\
       returncode pr' = returncode pr) /\
    files s' = files s /\ current_proc s' = current_proc s /\
    script_buttons (gui s') = script_buttons (gui s).
Proof.
  remember (drop (consumed pr) (emitted pr)) as ls eqn:Hls.
  revert s r pr Hls. induction ls as [|l ls IH]; intros s r pr Hls Ht Hpc Hp.
  - exists s. simpl. rewrite app_nil_r. repeat split; eauto.
  - assert (emitted pr !! consumed pr = Some l) as Hl.
    { pose proof (lookup_drop (emitted pr) (consumed pr) 0) as H.
      rewrite <- Hls, Nat.add_0_r in H. by rewrite <- H. }
    assert (ls = drop (S (consumed pr)) (emitted pr)) as Hls'.
    { rewrite (drop_S _ _ _ Hl) in Hls. by injection Hls. }
    replace (5 * length (l :: ls))%nat with (5 + 5 * length ls)%nat
      by (simpl; lia).
    rewrite replicate_add, run_app.
    destruct (reader_iteration prompt s t r p pr l Ht Hpc Hp Hl)
      as (s1 & Hrun1 & Hgui1 & Hprocs1 & Hfiles1 & Hcp1 & r1 & Hr1 & Hpc1 & Htmp1).
    rewrite Hrun1. cbn [mbind option_bind].
    destruct (IH s1 r1 (take_line pr))
      as (s' & Hrun & Hbox & (r' & Hr' & Hpc' & Htmp') &
          (pr' & Hpr' & Hem & Hdrop & Hrc) & Hfiles & Hcp & Hbtn).
    + done.
    + done.
    + done.
    + by rewrite Hprocs1, list_lookup_alter_eq, Hp.
    + exists s'. split; [exact Hrun|]. split.
      { rewrite Hbox, Hgui1. simpl. by rewrite <- app_assoc. }
      split; [exists r'; by rewrite Htmp', Htmp1|].
      split; [by exists pr'|].
      split; [congruence|]. split; [congruence|].
      by rewrite Hbtn, Hgui1.
Qed.

(** X14.  A reader in its loop, left alone, forwards everything its child
    has written so far: five steps per pending line (the line is taken,
    then come the four calls of [write_log]) put them all into the
    console, in order and each without its trailing white space, and leave
    the reader in its loop with nothing more to read; the files and
    [current_proc] are not touched. *)
Theorem reader_drains (prompt : bool) (s : State) (t : nat) (r : Reader)
    (p : nat) (pr : Popen) :
  threads s !! t = Some r -> pc r = in_for p -> procs s !! p = Some pr ->
  exists s',
    run prompt
      (replicate (5 * length (drop (consumed pr) (emitted pr))) (thread_step t))
      s = Some s' /\
    output_box (gui s') = output_box (gui s) ++
      ((fun l => (by_process p, rstrip l)) <$> drop (consumed pr) (emitted pr)) /\
    (exists r', threads s' !! t = Some r' /\ pc r' = in_for p /\ tmp r' = tmp r) /\
    (exists pr', procs s' !! p = Some pr' /\ emitted pr' = emitted pr /\
       drop (consumed pr') (emitted pr') = [] /\
       returncode pr' = returncode pr) /\
    files s' = files s /\ current_proc s' = current_proc s.
Proof.
  intros Ht Hpc Hp.
  destruct (reader_loop prompt s t r p pr Ht Hpc Hp)
    as (s' & Hrun & Hbox & Hth & Hpr & Hfiles & Hcp & _).
  by exists s'.
Qed.

Lemma reader_drains_witness :
  exists s',
    run true (replicate 15 (thread_step 0)) abc_pending = Some s' /\
    output_box (gui s') = output_box (gui abc_pending) ++
      [(by_process 0, lit "A"); (by_process 0, lit "B"); (by_process 0, lit "C")] /\
    (exists r', threads s' !! 0%nat = Some r' /\ pc r' = in_for 0 /\
       tmp r' = 0%nat) /\
    (exists pr', procs s' !! 0%nat = Some pr' /\
       emitted pr' = [lit "A" ++ nl; lit "B" ++ nl; lit "C" ++ nl] /\
       drop (consumed pr') (emitted pr') = [] /\ returncode pr' = None) /\
    files s' = files abc_pending /\ current_proc s' = current_proc abc_pending.
Proof.
  apply (reader_drains true abc_pending 0 {| tmp := 0; pc := in_for 0 |} 0
           (put_line (lit "C" ++ nl) (put_line (lit "B" ++ nl)
              (put_line (lit "A" ++ nl) (spawned (tmp_name 0))))));
    vm_compute; reflexivity.
Defined.

Lemma length_reset_ui_calls n : length (reset_ui_calls n) = (n + 2)%nat.
Proof.
  unfold reset_ui_calls. rewrite length_app, length_fmap, length_seq. done.
Qed.

(** A reader at the end of its stream, run to its end. *)
Lemma reader_end (prompt : bool) (s : State) (t : nat) (r : Reader)
    (p : nat) (pr : Popen) (q : nat) (code : Z) (content : str) :
  files s !! tmp r = Some content ->
  threads s !! t = Some r -> pc r = in_for p -> procs s !! p = Some pr ->
  emitted pr !! consumed pr = None -> is_Some (returncode pr) ->
  current_proc s = Some q -> poll q s = Some code ->
  exists s',
    run prompt
      (replicate (9 + length (script_buttons (gui s))) (thread_step t)) s =
      Some s' /\
    is_Some (files s !! tmp r) /\ files s' = delete (tmp r) (files s) /\
    output_box (gui s') = output_box (gui s) ++
      [(by_controller, lit "[Completed] Exit code: " ++ str_of_int code)] /\
    script_buttons (gui s') = (fun _ => normal) <$> script_buttons (gui s) /\
    stop_btn (gui s') = disabled /\ status_label (gui s') = lit "Ready" /\
    procs s' = procs s /\ current_proc s' = current_proc s /\
    (exists r', threads s' !! t = Some r' /\ pc r' = finished) /\
    step prompt (thread_step t) s' = None.
Proof.
  intros Hfile Ht Hpc Hp Heof [c Hrc] Hcp Hpoll.
  set (s1 := with_thread t at_wait s).
  set (s2 := with_thread t (at_remove code) s1).
  set (s3 := with_thread t (at_log code) (delete_file (tmp r) s2)).
  set (message := lit "[Completed] Exit code: " ++ str_of_int code).
  assert (threads s1 !! t = Some (set_pc at_wait r)) as Ht1
    by by apply lookup_with_thread.
  assert (threads s2 !! t = Some (set_pc (at_remove code) (set_pc at_wait r)))
    as Ht2 by by apply lookup_with_thread.
  assert (threads s3 !! t =
          Some (set_pc (at_log code) (set_pc (at_remove code) (set_pc at_wait r))))
    as Ht3 by by apply (lookup_with_thread t _ (delete_file (tmp r) s2)).
  assert (reader_step t s = Some s1) as E1.
  { unfold reader_step. rewrite Ht. simpl. rewrite Hpc, Hp. simpl.
    by rewrite Heof, Hrc. }
  assert (reader_step t s1 = Some s2) as E2.
  { unfold reader_step. rewrite Ht1. simpl.
    change (current_proc s1) with (current_proc s). rewrite Hcp. simpl.
    change (poll q s1) with (poll q s). by rewrite Hpoll. }
  assert (reader_step t s2 = Some s3) as E3.
  { unfold reader_step. rewrite Ht2. simpl. by rewrite Hfile. }
  destruct (run_calls_steps prompt t (write_log_calls by_controller message)
              at_reset s3 _ Ht3)
    as (s4 & Hrun4 & Hgui4 & Hprocs4 & Hfiles4 & Hcp4 & r4 & Ht4 & Hpc4 & Htmp4);
    [done|unfold reader_step; by rewrite Ht3|].
  assert (gui s4 = gui (write_log by_controller message s)) as Hg4
    by (rewrite Hgui4; reflexivity).
  assert (length (script_buttons (gui s4)) = length (script_buttons (gui s)))
    as Hlen4 by by rewrite Hg4.
  destruct (run_calls_steps prompt t
              (reset_ui_calls (length (script_buttons (gui s4)))) finished s4
              r4 Ht4)
    as (s5 & Hrun5 & Hgui5 & Hprocs5 & Hfiles5 & Hcp5 & r5 & Ht5 & Hpc5 & Htmp5).
  { unfold reset_ui_calls. by destruct (_ <$> _). }
  { unfold reader_step. rewrite Ht4. simpl. by rewrite Hpc4. }
  assert (gui s5 = gui (reset_ui s4)) as Hg5.
  { rewrite Hgui5, <- (reset_ui_whole s4). reflexivity. }
  rewrite length_reset_ui_calls, Hlen4 in Hrun5.
  exists s5. split.
  { replace (9 + length (script_buttons (gui s)))%nat with
      (3 + (4 + (length (script_buttons (gui s)) + 2)))%nat by lia.
    rewrite replicate_add, run_app.
    change (replicate 3 (thread_step t)) with
      [thread_step t; thread_step t; thread_step t].
    cbn [run step]. rewrite E1. cbn [mbind option_bind]. rewrite E2.
    cbn [mbind option_bind]. rewrite E3. cbn [mbind option_bind].
    rewrite replicate_add, run_app.
    change (length (write_log_calls by_controller message)) with 4%nat in Hrun4.
    rewrite Hrun4. cbn [mbind option_bind]. exact Hrun5. }
  split; [by eexists|].
  split; [by rewrite Hfiles5, Hfiles4|].
  split; [by rewrite Hg5; simpl; rewrite Hg4|].
  split; [by rewrite Hg5; simpl; rewrite Hg4|].
  split; [by rewrite Hg5|]. split; [by rewrite Hg5|].
  split; [by rewrite Hprocs5, Hprocs4|].
  split; [by rewrite Hcp5, Hcp4|].
  split; [by exists r5|].
  simpl. unfold reader_step. rewrite Ht5. simpl. by rewrite Hpc5.
Qed.

(** X15.  When the stream of its child is at its end, the reader, left
    alone, is done after nine steps and one more per script button: it
    leaves the loop, waits for the child [current_proc] refers to (not
    necessarily its own), removes its temporary file, writes [Completed]
    with the exit code of that child (four calls), enables the script
    buttons one by one, disables Stop, sets the status, and ends. *)
Theorem reader_finishes (prompt : bool) (s : State) (t : nat) (r : Reader)
    (p : nat) (pr : Popen) (q : nat) (code : Z) :
  reachable prompt s ->
  threads s !! t = Some r -> pc r = in_for p -> procs s !! p = Some pr ->
  emitted pr !! consumed pr = None -> is_Some (returncode pr) ->
  current_proc s = Some q -> poll q s = Some code ->
  exists s',
    run prompt
      (replicate (9 + length (script_buttons (gui s))) (thread_step t)) s =
      Some s' /\
    is_Some (files s !! tmp r) /\ files s' = delete (tmp r) (files s) /\
    output_box (gui s') = output_box (gui s) ++
      [(by_controller, lit "[Completed] Exit code: " ++ str_of_int code)] /\
    script_buttons (gui s') = (fun _ => normal) <$> script_buttons (gui s) /\
    stop_btn (gui s') = disabled /\ status_label (gui s') = lit "Ready" /\
    procs s' = procs s /\ current_proc s' = current_proc s /\
    (exists r', threads s' !! t = Some r' /\ pc r' = finished) /\
    step prompt (thread_step t) s' = None.
Proof.
  intros Hreach Ht Hpc Hp Heof Hrc Hcp Hpoll.
  assert (is_Some (files s !! tmp r)) as [content Hfile].
  { apply reachable_files_inv in Hreach as [_ _ _ _ _ _ Hb _].
    apply (Hb t r Ht). by rewrite Hpc. }
  by eapply reader_end.
Qed.

Lemma reader_finishes_witness :
  exists s',
    run true (replicate 22 (thread_step 0)) silent_exit = Some s' /\
    is_Some (files silent_exit !! 0%nat) /\
    files s' = delete 0%nat (files silent_exit) /\
    output_box (gui s') = output_box (gui silent_exit) ++
      [(by_controller, lit "[Completed] Exit code: 3")] /\
    script_buttons (gui s') =
      (fun _ => normal) <$> script_buttons (gui silent_exit) /\
    stop_btn (gui s') = disabled /\ status_label (gui s') = lit "Ready" /\
    procs s' = procs silent_exit /\ current_proc s' = current_proc silent_exit /\
    (exists r', threads s' !! 0%nat = Some r' /\ pc r' = finished) /\
    step true (thread_step 0) s' = None.
Proof.
  apply (reader_finishes true silent_exit 0 {| tmp := 0; pc := in_for 0 |} 0
           (exit_with 3 (spawned (tmp_name 0))) 0 3).
  - apply (run_reachable true
             [click_script 9 (fine one_liner); thread_step 0; proc_exit 0 3]
             initial); [constructor|vm_compute; reflexivity].
  - vm_compute. reflexivity.
  - reflexivity.
  - vm_compute. reflexivity.
  - reflexivity.
  - by eexists.
  - vm_compute. reflexivity.
  - vm_compute. reflexivity.
Defined.

(** ** Stop, from the click to the end of the reader *)

(** X16.  Stop on a live child whose reader is in its loop runs to a clean
    end when the reader is then left alone: the child is killed,
    [Stopped] is written, the reader forwards what the child had still
    written, removes the temporary file, writes [Completed] with the
    status of the kill (or the child's own, if it exited first), and
    leaves the script buttons enabled and Stop disabled. *)
Theorem stop_runs_to_completion (prompt : bool) (s : State) (t : nat)
    (r : Reader) (p : nat) (pr : Popen) (race : option Z) :
  reachable prompt s -> threads s !! t = Some r -> pc r = in_for p ->
  current_proc s = Some p -> procs s !! p = Some pr -> returncode pr = None ->
  exists s1 s2,
    stop_process race s = Returned s1 /\
    run prompt
      (replicate (5 * length (drop (consumed pr) (emitted pr)) +
                  (9 + length (script_buttons (gui s))))
         (thread_step t)) s1 = Some s2 /\
    output_box (gui s2) = output_box (gui s) ++
      [(by_controller, lit "[Stopped]")] ++
      ((fun l => (by_process p, rstrip l)) <$> drop (consumed pr) (emitted pr)) ++
      [(by_controller, lit "[Completed] Exit code: " ++
          str_of_int (default killed_status race))] /\
    is_Some (files s !! tmp r) /\ files s2 = delete (tmp r) (files s) /\
    Forall (fun b => b = normal) (script_buttons (gui s2)) /\
    stop_btn (gui s2) = disabled /\ status_label (gui s2) = lit "Ready".
Proof.
  intros Hreach Ht Hpc Hcp Hp Hrc.
  assert (is_Some (files s !! tmp r)) as [content Hfile].
  { apply reachable_files_inv in Hreach as [_ _ _ _ _ _ Hb _].
    apply (Hb t r Ht). by rewrite Hpc. }
  assert (poll p s = None) as Hpoll by (unfold poll; by rewrite Hp).
  set (s1 := reset_ui (write_log by_controller (lit "[Stopped]")
               (kill p match race with
                       | Some code => with_proc p (exit_with code) s
                       | None => s
                       end))).
  assert (stop_process race s = Returned s1) as Hstop.
  { unfold stop_process. by rewrite Hcp, Hpoll. }
  assert (exists pr1, procs s1 !! p = Some pr1 /\ emitted pr1 = emitted pr /\
            consumed pr1 = consumed pr /\
            returncode pr1 = Some (default killed_status race))
    as (pr1 & Hp1 & Hem1 & Hco1 & Hrc1).
  { destruct race; simpl; rewrite ?list_lookup_alter_eq, Hp; simpl;
      eexists; (split; [reflexivity|]); simpl; by rewrite Hrc. }
  assert (threads s1 !! t = Some r) as Ht1 by by destruct race.
  destruct (reader_loop prompt s1 t r p pr1 Ht1 Hpc Hp1)
    as (s2 & Hrun2 & Hbox2 & (r2 & Ht2 & Hpc2 & Htmp2) &
        (pr2 & Hp2 & Hem2 & Hdrop2 & Hrc2) & Hfiles2 & Hcp2 & Hbtn2).
  rewrite Hem1, Hco1 in Hrun2, Hbox2.
  assert (emitted pr2 !! consumed pr2 = None) as Heof.
  { pose proof (lookup_drop (emitted pr2) (consumed pr2) 0) as H.
    rewrite Hdrop2, Nat.add_0_r in H. by rewrite <- H. }
  assert (files s2 !! tmp r2 = Some content) as Hfile2.
  { rewrite Hfiles2, Htmp2. by destruct race. }
  assert (current_proc s2 = Some p) as Hcp2'.
  { rewrite Hcp2. by destruct race. }
  assert (poll p s2 = Some (default killed_status race)) as Hpoll2.
  { unfold poll. rewrite Hp2. simpl. congruence. }
  destruct (reader_end prompt s2 t r2 p pr2 p (default killed_status race)
              content Hfile2 Ht2 Hpc2 Hp2 Heof) as
    (s3 & Hrun3 & _ & Hfiles3 & Hbox3 & Hbtn3 & Hstop3 & Hlbl3 & _);
    [rewrite Hrc2, Hrc1; by eexists|done..|].
  assert (length (script_buttons (gui s2)) = length (script_buttons (gui s)))
    as Hlen2.
  { rewrite Hbtn2. destruct race; simpl; by rewrite length_fmap. }
  rewrite Hlen2 in Hrun3.
  exists s1, s3. split; [done|]. split.
  { rewrite replicate_add, run_app, Hrun2. exact Hrun3. }
  split.
  { rewrite Hbox3, Hbox2.
    assert (output_box (gui s1) =
            output_box (gui s) ++ [(by_controller, lit "[Stopped]")]) as ->
      by by destruct race.
    by rewrite <- !app_assoc. }
  split; [by eexists|]. split.
  { rewrite Hfiles3, Htmp2, Hfiles2. by destruct race. }
  split; [|done]. rewrite Hbtn3. apply Forall_fmap, Forall_forall. done.
Qed.

Lemma stop_runs_to_completion_witness :
  exists s1 s2,
    stop_process None abc_pending = Returned s1 /\
    run true (replicate 37 (thread_step 0)) s1 = Some s2 /\
    output_box (gui s2) = output_box (gui abc_pending) ++
      [(by_controller, lit "[Stopped]")] ++
      [(by_process 0, lit "A"); (by_process 0, lit "B"); (by_process 0, lit "C")] ++
      [(by_controller, lit "[Completed] Exit code: 1")] /\
    is_Some (files abc_pending !! 0%nat) /\
    files s2 = delete 0%nat (files abc_pending) /\
    Forall (fun b => b = normal) (script_buttons (gui s2)) /\
    stop_btn (gui s2) = disabled /\ status_label (gui s2) = lit "Ready".
Proof.
  apply (stop_runs_to_completion true abc_pending 0
           {| tmp := 0; pc := in_for 0 |} 0
           (put_line (lit "C" ++ nl) (put_line (lit "B" ++ nl)
              (put_line (lit "A" ++ nl) (spawned (tmp_name 0))))) None).
  - apply (run_reachable true (take 5 abc) initial);
      [constructor|vm_compute; reflexivity].
  - vm_compute. reflexivity.
  - reflexivity.
  - vm_compute. reflexivity.
  - vm_compute. reflexivity.
  - reflexivity.
Defined.
